(** * HuelladeCarbono: the change-processing pipeline, the emission
      calculation engine and the free-tier storage guard.

    A shallow embedding of

      - [lib/agents/calc-agent.ts]       (module [CalcAgent])
      - [lib/agents/validation-agent.ts] (module [ValidationAgent])
      - [lib/agents/audit-agent.ts]      (module [AuditAgent])
      - [lib/agents/orchestrator.ts]     (module [Orchestrator])
      - [lib/db/free-tier-guard.ts]      (module [FreeTierGuard])
      - [lib/db/pg-store.ts]             (module [PgStore])
      - [lib/db/json-store.ts], [lib/db/csv-handler.ts]
                                         (modules [JsonStore], [CsvHandler])

    followed by the properties proved about them.

    Numbers.  A JavaScript [number] is an IEEE-754 binary64 value.  The
    arithmetic code is written once, over the interface [JsNumber], and is
    instantiated twice:

      - [Float64]: Rocq's primitive binary64 floats, what the code
        computes, bit for bit;
      - [Exact]: the rationals [Q], the real-number reading of the same
        operations.  It has no rounding error, no NaN and no infinity
        (a quotient by 0 is 0 there): what is stated on it is said to
        hold in exact arithmetic, and the properties of the code are
        stated for every instance or on [Float64].

    Strings built from numbers (template literals, [toFixed]) are kept as
    the list of their parts ([Text]) and are not rendered. *)

From Stdlib Require Import ZArith QArith Qround Qabs Lia Lqa List String Ascii.
From Stdlib Require Import Floats.PrimFloat Floats.FloatOps Floats.SpecFloat.
From Stdlib Require Import Floats.FloatAxioms Uint63.
From stdpp Require Import base option gmap strings sorting.

Set Warnings "-inexact-float".
#[local] Open Scope Z_scope.

(* ================================================================== *)
(** * JavaScript numbers                                               *)
(* ================================================================== *)

(** The operations of [number] the modelled code uses. *)
Class JsNumber (N : Type) := {
  (** a numeric literal of the source, given by its decimal value *)
  lit : Q -> N;
  add : N -> N -> N;
  sub : N -> N -> N;
  mul : N -> N -> N;
  div : N -> N -> N;
  (** [x < y]; [x > y] is [ltb y x] *)
  ltb : N -> N -> bool;
  (** [Math.abs] *)
  Math_abs : N -> N;
  (** [Math.round]: the nearest integer, a tie going towards +infinity *)
  Math_round : N -> N;
  (** ToBoolean: false for [0], [-0] and [NaN] *)
  truthy : N -> bool;
  (** [JSON.parse(JSON.stringify(x))]: the number itself, [0] for [-0],
      and [None] for the [null] that NaN and the infinities are written
      as *)
  json : N -> option N;
}.

Declare Scope js_scope.
Delimit Scope js_scope with js.
Infix "+" := add : js_scope.
Infix "-" := sub : js_scope.
Infix "*" := mul : js_scope.
Infix "/" := div : js_scope.
Notation "x <? y" := (ltb x y) : js_scope.
Notation "x >? y" := (ltb y x) : js_scope.

(** [NaN], written as the quotient [0 / 0] that evaluates to it. *)
Definition NaN {N} `{JsNumber N} : N := (lit 0 / lit 0)%js.

(** ** Numbers in JSON documents

    A numeric field of an object that [JSON.parse] has read, or that is
    about to be written: a number, [null], or no field at all.  The
    repository writes its documents with [JSON.stringify], so that a
    stored field is never NaN or infinite. *)
Inductive JsonNumber (N : Type) : Type :=
  | JNum (x : N)
  | JNull
  | JAbsent.
Arguments JNum {N} x.
Arguments JNull {N}.
Arguments JAbsent {N}.

(** ToNumber, which the arithmetic and relational operators apply to
    an operand: [null] is 0 and [undefined] is NaN. *)
Definition to_number {N} `{JsNumber N} (v : JsonNumber N) : N :=
  match v with
  | JNum x => x
  | JNull => lit 0
  | JAbsent => NaN
  end.

(** What [JSON.stringify] followed by [JSON.parse] makes of a field. *)
Definition json_field {N} `{JsNumber N} (v : JsonNumber N) : JsonNumber N :=
  match v with
  | JNum x =>
      match json x with
      | Some y => JNum y
      | None => JNull
      end
  | JNull => JNull
  | JAbsent => JAbsent
  end.

(** [a || b] on a field that is read through [?.], as in
    [org?.num_empleados || 1]: [a] is [None] when the object is
    missing. *)
Definition or_else {N} `{JsNumber N} (a : option (JsonNumber N)) (b : N) : N :=
  match a with
  | Some (JNum x) => if truthy x then x else b
  | _ => b
  end.

(** ** The exact instance *)

Module Exact.

Definition round (x : Q) : Q := inject_Z (Qfloor (x + (1 # 2))).

Definition lt (x y : Q) : bool :=
  match Qcompare x y with Lt => true | _ => false end.

#[global] Instance number : JsNumber Q := {|
  lit q := q;
  add := Qplus;
  sub := Qminus;
  mul := Qmult;
  div := Qdiv;
  ltb := lt;
  Math_abs := Qabs;
  Math_round := round;
  truthy x := negb (Qeq_bool x 0%Q);
  json x := Some x;
|}.

End Exact.

(** ** The binary64 instance *)

Module Float64.

(** The float of an integer; exact while [|z| <= 2^53]. *)
Definition of_Z (z : Z) : float :=
  match z with
  | Z0 => PrimFloat.zero
  | Zpos _ => PrimFloat.of_uint63 (Uint63.of_Z z)
  | Zneg p => PrimFloat.opp (PrimFloat.of_uint63 (Uint63.of_Z (Zpos p)))
  end.

(** The literal [q]: the quotient of two exactly represented integers is
    rounded once, to the double nearest to [q]. *)
Definition of_Q (q : Q) : float :=
  PrimFloat.div (of_Z (Qnum q)) (of_Z (Zpos (Qden q))).

(** The rational a finite float stands for. *)
Definition to_Q (x : float) : option Q :=
  match Prim2SF x with
  | S754_zero _ => Some 0%Q
  | S754_finite s m e =>
      let mag := if 0 <=? e then inject_Z (Zpos m * 2 ^ e)
                 else Zpos m # Pos.shiftl 1 (Z.to_N (- e)) in
      Some (if s then Qopp mag else mag)
  | S754_infinity _ | S754_nan => None
  end.

(** [Math.round]: NaN, the zeros, the infinities and the floats that are
    integers already (exponent >= 0) are returned as they are; otherwise
    [floor (x + 1/2)], computed on the exact value, with [-0] for
    [-0.5 <= x < 0]. *)
Definition round (x : float) : float :=
  match Prim2SF x, to_Q x with
  | S754_finite s _ e, Some q =>
      if 0 <=? e then x
      else
        let z := Qfloor (q + (1 # 2)) in
        if z =? 0 then (if s then PrimFloat.neg_zero else PrimFloat.zero)
        else of_Z z
  | _, _ => x
  end.

#[global] Instance number : JsNumber float := {|
  lit := of_Q;
  add := PrimFloat.add;
  sub := PrimFloat.sub;
  mul := PrimFloat.mul;
  div := PrimFloat.div;
  ltb := PrimFloat.ltb;
  Math_abs := PrimFloat.abs;
  Math_round := round;
  truthy x := negb (PrimFloat.eqb x PrimFloat.zero) && PrimFloat.eqb x x;
  json x :=
    if PrimFloat.is_finite x
    then Some (if PrimFloat.is_zero x then PrimFloat.zero else x)
    else None;
|}.

End Float64.

(* ================================================================== *)
(** * Text: template literals, unrendered                              *)
(* ================================================================== *)

(** A value of type [any] as the pipeline inspects it ([typeof]). *)
Inductive JsValue (N : Type) : Type :=
  | JsNum (x : N)
  | JsStr (s : string)
  | JsBool (b : bool)
  | JsNull
  | JsUndefined.
Arguments JsNum {N} x.
Arguments JsStr {N} s.
Arguments JsBool {N} b.
Arguments JsNull {N}.
Arguments JsUndefined {N}.

(** One part of a template literal. *)
Inductive Part (N : Type) : Type :=
  | Lit (s : string)                  (* literal text *)
  | PStr (s : string)                 (* [${s}], a string *)
  | PInt (z : Z)                      (* [${z}], an integer *)
  | PNum (x : N)                      (* [${x}], a number *)
  | PFixed (digits : nat) (x : N)     (* [${x.toFixed(digits)}] *)
  | PLocale (z : Z)                   (* [${z.toLocaleString()}] *)
  | PVal (v : JsValue N).             (* [String(v)] *)
Arguments Lit {N} s.
Arguments PStr {N} s.
Arguments PInt {N} z.
Arguments PNum {N} x.
Arguments PFixed {N} digits x.
Arguments PLocale {N} z.
Arguments PVal {N} v.

Definition Text (N : Type) : Type := list (Part N).

(* ================================================================== *)
(** * Strings                                                          *)
(* ================================================================== *)

(** [s.trim() === ''], which is also [!s.trim()]: every character of
    [s] is white space or a line terminator.  A string is the sequence
    of the bytes of its UTF-8 encoding; the characters are TAB, LF, VT,
    FF, CR, SP, U+00A0, U+1680, U+2000 to U+200A, U+2028, U+2029,
    U+202F, U+205F, U+3000 and U+FEFF. *)
Fixpoint trim_is_empty (s : list ascii) : bool :=
  match s with
  | [] => true
  | c :: rest =>
      let b := nat_of_ascii c in
      if ((9 <=? b) && (b <=? 13) || (b =? 32))%nat then trim_is_empty rest
      else
        match rest with
        | c2 :: rest2 =>
            let b2 := nat_of_ascii c2 in
            if ((b =? 194) && (b2 =? 160))%nat then trim_is_empty rest2
            else
              match rest2 with
              | c3 :: rest3 =>
                  let b3 := nat_of_ascii c3 in
                  if ((b =? 225) && (b2 =? 154) && (b3 =? 128)
                      || (b =? 226) && (b2 =? 128)
                         && ((128 <=? b3) && (b3 <=? 138) || (b3 =? 168) || (b3 =? 169)
                             || (b3 =? 175))
                      || (b =? 226) && (b2 =? 129) && (b3 =? 159)
                      || (b =? 227) && (b2 =? 128) && (b3 =? 128)
                      || (b =? 239) && (b2 =? 187) && (b3 =? 191))%nat
                  then trim_is_empty rest3
                  else false
              | [] => false
              end
        | [] => false
        end
  end.


(* ================================================================== *)
(** * types/hc-schemas.ts                                              *)
(* ================================================================== *)

Module HcSchemas.
Section Schemas.
Context {N : Type} `{JsNumber N}.

(** PCA del AR6 IPCC. *)
Definition PCA_CH4 : N := lit 27.9.
Definition PCA_N2O : N := lit 273.

(** Factor de emisión: CO2 (kg/ud), CH4 (g/ud), N2O (g/ud). *)
Record FactorEmision := {
  co2_kg_ud : N;
  ch4_g_ud : N;
  n2o_g_ud : N;
}.

(** The activity records, with the fields the aggregation reads.  The
    six record types with a field [emisiones_totales_kg_co2e]
    (installations, vehicles A1/A2, other transport, machinery) share
    one shape here, and likewise the ones with [emisiones_kg_co2e] and
    with [emisiones_kg_co2]. *)
Record RegistroTotales := {
  rt_id : string;
  emisiones_totales_kg_co2e : N;
}.
Record RegistroCO2e := {
  rc_id : string;
  emisiones_kg_co2e : N;
}.
Record RegistroCO2 := {
  re_id : string;
  emisiones_kg_co2 : N;
}.

Record Scope1InstalacionesFijas := {
  no_sujetas_ley_1_2005 : list RegistroTotales;
  sujetas_ley_1_2005 : list RegistroTotales;
}.

Record Scope1Vehiculos := {
  transporte_carretera_A1_combustible : list RegistroTotales;
  transporte_carretera_A2_distancia_km : list RegistroTotales;
  transporte_ferroviario_maritimo_aereo : list RegistroTotales;
  maquinaria_movil : list RegistroTotales;
}.

Record Scope1Fugitivas := {
  climatizacion_refrigeracion : list RegistroCO2e;
  otros : list RegistroCO2e;
}.

Record Scope1Proceso := {
  emisiones : list RegistroCO2e;
}.

Record Scope2Electricidad := {
  electricidad_edificios_l : list RegistroCO2;
  electricidad_vehiculos_l : list RegistroCO2;
  calor_vapor_frio_l : list RegistroCO2;
}.

Record IndiceActividad := {
  ia_nombre : string;
  valor : N;
  unidades : string;
}.

Record Organizacion := {
  nombre : string;
  cif_nif : string;
  superficie_m2 : N;
  num_empleados : N;
  indice_actividad : option IndiceActividad;
}.

(** The results.  A field name that two records of the source share
    carries a suffix in one of them: [_t] and [_l], and [a1_], [a2_]
    for the two [total_t_co2e]. *)
Record Alcance1 := {
  instalaciones_fijas_no_ley : N;
  instalaciones_fijas_ley : N;
  transporte_carretera : N;
  transporte_ferroviario_maritimo_aereo_t : N;
  maquinaria : N;
  fugitivas : N;
  proceso : N;
  a1_total_t_co2e : N;
}.

Record Alcance2 := {
  electricidad_edificios : N;
  electricidad_vehiculos : N;
  calor_vapor_frio : N;
  a2_total_t_co2e : N;
}.

Record Ratios := {
  t_co2e_por_empleado : N;
  t_co2e_por_m2 : N;
  t_co2e_por_indice_actividad : N;
}.

Record Resultados := {
  anio_calculo : Z;
  alcance_1 : Alcance1;
  alcance_2 : Alcance2;
  total_alcance_1_2_t_co2e : N;
  ratios : Ratios;
}.

Inductive AccionAuditoria :=
  | CREATE | UPDATE | DELETE | CALCULATE | EXPORT | LOGIN | LOGOUT | IMPORT.

(** A row of [audit_log.csv]. *)
Record AuditLog := {
  al_id : string;
  user_id : string;
  org_id : string;
  accion : AccionAuditoria;
  entidad_tipo : string;
  entidad_id : string;
  campo_modificado : string;
  valor_anterior : Text N;
  valor_nuevo : Text N;
  al_timestamp : string;
  ip_address : string;
  session_id : string;
}.

Inductive AffectedScope := scope1 | scope2 | both.

Record DataChangeEvent := {
  userId : string;
  orgId : string;
  anio : Z;
  entity : string;
  entityId : option string;
  field : string;
  oldValue : JsValue N;
  newValue : JsValue N;
  affectedScope : AffectedScope;
  timestamp : string;
}.

Inductive Severity := error | warning.

Record ValidationEntry := {
  ve_field : string;
  message : Text N;
  severity : Severity;
}.

Record ValidationResult := {
  isValid : bool;
  errors : list ValidationEntry;
}.

(** Reference data ([EmissionFactors], [Dropdowns]): the fields the
    validation reads. *)
Record EmissionFactors := {
  anios_disponibles : list Z;
}.

Record Dropdowns := {
  tipos_combustible_fijo : list string;
  tipos_combustible_vehiculo : list string;
}.

End Schemas.
Arguments FactorEmision N : clear implicits.
Arguments RegistroTotales N : clear implicits.
Arguments RegistroCO2e N : clear implicits.
Arguments RegistroCO2 N : clear implicits.
Arguments Scope1InstalacionesFijas N : clear implicits.
Arguments Scope1Vehiculos N : clear implicits.
Arguments Scope1Fugitivas N : clear implicits.
Arguments Scope1Proceso N : clear implicits.
Arguments Scope2Electricidad N : clear implicits.
Arguments IndiceActividad N : clear implicits.
Arguments Organizacion N : clear implicits.
Arguments Alcance1 N : clear implicits.
Arguments Alcance2 N : clear implicits.
Arguments Ratios N : clear implicits.
Arguments Resultados N : clear implicits.
Arguments AuditLog N : clear implicits.
Arguments DataChangeEvent N : clear implicits.
Arguments ValidationEntry N : clear implicits.
Arguments ValidationResult N : clear implicits.

(** ** Documents as they are stored

    A stored document ([data/orgs/.../*.json], the JSONB column of
    [org_year_data]) is read at its declared type with [JsonNumber] for
    the type of its numeric fields: the repository's own writers leave a
    field out (the route of the fixed installations stores a record
    without [emisiones_totales_kg_co2e] when its quantity is 0) and
    [JSON.stringify] writes NaN as [null].  [json_X d] is what is read
    back after [d] was written. *)
Section Json.
Context {N : Type} `{JsNumber N}.

Definition json_RegistroTotales (r : RegistroTotales (JsonNumber N))
  : RegistroTotales (JsonNumber N) :=
  {| rt_id := rt_id r;
     emisiones_totales_kg_co2e := json_field (emisiones_totales_kg_co2e r) |}.

Definition json_RegistroCO2e (r : RegistroCO2e (JsonNumber N))
  : RegistroCO2e (JsonNumber N) :=
  {| rc_id := rc_id r; emisiones_kg_co2e := json_field (emisiones_kg_co2e r) |}.

Definition json_RegistroCO2 (r : RegistroCO2 (JsonNumber N))
  : RegistroCO2 (JsonNumber N) :=
  {| re_id := re_id r; emisiones_kg_co2 := json_field (emisiones_kg_co2 r) |}.

Definition json_Scope1InstalacionesFijas (d : Scope1InstalacionesFijas (JsonNumber N))
  : Scope1InstalacionesFijas (JsonNumber N) :=
  {| no_sujetas_ley_1_2005 := map json_RegistroTotales (no_sujetas_ley_1_2005 d);
     sujetas_ley_1_2005 := map json_RegistroTotales (sujetas_ley_1_2005 d) |}.

Definition json_Scope1Vehiculos (d : Scope1Vehiculos (JsonNumber N))
  : Scope1Vehiculos (JsonNumber N) :=
  {| transporte_carretera_A1_combustible :=
       map json_RegistroTotales (transporte_carretera_A1_combustible d);
     transporte_carretera_A2_distancia_km :=
       map json_RegistroTotales (transporte_carretera_A2_distancia_km d);
     transporte_ferroviario_maritimo_aereo :=
       map json_RegistroTotales (transporte_ferroviario_maritimo_aereo d);
     maquinaria_movil := map json_RegistroTotales (maquinaria_movil d) |}.

Definition json_Scope1Fugitivas (d : Scope1Fugitivas (JsonNumber N))
  : Scope1Fugitivas (JsonNumber N) :=
  {| climatizacion_refrigeracion :=
       map json_RegistroCO2e (climatizacion_refrigeracion d);
     otros := map json_RegistroCO2e (otros d) |}.

Definition json_Scope1Proceso (d : Scope1Proceso (JsonNumber N))
  : Scope1Proceso (JsonNumber N) :=
  {| emisiones := map json_RegistroCO2e (emisiones d) |}.

Definition json_Scope2Electricidad (d : Scope2Electricidad (JsonNumber N))
  : Scope2Electricidad (JsonNumber N) :=
  {| electricidad_edificios_l := map json_RegistroCO2 (electricidad_edificios_l d);
     electricidad_vehiculos_l := map json_RegistroCO2 (electricidad_vehiculos_l d);
     calor_vapor_frio_l := map json_RegistroCO2 (calor_vapor_frio_l d) |}.

Definition json_IndiceActividad (d : IndiceActividad (JsonNumber N))
  : IndiceActividad (JsonNumber N) :=
  {| ia_nombre := ia_nombre d;
     valor := json_field (valor d);
     unidades := unidades d |}.

Definition json_Organizacion (d : Organizacion (JsonNumber N))
  : Organizacion (JsonNumber N) :=
  {| nombre := nombre d;
     cif_nif := cif_nif d;
     superficie_m2 := json_field (superficie_m2 d);
     num_empleados := json_field (num_empleados d);
     indice_actividad := json_IndiceActividad <$> indice_actividad d |}.

End Json.

(** The results, field by field. *)
Definition map_Resultados {A B : Type} (f : A -> B) (d : Resultados A) : Resultados B :=
  {| anio_calculo := anio_calculo d;
     alcance_1 :=
       {| instalaciones_fijas_no_ley := f (instalaciones_fijas_no_ley (alcance_1 d));
          instalaciones_fijas_ley := f (instalaciones_fijas_ley (alcance_1 d));
          transporte_carretera := f (transporte_carretera (alcance_1 d));
          transporte_ferroviario_maritimo_aereo_t :=
            f (transporte_ferroviario_maritimo_aereo_t (alcance_1 d));
          maquinaria := f (maquinaria (alcance_1 d));
          fugitivas := f (fugitivas (alcance_1 d));
          proceso := f (proceso (alcance_1 d));
          a1_total_t_co2e := f (a1_total_t_co2e (alcance_1 d)) |};
     alcance_2 :=
       {| electricidad_edificios := f (electricidad_edificios (alcance_2 d));
          electricidad_vehiculos := f (electricidad_vehiculos (alcance_2 d));
          calor_vapor_frio := f (calor_vapor_frio (alcance_2 d));
          a2_total_t_co2e := f (a2_total_t_co2e (alcance_2 d)) |};
     total_alcance_1_2_t_co2e := f (total_alcance_1_2_t_co2e d);
     ratios :=
       {| t_co2e_por_empleado := f (t_co2e_por_empleado (ratios d));
          t_co2e_por_m2 := f (t_co2e_por_m2 (ratios d));
          t_co2e_por_indice_actividad := f (t_co2e_por_indice_actividad (ratios d)) |} |}.

(** Results as an object in memory, every field a number, and what is
    read back after they were written. *)
Definition json_Resultados {N : Type} `{JsNumber N} (d : Resultados (JsonNumber N))
  : Resultados (JsonNumber N) :=
  map_Resultados json_field d.

End HcSchemas.
Import HcSchemas.


(* ================================================================== *)
(** * lib/db/json-store.ts                                             *)
(* ================================================================== *)

Module JsonStore.
Section Store.
Context {N : Type} `{JsNumber N}.

(** [data/orgs/{org_id}/{anio}/]: one JSON file per kind of data.
    [readJSON] gives [null] for a file that is missing or does not
    parse; [writeJSON] replaces the file by the [JSON.stringify] text
    of its argument. *)
Record Files := {
  organization_json : gmap (string * Z) (Organizacion (JsonNumber N));
  scope1_instalaciones_fijas_json : gmap (string * Z) (Scope1InstalacionesFijas (JsonNumber N));
  scope1_vehiculos_json : gmap (string * Z) (Scope1Vehiculos (JsonNumber N));
  scope1_fugitivas_json : gmap (string * Z) (Scope1Fugitivas (JsonNumber N));
  scope1_proceso_json : gmap (string * Z) (Scope1Proceso (JsonNumber N));
  scope2_electricidad_json : gmap (string * Z) (Scope2Electricidad (JsonNumber N));
  results_json : gmap (string * Z) (Resultados (JsonNumber N));
}.

Definition loadOrganization (orgId : string) (anio : Z) (fs : Files)
  : option (Organizacion (JsonNumber N)) :=
  organization_json fs !! (orgId, anio).

Definition loadScope1InstalacionesFijas (orgId : string) (anio : Z) (fs : Files)
  : option (Scope1InstalacionesFijas (JsonNumber N)) :=
  scope1_instalaciones_fijas_json fs !! (orgId, anio).

Definition loadScope1Vehiculos (orgId : string) (anio : Z) (fs : Files)
  : option (Scope1Vehiculos (JsonNumber N)) :=
  scope1_vehiculos_json fs !! (orgId, anio).

Definition loadScope1Fugitivas (orgId : string) (anio : Z) (fs : Files)
  : option (Scope1Fugitivas (JsonNumber N)) :=
  scope1_fugitivas_json fs !! (orgId, anio).

Definition loadScope1Proceso (orgId : string) (anio : Z) (fs : Files)
  : option (Scope1Proceso (JsonNumber N)) :=
  scope1_proceso_json fs !! (orgId, anio).

Definition loadScope2Electricidad (orgId : string) (anio : Z) (fs : Files)
  : option (Scope2Electricidad (JsonNumber N)) :=
  scope2_electricidad_json fs !! (orgId, anio).

Definition saveResults (orgId : string) (anio : Z) (data : Resultados N)
  (fs : Files) : Files :=
  {| organization_json := organization_json fs;
     scope1_instalaciones_fijas_json := scope1_instalaciones_fijas_json fs;
     scope1_vehiculos_json := scope1_vehiculos_json fs;
     scope1_fugitivas_json := scope1_fugitivas_json fs;
     scope1_proceso_json := scope1_proceso_json fs;
     scope2_electricidad_json := scope2_electricidad_json fs;
     results_json :=
       <[(orgId, anio) := json_Resultados (map_Resultados JNum data)]> (results_json fs) |}.

Definition loadResults (orgId : string) (anio : Z) (fs : Files)
  : option (Resultados (JsonNumber N)) :=
  results_json fs !! (orgId, anio).

Definition empty : Files :=
  {| organization_json := ∅;
     scope1_instalaciones_fijas_json := ∅;
     scope1_vehiculos_json := ∅;
     scope1_fugitivas_json := ∅;
     scope1_proceso_json := ∅;
     scope2_electricidad_json := ∅;
     results_json := ∅ |}.

(** The other savers. *)
Definition saveOrganization (orgId : string) (anio : Z) (data : Organizacion (JsonNumber N))
  (fs : Files) : Files :=
  {| organization_json := <[(orgId, anio) := json_Organizacion data]> (organization_json fs);
     scope1_instalaciones_fijas_json := scope1_instalaciones_fijas_json fs;
     scope1_vehiculos_json := scope1_vehiculos_json fs;
     scope1_fugitivas_json := scope1_fugitivas_json fs;
     scope1_proceso_json := scope1_proceso_json fs;
     scope2_electricidad_json := scope2_electricidad_json fs;
     results_json := results_json fs |}.

Definition saveScope1InstalacionesFijas (orgId : string) (anio : Z)
  (data : Scope1InstalacionesFijas (JsonNumber N)) (fs : Files) : Files :=
  {| organization_json := organization_json fs;
     scope1_instalaciones_fijas_json :=
       <[(orgId, anio) := json_Scope1InstalacionesFijas data]> (scope1_instalaciones_fijas_json fs);
     scope1_vehiculos_json := scope1_vehiculos_json fs;
     scope1_fugitivas_json := scope1_fugitivas_json fs;
     scope1_proceso_json := scope1_proceso_json fs;
     scope2_electricidad_json := scope2_electricidad_json fs;
     results_json := results_json fs |}.

Definition saveScope1Vehiculos (orgId : string) (anio : Z)
  (data : Scope1Vehiculos (JsonNumber N)) (fs : Files) : Files :=
  {| organization_json := organization_json fs;
     scope1_instalaciones_fijas_json := scope1_instalaciones_fijas_json fs;
     scope1_vehiculos_json := <[(orgId, anio) := json_Scope1Vehiculos data]> (scope1_vehiculos_json fs);
     scope1_fugitivas_json := scope1_fugitivas_json fs;
     scope1_proceso_json := scope1_proceso_json fs;
     scope2_electricidad_json := scope2_electricidad_json fs;
     results_json := results_json fs |}.

Definition saveScope1Fugitivas (orgId : string) (anio : Z)
  (data : Scope1Fugitivas (JsonNumber N)) (fs : Files) : Files :=
  {| organization_json := organization_json fs;
     scope1_instalaciones_fijas_json := scope1_instalaciones_fijas_json fs;
     scope1_vehiculos_json := scope1_vehiculos_json fs;
     scope1_fugitivas_json := <[(orgId, anio) := json_Scope1Fugitivas data]> (scope1_fugitivas_json fs);
     scope1_proceso_json := scope1_proceso_json fs;
     scope2_electricidad_json := scope2_electricidad_json fs;
     results_json := results_json fs |}.

Definition saveScope1Proceso (orgId : string) (anio : Z)
  (data : Scope1Proceso (JsonNumber N)) (fs : Files) : Files :=
  {| organization_json := organization_json fs;
     scope1_instalaciones_fijas_json := scope1_instalaciones_fijas_json fs;
     scope1_vehiculos_json := scope1_vehiculos_json fs;
     scope1_fugitivas_json := scope1_fugitivas_json fs;
     scope1_proceso_json := <[(orgId, anio) := json_Scope1Proceso data]> (scope1_proceso_json fs);
     scope2_electricidad_json := scope2_electricidad_json fs;
     results_json := results_json fs |}.

Definition saveScope2Electricidad (orgId : string) (anio : Z)
  (data : Scope2Electricidad (JsonNumber N)) (fs : Files) : Files :=
  {| organization_json := organization_json fs;
     scope1_instalaciones_fijas_json := scope1_instalaciones_fijas_json fs;
     scope1_vehiculos_json := scope1_vehiculos_json fs;
     scope1_fugitivas_json := scope1_fugitivas_json fs;
     scope1_proceso_json := scope1_proceso_json fs;
     scope2_electricidad_json := <[(orgId, anio) := json_Scope2Electricidad data]> (scope2_electricidad_json fs);
     results_json := results_json fs |}.

(** [!x] on what a loader returns: an object is true, [null] false. *)
Definition is_null {A} (x : option A) : bool :=
  match x with
  | Some _ => false
  | None => true
  end.

(** [initializeOrgYear]: the empty structure of an organisation and
    year; a file is written only if it cannot be loaded. *)
Definition initializeOrgYear (orgId : string) (anio : Z) (fs : Files) : Files :=
  let emptyScope1Fijas : Scope1InstalacionesFijas (JsonNumber N) :=
    {| no_sujetas_ley_1_2005 := []; sujetas_ley_1_2005 := [] |} in
  let emptyScope1Vehiculos : Scope1Vehiculos (JsonNumber N) :=
    {| transporte_carretera_A1_combustible := [];
       transporte_carretera_A2_distancia_km := [];
       transporte_ferroviario_maritimo_aereo := [];
       maquinaria_movil := [] |} in
  let emptyScope1Fugitivas : Scope1Fugitivas (JsonNumber N) :=
    {| climatizacion_refrigeracion := []; otros := [] |} in
  let emptyScope2 : Scope2Electricidad (JsonNumber N) :=
    {| electricidad_edificios_l := []; electricidad_vehiculos_l := [];
       calor_vapor_frio_l := [] |} in
  let emptyResults : Resultados N :=
    {| anio_calculo := anio;
       alcance_1 :=
         {| instalaciones_fijas_no_ley := lit 0; instalaciones_fijas_ley := lit 0;
            transporte_carretera := lit 0;
            transporte_ferroviario_maritimo_aereo_t := lit 0;
            maquinaria := lit 0; fugitivas := lit 0; proceso := lit 0;
            a1_total_t_co2e := lit 0 |};
       alcance_2 :=
         {| electricidad_edificios := lit 0; electricidad_vehiculos := lit 0;
            calor_vapor_frio := lit 0; a2_total_t_co2e := lit 0 |};
       total_alcance_1_2_t_co2e := lit 0;
       ratios :=
         {| t_co2e_por_empleado := lit 0; t_co2e_por_m2 := lit 0;
            t_co2e_por_indice_actividad := lit 0 |} |} in
  let fs :=
    if is_null (loadScope1InstalacionesFijas orgId anio fs)
    then saveScope1InstalacionesFijas orgId anio emptyScope1Fijas fs else fs in
  let fs :=
    if is_null (loadScope1Vehiculos orgId anio fs)
    then saveScope1Vehiculos orgId anio emptyScope1Vehiculos fs else fs in
  let fs :=
    if is_null (loadScope1Fugitivas orgId anio fs)
    then saveScope1Fugitivas orgId anio emptyScope1Fugitivas fs else fs in
  let fs :=
    if is_null (loadScope2Electricidad orgId anio fs)
    then saveScope2Electricidad orgId anio emptyScope2 fs else fs in
  if is_null (loadResults orgId anio fs)
  then saveResults orgId anio emptyResults fs else fs.

End Store.
Arguments Files N : clear implicits.
End JsonStore.

(* ================================================================== *)
(** * lib/agents/calc-agent.ts                                         *)
(* ================================================================== *)

Module CalcAgent.
Section Calc.
Context {N : Type} `{JsNumber N}.
#[local] Open Scope js_scope.

Record Emisiones := {
  co2_kg : N;
  ch4_g : N;
  n2o_g : N;
  total_kg_co2e : N;
}.

(** total = CO2(kg) + CH4(g→kg) × PCA_CH4 + N2O(g→kg) × PCA_N2O *)
Definition calcularEmisionesCombustible (cantidad : N) (fe : FactorEmision N)
  : Emisiones :=
  let co2_kg := cantidad * co2_kg_ud fe in
  let ch4_g := cantidad * ch4_g_ud fe in
  let n2o_g := cantidad * n2o_g_ud fe in
  let total_kg_co2e :=
    co2_kg + (ch4_g / lit 1000) * PCA_CH4 + (n2o_g / lit 1000) * PCA_N2O in
  {| co2_kg := Math_round (co2_kg * lit 1000) / lit 1000;
     ch4_g := Math_round (ch4_g * lit 1000) / lit 1000;
     n2o_g := Math_round (n2o_g * lit 1000) / lit 1000;
     total_kg_co2e := Math_round (total_kg_co2e * lit 1000) / lit 1000 |}.

(** emisiones_kg_co2e = recarga_kg × PCA_gas *)
Definition calcularEmisionesFugitivas (recarga_kg pca_gas : N) : N :=
  Math_round (recarga_kg * pca_gas * lit 1000) / lit 1000.

(** emisiones_kg_co2 = kWh_consumidos × factor_mix_kg_co2_kwh; 0 with a
    Garantía de Origen. *)
Definition calcularEmisionesElectricidad
  (kwh_consumidos factor_mix_kg_co2_kwh : N) (tiene_gdo : bool) : N :=
  if tiene_gdo then lit 0
  else Math_round (kwh_consumidos * factor_mix_kg_co2_kwh * lit 1000) / lit 1000.

(** [xs.reduce((sum, x) => sum + x.f, 0)]: the operator reads the
    field through ToNumber. *)
Definition reduce_sum {A : Type} (f : A -> JsonNumber N) (xs : list A) : N :=
  fold_left (fun sum x => sum + to_number (f x)) xs (lit 0).

Record FijasKg := { no_ley_kg : N; ley_kg : N }.

Definition calcularAlcance1InstalacionesFijas
  (data : option (Scope1InstalacionesFijas (JsonNumber N))) : FijasKg :=
  match data with
  | None => {| no_ley_kg := lit 0; ley_kg := lit 0 |}
  | Some data =>
      let no_ley_kg :=
        reduce_sum emisiones_totales_kg_co2e (no_sujetas_ley_1_2005 data) in
      let ley_kg :=
        reduce_sum emisiones_totales_kg_co2e (sujetas_ley_1_2005 data) in
      {| no_ley_kg := no_ley_kg; ley_kg := ley_kg |}
  end.

Record VehiculosKg := { carretera_kg : N; no_carretera_kg : N; maquinaria_kg : N }.

Definition calcularAlcance1Vehiculos (data : option (Scope1Vehiculos (JsonNumber N)))
  : VehiculosKg :=
  match data with
  | None =>
      {| carretera_kg := lit 0; no_carretera_kg := lit 0; maquinaria_kg := lit 0 |}
  | Some data =>
      let carretera_a1 :=
        reduce_sum emisiones_totales_kg_co2e (transporte_carretera_A1_combustible data) in
      let carretera_a2 :=
        reduce_sum emisiones_totales_kg_co2e (transporte_carretera_A2_distancia_km data) in
      let no_carretera :=
        reduce_sum emisiones_totales_kg_co2e (transporte_ferroviario_maritimo_aereo data) in
      let maquinaria :=
        reduce_sum emisiones_totales_kg_co2e (maquinaria_movil data) in
      {| carretera_kg := carretera_a1 + carretera_a2;
         no_carretera_kg := no_carretera;
         maquinaria_kg := maquinaria |}
  end.

Definition calcularAlcance1Fugitivas (data : option (Scope1Fugitivas (JsonNumber N))) : N :=
  match data with
  | None => lit 0
  | Some data =>
      let climatizacion :=
        reduce_sum emisiones_kg_co2e (climatizacion_refrigeracion data) in
      let otros := reduce_sum emisiones_kg_co2e (otros data) in
      climatizacion + otros
  end.

Definition calcularAlcance1Proceso (data : option (Scope1Proceso (JsonNumber N))) : N :=
  match data with
  | None => lit 0
  | Some data => reduce_sum emisiones_kg_co2e (emisiones data)
  end.

Record Alcance2Kg := { edificios_kg : N; vehiculos_kg : N; calor_vapor_frio_kg : N }.

Definition calcularAlcance2 (data : option (Scope2Electricidad (JsonNumber N))) : Alcance2Kg :=
  match data with
  | None =>
      {| edificios_kg := lit 0; vehiculos_kg := lit 0; calor_vapor_frio_kg := lit 0 |}
  | Some data =>
      let edificios := reduce_sum emisiones_kg_co2 (electricidad_edificios_l data) in
      let vehiculos := reduce_sum emisiones_kg_co2 (electricidad_vehiculos_l data) in
      let calor := reduce_sum emisiones_kg_co2 (calor_vapor_frio_l data) in
      {| edificios_kg := edificios;
         vehiculos_kg := vehiculos;
         calor_vapor_frio_kg := calor |}
  end.

Record RecalculateParams := {
  rp_orgId : string;
  rp_anio : Z;
  rp_scope : option AffectedScope;
}.

(** [CalcAgent.recalculate]: loads every data set of the organisation
    and year, recomputes the totals and the ratios, saves the results
    and returns them. *)
Definition recalculate (params : RecalculateParams) (fs : JsonStore.Files N)
  : Resultados N * JsonStore.Files N :=
  let orgId := rp_orgId params in
  let anio := rp_anio params in
  let org := JsonStore.loadOrganization orgId anio fs in
  let scope1Fijas := JsonStore.loadScope1InstalacionesFijas orgId anio fs in
  let scope1Vehiculos := JsonStore.loadScope1Vehiculos orgId anio fs in
  let scope1Fugitivas := JsonStore.loadScope1Fugitivas orgId anio fs in
  let scope1Proceso := JsonStore.loadScope1Proceso orgId anio fs in
  let scope2Data := JsonStore.loadScope2Electricidad orgId anio fs in
  let fijas := calcularAlcance1InstalacionesFijas scope1Fijas in
  let vehiculos := calcularAlcance1Vehiculos scope1Vehiculos in
  let fugitivas_kg := calcularAlcance1Fugitivas scope1Fugitivas in
  let proceso_kg := calcularAlcance1Proceso scope1Proceso in
  let total_alcance1_kg :=
    no_ley_kg fijas +
    ley_kg fijas +
    carretera_kg vehiculos +
    no_carretera_kg vehiculos +
    maquinaria_kg vehiculos +
    fugitivas_kg +
    proceso_kg in
  let alcance2 := calcularAlcance2 scope2Data in
  let total_alcance2_kg :=
    edificios_kg alcance2 + vehiculos_kg alcance2 + calor_vapor_frio_kg alcance2 in
  let total_t := (total_alcance1_kg + total_alcance2_kg) / lit 1000 in
  let numEmpleados := or_else (num_empleados <$> org) (lit 1) in
  let superficieM2 := or_else (superficie_m2 <$> org) (lit 1) in
  let indiceActividad :=
    or_else (valor <$> (org ≫= indice_actividad)) (lit 1) in
  let resultados : Resultados N :=
    {| anio_calculo := anio;
       alcance_1 :=
         {| instalaciones_fijas_no_ley :=
              Math_round ((no_ley_kg fijas / lit 1000) * lit 1000) / lit 1000;
            instalaciones_fijas_ley :=
              Math_round ((ley_kg fijas / lit 1000) * lit 1000) / lit 1000;
            transporte_carretera :=
              Math_round ((carretera_kg vehiculos / lit 1000) * lit 1000) / lit 1000;
            transporte_ferroviario_maritimo_aereo_t :=
              Math_round ((no_carretera_kg vehiculos / lit 1000) * lit 1000) / lit 1000;
            maquinaria :=
              Math_round ((maquinaria_kg vehiculos / lit 1000) * lit 1000) / lit 1000;
            fugitivas :=
              Math_round ((fugitivas_kg / lit 1000) * lit 1000) / lit 1000;
            proceso :=
              Math_round ((proceso_kg / lit 1000) * lit 1000) / lit 1000;
            a1_total_t_co2e :=
              Math_round ((total_alcance1_kg / lit 1000) * lit 1000) / lit 1000 |};
       alcance_2 :=
         {| electricidad_edificios :=
              Math_round ((edificios_kg alcance2 / lit 1000) * lit 1000) / lit 1000;
            electricidad_vehiculos :=
              Math_round ((vehiculos_kg alcance2 / lit 1000) * lit 1000) / lit 1000;
            calor_vapor_frio :=
              Math_round ((calor_vapor_frio_kg alcance2 / lit 1000) * lit 1000) / lit 1000;
            a2_total_t_co2e :=
              Math_round ((total_alcance2_kg / lit 1000) * lit 1000) / lit 1000 |};
       total_alcance_1_2_t_co2e := Math_round (total_t * lit 1000) / lit 1000;
       ratios :=
         {| t_co2e_por_empleado :=
              Math_round ((total_t / numEmpleados) * lit 1000) / lit 1000;
            t_co2e_por_m2 :=
              Math_round ((total_t / superficieM2) * lit 10000) / lit 10000;
            t_co2e_por_indice_actividad :=
              Math_round ((total_t / indiceActividad) * lit 1000000) / lit 1000000 |} |} in
  (resultados, JsonStore.saveResults orgId anio resultados fs).

End Calc.
Arguments Emisiones N : clear implicits.
End CalcAgent.


(* ================================================================== *)
(** * Asynchronous code                                                *)
(* ================================================================== *)

(** The value of a call to an [async] function is a Promise.  [await]
    gives what it resolves to (a rejection is an exception at the
    [await], see [Async] below); a Promise that is used without [await]
    is an object that has none of the properties of that value. *)
Inductive Promise (A : Type) : Type :=
  | promise (resolves_to : A).
Arguments promise {A} resolves_to.

(** What an asynchronous operation ends with. *)
Inductive Outcome (E A : Type) : Type :=
  | Resolved (a : A)
  | Rejected (e : E).
Arguments Resolved {E A} a.
Arguments Rejected {E A} e.

(* ================================================================== *)
(** * lib/db/free-tier-guard.ts                                        *)
(* ================================================================== *)

Module FreeTierGuard.

(** 400 MB: from here on every write is blocked. *)
Definition HARD_LIMIT_BYTES : Z := 400 * 1024 * 1024.
(** 300 MB: from here on a warning is produced. *)
Definition WARN_LIMIT_BYTES : Z := 300 * 1024 * 1024.
(** Maximum number of rows of [org_year_data]. *)
Definition MAX_ROWS : Z := 10000.
(** 60 seconds. *)
Definition CACHE_TTL_MS : Z := 60000.

(** [bytes] and [rows] are the integers [parseInt] reads; they are kept
    as integers, on which the comparisons of the guard are exact. *)
Record SizeCache := {
  bytes : Z;
  rows : Z;
  checkedAt : Z;
}.

(** The answer of the database to one [queryOne]: it throws, or it
    gives the first row (or [null]), whose column holds the decimal
    string of an integer. *)
Inductive QueryResult :=
  | QThrows
  | QRow (column : option Z).

(** What the process sees from outside during one call: the clock
    ([Date.now()]) and the answers to the two statistics queries. *)
Record Env := {
  now : Z;
  pg_database_size : QueryResult;
  count_org_year_data : QueryResult;
}.

(** [parseInt(row?.col || '0', 10)] *)
Definition parseInt_or_0 (row : option Z) : Z :=
  match row with
  | Some z => z
  | None => 0
  end.

(** [getDatabaseSize]: the measurement and the new value of [_cache].
    [fresh] is the [try] block with its [catch]; it is what is returned
    unless the cache holds a measurement less than [CACHE_TTL_MS] old. *)
Definition getDatabaseSize (env : Env) (_cache : option SizeCache)
  : SizeCache * option SizeCache :=
  let now := now env in
  let fresh :=
    match pg_database_size env with
    | QThrows => ({| bytes := 0; rows := 0; checkedAt := now |}, _cache)
    | QRow sizeRow =>
        match count_org_year_data env with
        | QThrows => ({| bytes := 0; rows := 0; checkedAt := now |}, _cache)
        | QRow rowCountRow =>
            let result :=
              {| bytes := parseInt_or_0 sizeRow;
                 rows := parseInt_or_0 rowCountRow;
                 checkedAt := now |} in
            (result, Some result)
        end
    end in
  match _cache with
  | Some c => if now - checkedAt c <? CACHE_TTL_MS then (c, _cache) else fresh
  | None => fresh
  end.

Section Guard.
Context {N : Type} `{JsNumber N}.
#[local] Open Scope js_scope.

Record GuardResult := {
  allowed : bool;
  dbSizeBytes : Z;
  dbSizeMB : Text N;
  rowCount : Z;
  limitMB : Z;
  warnMB : Z;
  usagePercent : Text N;
  warning : option (Text N);
  error : option (Text N);
}.

(** An integer as a number. *)
Definition num (z : Z) : N := lit (inject_Z z).

(** [checkWriteAllowed]: the verdict and the new value of [_cache].
    [limitMB] and [warnMB] are [Math.round] of quotients that are the
    integers 400 and 300. *)
Definition checkWriteAllowed (env : Env) (_cache : option SizeCache)
  : GuardResult * option SizeCache :=
  let '(m, _cache) := getDatabaseSize env _cache in
  let bytes := bytes m in
  let rows := rows m in
  let limitMB := (HARD_LIMIT_BYTES / 1024 / 1024)%Z in
  let warnMB := (WARN_LIMIT_BYTES / 1024 / 1024)%Z in
  let dbSizeMB : Text N := [PFixed 2 (num bytes / lit 1024 / lit 1024)] in
  let usagePercent : Text N :=
    [PFixed 1 ((num bytes / num HARD_LIMIT_BYTES) * lit 100)] in
  let base (allowed : bool) (warning error : option (Text N)) :=
    {| allowed := allowed;
       dbSizeBytes := bytes;
       dbSizeMB := dbSizeMB;
       rowCount := rows;
       limitMB := limitMB;
       warnMB := warnMB;
       usagePercent := usagePercent;
       warning := warning;
       error := error |} in
  if (HARD_LIMIT_BYTES <=? bytes)%Z then
    (base false None
       (Some ([Lit "🚫 BLOQUEADO: La base de datos ha alcanzado "] ++ dbSizeMB ++
              [Lit " MB (límite: "; PInt limitMB; Lit " MB). ";
               Lit "Elimina datos antiguos o contacta al administrador para ampliar el plan. ";
               Lit "No se pueden añadir más registros hasta liberar espacio."])),
     _cache)
  else if (MAX_ROWS <=? rows)%Z then
    (base false None
       (Some [Lit "🚫 BLOQUEADO: Se ha alcanzado el límite de "; PLocale MAX_ROWS;
              Lit " registros. ";
              Lit "Elimina datos que no necesites antes de añadir más."]),
     _cache)
  else if (WARN_LIMIT_BYTES <=? bytes)%Z then
    (base true
       (Some ([Lit "⚠️ AVISO: La base de datos está al "] ++ usagePercent ++
              [Lit "% de capacidad ("] ++ dbSizeMB ++
              [Lit "/"; PInt limitMB; Lit " MB). ";
               Lit "Considera eliminar datos antiguos o reducir el volumen de registros."]))
       None,
     _cache)
  else (base true None None, _cache).

(** What [getUsageInfo] returns. *)
Record UsageInfo := {
  ui_dbSizeMB : Text N;
  ui_usagePercent : Text N;
  ui_rowCount : Z;
  isNearLimit : bool;
  isBlocked : bool;
}.

(** [getUsageInfo]: the figures for the read-only endpoints, and the
    new value of [_cache]. *)
Definition getUsageInfo (env : Env) (_cache : option SizeCache)
  : UsageInfo * option SizeCache :=
  let '(m, _cache) := getDatabaseSize env _cache in
  let bytes := bytes m in
  let rows := rows m in
  ({| ui_dbSizeMB := [PFixed 2 (num bytes / lit 1024 / lit 1024)];
      ui_usagePercent := [PFixed 1 ((num bytes / num HARD_LIMIT_BYTES) * lit 100)];
      ui_rowCount := rows;
      isNearLimit := (WARN_LIMIT_BYTES <=? bytes)%Z;
      isBlocked := (HARD_LIMIT_BYTES <=? bytes)%Z || (MAX_ROWS <=? rows)%Z |},
   _cache).

End Guard.
Arguments GuardResult N : clear implicits.
Arguments UsageInfo N : clear implicits.

(** [invalidateCache]: the new value of [_cache]. *)
Definition invalidateCache (_cache : option SizeCache) : option SizeCache := None.

End FreeTierGuard.


(* ================================================================== *)
(** * Exceptions                                                       *)
(* ================================================================== *)

(** The exceptions of the modelled code: the engine's [TypeError], the
    orchestrator's [ValidationError] (with its structured list), the
    store's [FreeTierBlockedError] (statusCode 507) and the rejection of
    a database query. *)
Inductive JsError (N : Type) : Type :=
  | TypeError (what : string)
  | ValidationError (errors : list (ValidationEntry N))
  | FreeTierBlockedError (message : Text N)
  | QueryError.
Arguments TypeError {N} what.
Arguments ValidationError {N} errors.
Arguments FreeTierBlockedError {N} message.
Arguments QueryError {N}.

(* ================================================================== *)
(** * lib/db/pg-store.ts                                               *)
(* ================================================================== *)

Module PgStore.
Section Store.
Context {N : Type} `{JsNumber N}.

(** The JSONB column [data] of [org_year_data], by the kind of data the
    typed savers put there. *)
Inductive OrgYearData :=
  | DOrganization (d : Organizacion (JsonNumber N))
  | DScope1InstalacionesFijas (d : Scope1InstalacionesFijas (JsonNumber N))
  | DScope1Vehiculos (d : Scope1Vehiculos (JsonNumber N))
  | DScope1Fugitivas (d : Scope1Fugitivas (JsonNumber N))
  | DScope1Proceso (d : Scope1Proceso (JsonNumber N))
  | DScope2Electricidad (d : Scope2Electricidad (JsonNumber N))
  | DResults (d : Resultados (JsonNumber N)).

(** [JSON.stringify(data)], as the column reads afterwards. *)
Definition json_data (data : OrgYearData) : OrgYearData :=
  match data with
  | DOrganization d => DOrganization (json_Organizacion d)
  | DScope1InstalacionesFijas d =>
      DScope1InstalacionesFijas (json_Scope1InstalacionesFijas d)
  | DScope1Vehiculos d => DScope1Vehiculos (json_Scope1Vehiculos d)
  | DScope1Fugitivas d => DScope1Fugitivas (json_Scope1Fugitivas d)
  | DScope1Proceso d => DScope1Proceso (json_Scope1Proceso d)
  | DScope2Electricidad d => DScope2Electricidad (json_Scope2Electricidad d)
  | DResults d => DResults (json_Resultados d)
  end.

Record SedeRecord := {
  sede_id : string;
  sede_nombre : string;
  direccion : option string;
}.

(** The database and the guard's module variable [_cache]. *)
Record Db := {
  org_year_data : gmap (string * Z * string) OrgYearData;
  sedes : gmap (string * Z) (list SedeRecord);
  static_emission_factors : option EmissionFactors;
  static_dropdowns : option Dropdowns;
  _cache : option FreeTierGuard.SizeCache;
}.

Definition with_org_year_data (f : gmap (string * Z * string) OrgYearData ->
                                   gmap (string * Z * string) OrgYearData)
  (db : Db) : Db :=
  {| org_year_data := f (org_year_data db);
     sedes := sedes db;
     static_emission_factors := static_emission_factors db;
     static_dropdowns := static_dropdowns db;
     _cache := _cache db |}.

Definition with_sedes (f : gmap (string * Z) (list SedeRecord) ->
                           gmap (string * Z) (list SedeRecord))
  (db : Db) : Db :=
  {| org_year_data := org_year_data db;
     sedes := f (sedes db);
     static_emission_factors := static_emission_factors db;
     static_dropdowns := static_dropdowns db;
     _cache := _cache db |}.

Definition with_cache (f : option FreeTierGuard.SizeCache ->
                           option FreeTierGuard.SizeCache)
  (db : Db) : Db :=
  {| org_year_data := org_year_data db;
     sedes := sedes db;
     static_emission_factors := static_emission_factors db;
     static_dropdowns := static_dropdowns db;
     _cache := f (_cache db) |}.

(** What one call of the store sees from outside: the guard's
    environment, and which of the queries the call issues (numbered from
    0 in the order they are issued) throw. *)
Record Env := {
  guard_env : FreeTierGuard.Env;
  query_throws : nat -> bool;
}.

(** A call of the store: it reads the environment, updates the database
    and counts the queries it has issued so far; it resolves or rejects. *)
Definition Pg (A : Type) : Type :=
  Env -> Db * nat -> Outcome (JsError N) A * (Db * nat).

Definition ret {A} (a : A) : Pg A := fun _ s => (Resolved a, s).

Definition throw {A} (e : JsError N) : Pg A := fun _ s => (Rejected e, s).

Definition bind {A B} (m : Pg A) (k : A -> Pg B) : Pg B :=
  fun env s =>
    match m env s with
    | (Resolved a, s') => k a env s'
    | (Rejected e, s') => (Rejected e, s')
    end.

#[local] Notation "'let*' x ':=' m 'in' k" := (bind m (fun x => k))
  (at level 10, x name, m at level 100, k at level 200).
#[local] Notation "'await' m ';;' k" := (bind m (fun _ => k))
  (at level 10, m at level 99, k at level 200).

(** One call, from the first query on. *)
Definition run {A} (m : Pg A) (env : Env) (db : Db)
  : Outcome (JsError N) A * Db :=
  let '(r, (db', _)) := m env (db, 0%nat) in (r, db').

(** [query(text, params)]: the statement throws, or it answers with
    [answer db] and leaves the database as [effect db]. *)
Definition query {A} (answer : Db -> A) (effect : Db -> Db) : Pg A :=
  fun env '(db, k) =>
    if query_throws env k then (Rejected QueryError, (db, S k))
    else (Resolved (answer db), (effect db, S k)).

(** The guard, run on the store's [_cache]. *)
Definition checkWriteAllowed : Pg (FreeTierGuard.GuardResult N) :=
  fun env '(db, k) =>
    let '(result, c) := FreeTierGuard.checkWriteAllowed (guard_env env) (_cache db) in
    (Resolved result, (with_cache (fun _ => c) db, k)).

Definition invalidateCache : Pg unit :=
  fun _ '(db, k) => (Resolved tt, (with_cache FreeTierGuard.invalidateCache db, k)).

(** [guardWrite]: the blocked write throws; the warning is only written
    to the console, which is left out. *)
Definition guardWrite : Pg unit :=
  let* result := checkWriteAllowed in
  if negb (FreeTierGuard.allowed result) then
    throw (FreeTierBlockedError
             (match FreeTierGuard.error result with
              | Some ((_ :: _) as msg) => msg
              | _ => [Lit "Límite de almacenamiento excedido"]
              end))
  else ret tt.

(** INSERT ... ON CONFLICT (org_id, anio, tipo) DO UPDATE *)
Definition upsertOrgData (orgId : string) (anio : Z) (tipo : string)
  (data : OrgYearData) : Pg unit :=
  await guardWrite ;;
  await query (fun _ => tt)
              (with_org_year_data (insert (orgId, anio, tipo) (json_data data))) ;;
  invalidateCache.

(** SELECT data FROM org_year_data WHERE org_id = $1 AND anio = $2 AND tipo = $3 *)
Definition loadOrgData (orgId : string) (anio : Z) (tipo : string)
  : Pg (option OrgYearData) :=
  query (fun db => org_year_data db !! (orgId, anio, tipo)) id.

(** [loadEmissionFactors] and [loadDropdowns] are [async]: a call gives
    a Promise of the row of [static_data] (the memo of the row in
    [_emissionFactorsCache] / [_dropdownsCache] is left out). *)
Definition loadEmissionFactors (db : Db) : Promise (option EmissionFactors) :=
  promise (static_emission_factors db).

Definition loadDropdowns (db : Db) : Promise (option Dropdowns) :=
  promise (static_dropdowns db).

Definition saveOrganization orgId anio (data : Organizacion (JsonNumber N)) : Pg unit :=
  upsertOrgData orgId anio "organization" (DOrganization data).

Definition saveScope1InstalacionesFijas orgId anio
  (data : Scope1InstalacionesFijas (JsonNumber N)) : Pg unit :=
  upsertOrgData orgId anio "scope1_instalaciones_fijas" (DScope1InstalacionesFijas data).

Definition saveScope1Vehiculos orgId anio (data : Scope1Vehiculos (JsonNumber N)) : Pg unit :=
  upsertOrgData orgId anio "scope1_vehiculos" (DScope1Vehiculos data).

Definition saveScope1Fugitivas orgId anio (data : Scope1Fugitivas (JsonNumber N)) : Pg unit :=
  upsertOrgData orgId anio "scope1_fugitivas" (DScope1Fugitivas data).

Definition saveScope1Proceso orgId anio (data : Scope1Proceso (JsonNumber N)) : Pg unit :=
  upsertOrgData orgId anio "scope1_proceso" (DScope1Proceso data).

Definition saveScope2Electricidad orgId anio (data : Scope2Electricidad (JsonNumber N)) : Pg unit :=
  upsertOrgData orgId anio "scope2_electricidad" (DScope2Electricidad data).

Definition saveResults orgId anio (data : Resultados N) : Pg unit :=
  upsertOrgData orgId anio "results" (DResults (map_Resultados JNum data)).

(** [loadOrgData<Resultados>(orgId, anio, 'results')]: the typed savers
    are the only writers, so the row of kind ['results'] holds results. *)
Definition loadResults (orgId : string) (anio : Z)
  : Pg (option (Resultados (JsonNumber N))) :=
  let* row := loadOrgData orgId anio "results" in
  ret (match row with
       | Some (DResults d) => Some d
       | _ => None
       end).

(** [s || null] and [s || undefined] on the address of a sede: a
    missing address and the empty string are both absent. *)
Definition or_undefined (s : option string) : option string :=
  match s with
  | Some EmptyString => None
  | _ => s
  end.

(** [for (const sede of data.sedes) await query(INSERT INTO sedes ...)],
    the address being [sede.direccion || null]. *)
Fixpoint insert_sedes (orgId : string) (anio : Z) (l : list SedeRecord) : Pg unit :=
  match l with
  | [] => ret tt
  | sede :: l' =>
      await query (fun _ => tt)
                  (with_sedes
                     (fun t =>
                        <[(orgId, anio) :=
                            default [] (t !! (orgId, anio))
                            ++ [ {| sede_id := sede_id sede;
                                    sede_nombre := sede_nombre sede;
                                    direccion := or_undefined (direccion sede) |} ]]> t)) ;;
      insert_sedes orgId anio l'
  end.

Definition saveSedes (orgId : string) (anio : Z) (data : list SedeRecord) : Pg unit :=
  await guardWrite ;;
  await query (fun _ => tt) (with_sedes (delete (orgId, anio))) ;;
  await insert_sedes orgId anio data ;;
  invalidateCache.

Definition emptyResults (anio : Z) : Resultados N :=
  {| anio_calculo := anio;
     alcance_1 :=
       {| instalaciones_fijas_no_ley := lit 0; instalaciones_fijas_ley := lit 0;
          transporte_carretera := lit 0;
          transporte_ferroviario_maritimo_aereo_t := lit 0;
          maquinaria := lit 0; fugitivas := lit 0; proceso := lit 0;
          a1_total_t_co2e := lit 0 |};
     alcance_2 :=
       {| electricidad_edificios := lit 0; electricidad_vehiculos := lit 0;
          calor_vapor_frio := lit 0; a2_total_t_co2e := lit 0 |};
     total_alcance_1_2_t_co2e := lit 0;
     ratios :=
       {| t_co2e_por_empleado := lit 0; t_co2e_por_m2 := lit 0;
          t_co2e_por_indice_actividad := lit 0 |} |}.

(** INSERT ... ON CONFLICT (org_id, anio, tipo) DO NOTHING, of
    [JSON.stringify(data)] *)
Definition insert_do_nothing (orgId : string) (anio : Z)
  (row : string * OrgYearData) : Pg unit :=
  query (fun _ => tt)
        (with_org_year_data
           (fun t => match t !! (orgId, anio, row.1) with
                     | Some _ => t
                     | None => <[(orgId, anio, row.1) := json_data row.2]> t
                     end)).

Fixpoint insert_all (orgId : string) (anio : Z)
  (inserts : list (string * OrgYearData)) : Pg unit :=
  match inserts with
  | [] => ret tt
  | row :: rest => await insert_do_nothing orgId anio row ;; insert_all orgId anio rest
  end.

Definition initializeOrgYear (orgId : string) (anio : Z) : Pg unit :=
  let* existing := query (fun db => org_year_data db !! (orgId, anio, "results")) id in
  match existing with
  | Some _ => ret tt
  | None =>
      await guardWrite ;;
      await insert_all orgId anio
        [ ("scope1_instalaciones_fijas",
           DScope1InstalacionesFijas
             {| no_sujetas_ley_1_2005 := []; sujetas_ley_1_2005 := [] |});
          ("scope1_vehiculos",
           DScope1Vehiculos
             {| transporte_carretera_A1_combustible := [];
                transporte_carretera_A2_distancia_km := [];
                transporte_ferroviario_maritimo_aereo := [];
                maquinaria_movil := [] |});
          ("scope1_fugitivas",
           DScope1Fugitivas {| climatizacion_refrigeracion := []; otros := [] |});
          ("scope2_electricidad",
           DScope2Electricidad
             {| electricidad_edificios_l := []; electricidad_vehiculos_l := [];
                calor_vapor_frio_l := [] |});
          ("results", DResults (map_Resultados JNum (emptyResults anio))) ] ;;
      invalidateCache
  end.

(** The typed loaders, [loadOrgData<T>(orgId, anio, tipo)]: as for
    [loadResults], the row of a kind holds data of that kind. *)
Definition loadOrganization (orgId : string) (anio : Z)
  : Pg (option (Organizacion (JsonNumber N))) :=
  let* row := loadOrgData orgId anio "organization" in
  ret (match row with
       | Some (DOrganization d) => Some d
       | _ => None
       end).

Definition loadScope1InstalacionesFijas (orgId : string) (anio : Z)
  : Pg (option (Scope1InstalacionesFijas (JsonNumber N))) :=
  let* row := loadOrgData orgId anio "scope1_instalaciones_fijas" in
  ret (match row with
       | Some (DScope1InstalacionesFijas d) => Some d
       | _ => None
       end).

Definition loadScope1Vehiculos (orgId : string) (anio : Z)
  : Pg (option (Scope1Vehiculos (JsonNumber N))) :=
  let* row := loadOrgData orgId anio "scope1_vehiculos" in
  ret (match row with
       | Some (DScope1Vehiculos d) => Some d
       | _ => None
       end).

Definition loadScope1Fugitivas (orgId : string) (anio : Z)
  : Pg (option (Scope1Fugitivas (JsonNumber N))) :=
  let* row := loadOrgData orgId anio "scope1_fugitivas" in
  ret (match row with
       | Some (DScope1Fugitivas d) => Some d
       | _ => None
       end).

Definition loadScope1Proceso (orgId : string) (anio : Z)
  : Pg (option (Scope1Proceso (JsonNumber N))) :=
  let* row := loadOrgData orgId anio "scope1_proceso" in
  ret (match row with
       | Some (DScope1Proceso d) => Some d
       | _ => None
       end).

Definition loadScope2Electricidad (orgId : string) (anio : Z)
  : Pg (option (Scope2Electricidad (JsonNumber N))) :=
  let* row := loadOrgData orgId anio "scope2_electricidad" in
  ret (match row with
       | Some (DScope2Electricidad d) => Some d
       | _ => None
       end).

(** SELECT id, nombre, direccion FROM sedes WHERE org_id = $1 AND
    anio = $2 ORDER BY created_at; the rows are kept in the order of
    their insertion.  The answer is never [null]. *)
Definition loadSedes (orgId : string) (anio : Z) : Pg (list SedeRecord) :=
  query (fun db =>
           map (fun r => {| sede_id := sede_id r;
                            sede_nombre := sede_nombre r;
                            direccion := or_undefined (direccion r) |})
               (default [] (sedes db !! (orgId, anio))))
        id.

(** What [loadAllOrgData] returns. *)
Record AllOrgData := {
  all_organization : option (Organizacion (JsonNumber N));
  all_scope1_instalaciones_fijas : option (Scope1InstalacionesFijas (JsonNumber N));
  all_scope1_vehiculos : option (Scope1Vehiculos (JsonNumber N));
  all_scope1_fugitivas : option (Scope1Fugitivas (JsonNumber N));
  all_scope1_proceso : option (Scope1Proceso (JsonNumber N));
  all_scope2_electricidad : option (Scope2Electricidad (JsonNumber N));
  all_results : option (Resultados (JsonNumber N));
}.

(** [loadAllOrgData]: [Promise.all] of the seven loads, whose queries
    are issued in this order; it rejects when one of them does. *)
Definition loadAllOrgData (orgId : string) (anio : Z) : Pg AllOrgData :=
  let* org := loadOrganization orgId anio in
  let* s1f := loadScope1InstalacionesFijas orgId anio in
  let* s1v := loadScope1Vehiculos orgId anio in
  let* s1g := loadScope1Fugitivas orgId anio in
  let* s1p := loadScope1Proceso orgId anio in
  let* s2 := loadScope2Electricidad orgId anio in
  let* results := loadResults orgId anio in
  ret {| all_organization := org;
         all_scope1_instalaciones_fijas := s1f;
         all_scope1_vehiculos := s1v;
         all_scope1_fugitivas := s1g;
         all_scope1_proceso := s1p;
         all_scope2_electricidad := s2;
         all_results := results |}.

(** SELECT DISTINCT anio FROM org_year_data WHERE org_id = $1
    ORDER BY anio DESC *)
Definition listOrgYears (orgId : string) : Pg (list Z) :=
  query (fun db =>
           merge_sort Z.ge
             (remove_dups
                (omap (fun row : string * Z * string * OrgYearData =>
                         if decide (row.1.1.1 = orgId) then Some row.1.1.2 else None)
                      (map_to_list (org_year_data db)))))
        id.

End Store.
Arguments AllOrgData N : clear implicits.
Arguments Db N : clear implicits.
Arguments OrgYearData N : clear implicits.
Arguments Pg N A : clear implicits.
End PgStore.


(* ================================================================== *)
(** * lib/db/csv-handler.ts                                            *)
(* ================================================================== *)

Module CsvHandler.

(** papaparse is not part of the repository.  Its two entry points are
    taken as they are called, with the options of the source:
    [parse csvContent] is
    [Papa.parse(csvContent, {header: true, skipEmptyLines: true,
    dynamicTyping: true, transformHeader}).data], the records of a CSV
    text read at the type the caller declares, and [unparse data] is
    [Papa.unparse(data, {header: true, newline: '\n'})], the CSV text of
    a list of records.  Nothing is assumed of them: what is read back
    from a text that was written is whatever [parse] makes of it. *)
Record Papa (Row : Type) := {
  parse : string -> list Row;
  unparse : list Row -> string;
}.
Arguments parse {Row} _ _.
Arguments unparse {Row} _ _.

(** [store/]: the text of [{tableName}.csv], for the files that exist. *)
Definition Store : Type := gmap string string.

Section Csv.
Context {Row : Type} (papa : Papa Row).

(** A file that is missing or blank reads as the empty list. *)
Definition readCSV (tableName : string) (store : Store) : list Row :=
  match store !! tableName with
  | None => []
  | Some csvContent =>
      if trim_is_empty (list_ascii_of_string csvContent) then []
      else parse papa csvContent
  end.

(** The file is replaced; an empty list is written as the empty text. *)
Definition writeCSV (tableName : string) (data : list Row) (store : Store)
  : Store :=
  match data with
  | [] => <[tableName := ""%string]> store
  | _ :: _ => <[tableName := unparse papa data]> store
  end.

(** [existingData.push(row)] and the file is written again. *)
Definition appendRow (tableName : string) (row : Row) (store : Store) : Store :=
  let existingData := readCSV tableName store in
  writeCSV tableName (existingData ++ [row]) store.


End Csv.

(** ** Records addressed by their [id]

    A record is the object [Papa.parse] gives for a line: its columns
    hold strings, numbers, booleans or [null]. *)
Abbreviation Obj N := (gmap string (JsValue N)).

Section Objects.
Context {N : Type} (papa : Papa (Obj N)).

(** [row.id === id], for a string [id]. *)
Definition id_is (id : string) (row : Obj N) : bool :=
  match row !! "id"%string with
  | Some (JsStr s) => String.eqb s id
  | _ => false
  end.

(** [data.findIndex(p)], with [None] for -1. *)
Fixpoint findIndex {A : Type} (p : A -> bool) (data : list A) : option nat :=
  match data with
  | [] => None
  | row :: rest => if p row then Some 0%nat else S <$> findIndex p rest
  end.

(** [updateRow]: the first record with the [id] is merged with
    [updates], [{ ...data[index], ...updates }], and the table is
    written; [null] when no record has the [id]. *)
Definition updateRow (tableName id : string) (updates : Obj N) (store : Store)
  : option (Obj N) * Store :=
  let data := readCSV papa tableName store in
  match findIndex (id_is id) data with
  | None => (None, store)
  | Some index =>
      let data := <[index := updates ∪ default ∅ (data !! index)]> data in
      (data !! index, writeCSV papa tableName data store)
  end.

(** [deleteRow]: the records with the [id] are filtered out; the table
    is written only if there was one. *)
Definition deleteRow (tableName id : string) (store : Store) : bool * Store :=
  let data := readCSV papa tableName store in
  let initialLength := length data in
  let filteredData := List.filter (fun row => negb (id_is id row)) data in
  if (length filteredData =? initialLength)%nat then (false, store)
  else (true, writeCSV papa tableName filteredData store).

(** [findById]: [data.find((row) => row.id === id) || null] *)
Definition findById (tableName id : string) (store : Store) : option (Obj N) :=
  List.find (id_is id) (readCSV papa tableName store).

End Objects.

(** ** Pages *)
Section Pages.
Context {Row : Type} (papa : Papa Row).

(** [data.slice(start, end)]: a negative index counts from the end. *)
Definition slice {A : Type} (start end_ : Z) (data : list A) : list A :=
  let len := Z.of_nat (length data) in
  let k := if start <? 0 then Z.max (len + start) 0 else Z.min start len in
  let final := if end_ <? 0 then Z.max (len + end_) 0 else Z.min end_ len in
  take (Z.to_nat (final - k)) (drop (Z.to_nat k) data).

(** What [paginatedRead] returns.  [totalPages] is
    [Math.ceil(total / pageSize)]; [None] stands for the [Infinity] or
    [NaN] of a page size of 0. *)
Record Paginated := {
  pr_data : list Row;
  pr_total : Z;
  pr_page : Z;
  pr_totalPages : option Z;
}.

(** [paginatedRead], for integers [page] and [pageSize].  [filters],
    when given, is the test that the callback of [data.filter] makes of
    a record. *)
Definition paginatedRead (tableName : string) (page pageSize : Z)
  (filters : option (Row -> bool)) (store : Store) : Paginated :=
  let data := readCSV papa tableName store in
  let data :=
    match filters with
    | Some matches => List.filter matches data
    | None => data
    end in
  let total := Z.of_nat (length data) in
  let totalPages := if pageSize =? 0 then None else Some (- (- total / pageSize)) in
  let start := (page - 1) * pageSize in
  let paginatedData := slice start (start + pageSize) data in
  {| pr_data := paginatedData;
     pr_total := total;
     pr_page := page;
     pr_totalPages := totalPages |}.

End Pages.
Arguments Paginated Row : clear implicits.
End CsvHandler.

(* ================================================================== *)
(** * The process and its surroundings                                 *)
(* ================================================================== *)

Module Runtime.
Section World.
Context {N : Type} `{JsNumber N}.

(** Ghost: the steps of the pipeline, in the order they were taken: the
    audit row has been written, and the validation, the calculation and
    the threshold check have been entered. *)
Inductive Call :=
  | AuditAgent_logged
  | ValidationAgent_validate
  | CalcAgent_recalculate
  | Orchestrator_checkThresholds.

Record World := {
  (** [data/orgs/], the JSON files *)
  files : JsonStore.Files N;
  (** [store/], the CSV files, and papaparse for the audit log *)
  store : CsvHandler.Store;
  papa : CsvHandler.Papa (AuditLog N);
  (** Neon, and what a call of the store sees of it *)
  pg : PgStore.Db N;
  pg_env : PgStore.Env;
  (** [uuidv4()]: the identifiers it gives, and how many were drawn *)
  uuids : nat -> string;
  drawn : nat;
  (** [new Date().toISOString()] *)
  date_iso : string;
  trace : list Call;
}.

Definition with_files (f : JsonStore.Files N -> JsonStore.Files N) (w : World) :=
  {| files := f (files w); store := store w; papa := papa w; pg := pg w; pg_env := pg_env w;
     uuids := uuids w; drawn := drawn w; date_iso := date_iso w; trace := trace w |}.

Definition with_store (f : CsvHandler.Store -> CsvHandler.Store) (w : World) :=
  {| files := files w; store := f (store w); papa := papa w; pg := pg w; pg_env := pg_env w;
     uuids := uuids w; drawn := drawn w; date_iso := date_iso w; trace := trace w |}.

Definition with_pg (f : PgStore.Db N -> PgStore.Db N) (w : World) :=
  {| files := files w; store := store w; papa := papa w; pg := f (pg w); pg_env := pg_env w;
     uuids := uuids w; drawn := drawn w; date_iso := date_iso w; trace := trace w |}.

Definition with_drawn (f : nat -> nat) (w : World) :=
  {| files := files w; store := store w; papa := papa w; pg := pg w; pg_env := pg_env w;
     uuids := uuids w; drawn := f (drawn w); date_iso := date_iso w; trace := trace w |}.

Definition with_trace (f : list Call -> list Call) (w : World) :=
  {| files := files w; store := store w; papa := papa w; pg := pg w; pg_env := pg_env w;
     uuids := uuids w; drawn := drawn w; date_iso := date_iso w; trace := f (trace w) |}.

(** An [async] method: it runs on the world and resolves or rejects;
    what it did before a rejection stays done. *)
Definition Async (A : Type) : Type := World -> Outcome (JsError N) A * World.

Definition ret {A} (a : A) : Async A := fun w => (Resolved a, w).

Definition throw {A} (e : JsError N) : Async A := fun w => (Rejected e, w).

Definition bind {A B} (m : Async A) (k : A -> Async B) : Async B :=
  fun w =>
    match m w with
    | (Resolved a, w') => k a w'
    | (Rejected e, w') => (Rejected e, w')
    end.

Definition get {A} (f : World -> A) : Async A := fun w => (Resolved (f w), w).

Definition modify (f : World -> World) : Async unit := fun w => (Resolved tt, f w).

Definition record (c : Call) : Async unit := modify (with_trace (fun t => t ++ [c])).

(** One call of the Neon store. *)
Definition call_pg {A} (m : PgStore.Pg N A) : Async A :=
  fun w =>
    let '(r, db) := PgStore.run m (pg_env w) (pg w) in
    (r, with_pg (fun _ => db) w).

Definition uuidv4 : Async string :=
  fun w => (Resolved (uuids w (drawn w)), with_drawn S w).

End World.
Arguments World N : clear implicits.
Arguments Async N A : clear implicits.
End Runtime.

Declare Scope async_scope.
Delimit Scope async_scope with async.
Notation "'let*' x ':=' m 'in' k" := (Runtime.bind m (fun x => k))
  (at level 10, x name, m at level 100, k at level 200) : async_scope.
Notation "'await' m ';;' k" := (Runtime.bind m (fun _ => k))
  (at level 10, m at level 99, k at level 200) : async_scope.

(* ================================================================== *)
(** * lib/agents/audit-agent.ts                                        *)
(* ================================================================== *)

Module AuditAgent.
Section Audit.
Context {N : Type} `{JsNumber N}.
#[local] Open Scope async_scope.

Record AuditEntry := {
  ae_userId : string;
  ae_orgId : string;
  ae_accion : AccionAuditoria;
  entidad : string;
  entidadId : option string;
  campoModificado : option string;
  valorAnterior : JsValue N;
  valorNuevo : JsValue N;
  ae_timestamp : string;
  ipAddress : option string;
  sessionId : option string;
}.

(** [s || ''] *)
Definition or_empty (s : option string) : string := default "" s.

(** [v !== undefined ? String(v) : ''] *)
Definition string_of_defined (v : JsValue N) : Text N :=
  match v with
  | JsUndefined => []
  | _ => [PVal v]
  end.

Definition auditRow (uuid : string) (entry : AuditEntry) : AuditLog N :=
  {| al_id := "aud_" +:+ substring 0 8 uuid;
     user_id := ae_userId entry;
     org_id := ae_orgId entry;
     accion := ae_accion entry;
     entidad_tipo := entidad entry;
     entidad_id := or_empty (entidadId entry);
     campo_modificado := or_empty (campoModificado entry);
     valor_anterior := string_of_defined (valorAnterior entry);
     valor_nuevo := string_of_defined (valorNuevo entry);
     al_timestamp := ae_timestamp entry;
     ip_address := or_empty (ipAddress entry);
     session_id := or_empty (sessionId entry) |}.

(** [AuditAgent.log] *)
Definition log (entry : AuditEntry) : Runtime.Async N unit :=
  let* uuid := Runtime.uuidv4 in
  await Runtime.modify
    (fun w =>
       Runtime.with_store
         (CsvHandler.appendRow (Runtime.papa w) "audit_log" (auditRow uuid entry)) w) ;;
  Runtime.record Runtime.AuditAgent_logged.


#[global] Instance AccionAuditoria_eq_dec : EqDecision AccionAuditoria.
Proof. solve_decision. Defined.


End Audit.
Arguments AuditEntry N : clear implicits.
End AuditAgent.


(* ================================================================== *)
(** * lib/agents/validation-agent.ts                                   *)
(* ================================================================== *)

Module ValidationAgent.
Section Validation.
Context {N : Type} `{JsNumber N}.
#[local] Open Scope js_scope.

(** What one of the variables [factors] and [dropdowns] holds: the
    Promise of an un-awaited call, a loaded object, or [null]. *)
Inductive Ref (A : Type) : Type :=
  | RPromise (p : Promise (option A))
  | RObject (a : A)
  | RNull.
Arguments RPromise {A} p.
Arguments RObject {A} a.
Arguments RNull {A}.

(** ToBoolean: every object is true, a Promise too; [null] is false. *)
Definition ref_truthy {A} (r : Ref A) : bool :=
  match r with
  | RNull => false
  | _ => true
  end.

(** [r.f]: the property of a loaded object; [undefined] on a Promise. *)
Definition ref_get {A B} (f : A -> B) (r : Ref A) : option B :=
  match r with
  | RObject a => Some (f a)
  | _ => None
  end.

(** What [await p] would hold. *)
Definition awaited {A} (p : Promise (option A)) : Ref A :=
  match p with
  | promise (Some a) => RObject a
  | promise None => RNull
  end.

(** [s.includes(needle)] on strings. *)
Fixpoint includes (needle s : string) : bool :=
  if String.prefix needle s then true
  else match s with
       | EmptyString => false
       | String _ s' => includes needle s'
       end.

(** The double-quote character. *)
Definition dquote : string := String (Ascii.ascii_of_nat 34) EmptyString.

(** The year: outside 2007-2027 is an error; a year without factors of
    its own is a warning. *)
Definition check_anio (factors : Ref EmissionFactors) (event : DataChangeEvent N)
  : Outcome (JsError N) (list (ValidationEntry N)) :=
  if ((anio event <? 2007) || (2027 <? anio event))%Z then
    Resolved
      [ {| ve_field := "anio";
           message := [Lit "El año "; PInt (anio event);
                       Lit " está fuera del rango permitido (2007-2027)"];
           severity := error |} ]
  else if ref_truthy factors then
    (* factors.anios_disponibles.includes(event.anio) *)
    match ref_get anios_disponibles factors with
    | None =>
        Rejected (TypeError "Cannot read properties of undefined (reading 'includes')")
    | Some disponibles =>
        if negb (existsb (Z.eqb (anio event)) disponibles) then
          Resolved
            [ {| ve_field := "anio";
                 message :=
                   [Lit "El año "; PInt (anio event);
                    Lit " no tiene factores de emisión propios. Se usarán los del último año disponible (";
                    match last disponibles with
                    | Some y => PInt y
                    | None => Lit "undefined"
                    end;
                    Lit ")."];
                 severity := warning |} ]
        else Resolved []
    end
  else Resolved [].

(** Numeric values are not negative. *)
Definition check_negativo (event : DataChangeEvent N) : list (ValidationEntry N) :=
  match newValue event with
  | JsNum x =>
      if x <? lit 0 then
        [ {| ve_field := field event;
             message := [Lit "El valor de "; Lit dquote; PStr (field event);
                         Lit dquote; Lit " no puede ser negativo"];
             severity := error |} ]
      else []
  | _ => []
  end.

(** Quantities above 10M are flagged. *)
Definition check_cantidad (event : DataChangeEvent N) : list (ValidationEntry N) :=
  match newValue event with
  | JsNum x =>
      if includes "cantidad" (field event) && (x >? lit 10000000) then
        [ {| ve_field := field event;
             message := [Lit "El valor "; PNum x;
                         Lit " parece inusualmente alto. ¿Estás seguro?"];
             severity := warning |} ]
      else []
  | _ => []
  end.

(** The fuel type is one of the catalogue. *)
Definition check_tipo_combustible (dropdowns : Ref Dropdowns)
  (event : DataChangeEvent N)
  : Outcome (JsError N) (list (ValidationEntry N)) :=
  match newValue event with
  | JsStr s =>
      if String.eqb (field event) "tipo_combustible" then
        if ref_truthy dropdowns then
          (* [...dropdowns.tipos_combustible_fijo, ...dropdowns.tipos_combustible_vehiculo] *)
          match ref_get tipos_combustible_fijo dropdowns,
                ref_get tipos_combustible_vehiculo dropdowns with
          | Some fijo, Some vehiculo =>
              let validFuels := fijo ++ vehiculo in
              if negb (existsb (String.eqb s) validFuels) then
                Resolved
                  [ {| ve_field := field event;
                       message := [Lit "Tipo de combustible "; Lit dquote; PStr s;
                                   Lit dquote; Lit " no reconocido"];
                       severity := warning |} ]
              else Resolved []
          | _, _ => Rejected (TypeError "undefined is not iterable")
          end
        else Resolved []
      else Resolved []
  | _ => Resolved []
  end.

Definition is_error (e : ValidationEntry N) : bool :=
  match severity e with
  | error => true
  | warning => false
  end.

Definition is_warning (e : ValidationEntry N) : bool :=
  match severity e with
  | error => false
  | warning => true
  end.

(** The body of [validate], for what [factors] and [dropdowns] hold. *)
Definition validate_with (factors : Ref EmissionFactors)
  (dropdowns : Ref Dropdowns) (event : DataChangeEvent N)
  : Outcome (JsError N) (ValidationResult N) :=
  match check_anio factors event with
  | Rejected e => Rejected e
  | Resolved errors_anio =>
      let errors := errors_anio ++ check_negativo event ++ check_cantidad event in
      match check_tipo_combustible dropdowns event with
      | Rejected e => Rejected e
      | Resolved errors_tipo =>
          let errors := errors ++ errors_tipo in
          Resolved
            {| isValid := (length (List.filter is_error errors) =? 0)%nat;
               errors := errors |}
      end
  end.

(** [ValidationAgent.validate].  The agent imports [loadEmissionFactors]
    and [loadDropdowns] from pg-store, where they are [async], and calls
    them without [await]: [factors] and [dropdowns] hold Promises. *)
Definition validate (event : DataChangeEvent N)
  : Runtime.Async N (ValidationResult N) :=
  fun w =>
    let w := Runtime.with_trace (fun t => t ++ [Runtime.ValidationAgent_validate]) w in
    let factors := RPromise (PgStore.loadEmissionFactors (Runtime.pg w)) in
    let dropdowns := RPromise (PgStore.loadDropdowns (Runtime.pg w)) in
    (validate_with factors dropdowns event, w).

(** The fields of [data: Record<string, any>] that
    [validateOrganization] reads, each absent or of its declared type. *)
Record OrganizationData := {
  od_nombre : option string;
  od_cif_nif : option string;
  od_num_empleados : option N;
  od_superficie_m2 : option N;
}.

(** [[A-Z]] and [\d]. *)
Definition is_upper (c : ascii) : bool :=
  (65 <=? nat_of_ascii c)%nat && (nat_of_ascii c <=? 90)%nat.

Definition is_digit (c : ascii) : bool :=
  (48 <=? nat_of_ascii c)%nat && (nat_of_ascii c <=? 57)%nat.

(** [/^[A-Z]\d{8}$|^\d{8}[A-Z]$/.test(s)] *)
Definition cif_nif_test (s : string) : bool :=
  match list_ascii_of_string s with
  | [c1; c2; c3; c4; c5; c6; c7; c8; c9] =>
      (is_upper c1 && forallb is_digit [c2; c3; c4; c5; c6; c7; c8; c9])
      || (forallb is_digit [c1; c2; c3; c4; c5; c6; c7; c8] && is_upper c9)
  | _ => false
  end.

(** [!s] on a string that may be absent: true for [undefined] and for
    the empty string. *)
Definition not_string (s : option string) : bool :=
  match s with
  | Some (String _ _) => false
  | _ => true
  end.

(** [!x || x <= 0] on a number that may be absent.  [!x] is true for
    [undefined], [0] and [NaN]; for the other numbers [x <= 0] is the
    negation of [0 < x]. *)
Definition not_positive (x : option N) : bool :=
  match x with
  | Some x => negb (truthy x) || negb (lit 0 <? x)
  | None => true
  end.

(** [validateOrganization] *)
Definition validateOrganization (data : OrganizationData) : ValidationResult N :=
  let errors : list (ValidationEntry N) := [] in
  let errors :=
    if not_string (od_nombre data)
       || trim_is_empty (list_ascii_of_string (default "" (od_nombre data)))
    then errors ++ [ {| ve_field := "nombre";
                        message := [Lit "El nombre es obligatorio"];
                        severity := error |} ]
    else errors in
  let errors :=
    if not_string (od_cif_nif data) || negb (cif_nif_test (default "" (od_cif_nif data)))
    then errors ++ [ {| ve_field := "cif_nif";
                        message := [Lit "CIF/NIF no válido (formato: B12345678 o 12345678A)"];
                        severity := error |} ]
    else errors in
  let errors :=
    if not_positive (od_num_empleados data)
    then errors ++ [ {| ve_field := "num_empleados";
                        message := [Lit "Debe indicar al menos 1 empleado"];
                        severity := error |} ]
    else errors in
  let errors :=
    if not_positive (od_superficie_m2 data)
    then errors ++ [ {| ve_field := "superficie_m2";
                        message := [Lit "La superficie debe ser positiva"];
                        severity := error |} ]
    else errors in
  {| isValid := (length (List.filter is_error errors) =? 0)%nat;
     errors := errors |}.

End Validation.
Arguments OrganizationData N : clear implicits.
Arguments RPromise {A} p.
Arguments RObject {A} a.
Arguments RNull {A}.
End ValidationAgent.

(* ================================================================== *)
(** * lib/agents/orchestrator.ts                                       *)
(* ================================================================== *)

Module Orchestrator.
Section Orchestrate.
Context {N : Type} `{JsNumber N}.
#[local] Open Scope js_scope.
#[local] Open Scope async_scope.

(** Umbral de variación (%) para alertas automáticas. *)
Definition THRESHOLD_PERCENT : Z := 10.

Record DataChangeResult := {
  dc_results : Resultados N;
  dc_alerts : list (Text N);
  dc_validation : ValidationResult N;
}.

Record CalculateResult := {
  results : Resultados N;
  alerts : list (Text N);
}.

(** [checkThresholds]: the alert when the total varies by more than the
    threshold with respect to the year before.  The total of the year
    before is a stored field, which [>] reads through ToNumber; where it
    is above 0 it is a number. *)
Definition checkThresholds (orgId : string) (anio : Z)
  (currentResults : Resultados N) : Runtime.Async N (list (Text N)) :=
  await Runtime.record Runtime.Orchestrator_checkThresholds ;;
  let* previousResults := Runtime.call_pg (PgStore.loadResults orgId (anio - 1)) in
  match previousResults with
  | Some previousResults =>
      if to_number (total_alcance_1_2_t_co2e previousResults) >? lit 0 then
        let previousTotal := to_number (total_alcance_1_2_t_co2e previousResults) in
        let currentTotal := total_alcance_1_2_t_co2e currentResults in
        let variacion := ((currentTotal - previousTotal) / previousTotal) * lit 100 in
        if Math_abs variacion >? lit (inject_Z THRESHOLD_PERCENT) then
          let direccion := if variacion >? lit 0 then "AUMENTO" else "REDUCCIÓN" in
          Runtime.ret
            [ [ Lit "🔔 "; PStr direccion; Lit " del "; PFixed 1 (Math_abs variacion);
                Lit "% respecto a "; PInt (anio - 1); Lit " ";
                Lit "("; PFixed 2 previousTotal; Lit " → "; PFixed 2 currentTotal;
                Lit " t CO2e). ";
                Lit "Supera el umbral del "; PInt THRESHOLD_PERCENT; Lit "%." ] ]
        else Runtime.ret []
      else Runtime.ret []
  | None => Runtime.ret []
  end.

(** [calcAgent.recalculate], entered from the orchestrator. *)
Definition recalculate (params : CalcAgent.RecalculateParams)
  : Runtime.Async N (Resultados N) :=
  await Runtime.record Runtime.CalcAgent_recalculate ;;
  fun w =>
    let '(r, fs) := CalcAgent.recalculate params (Runtime.files w) in
    (Resolved r, Runtime.with_files (fun _ => fs) w).

(** [onDataChange]: Auditoría → Validación → Cálculo → Notificación *)
Definition onDataChange (event : DataChangeEvent N)
  : Runtime.Async N DataChangeResult :=
  (* 1. AuditAgent *)
  await AuditAgent.log
    {| AuditAgent.ae_userId := userId event;
       AuditAgent.ae_orgId := orgId event;
       AuditAgent.ae_accion := UPDATE;
       AuditAgent.entidad := entity event;
       AuditAgent.entidadId := entityId event;
       AuditAgent.campoModificado := Some (field event);
       AuditAgent.valorAnterior := oldValue event;
       AuditAgent.valorNuevo := newValue event;
       AuditAgent.ae_timestamp := timestamp event;
       AuditAgent.ipAddress := None;
       AuditAgent.sessionId := None |} ;;
  (* 2. ValidationAgent *)
  let* validation := ValidationAgent.validate event in
  if negb (isValid validation) then
    Runtime.throw (ValidationError (errors validation))
  else
    let alerts :=
      map (fun e => Lit "⚠️ " :: message e)
          (List.filter ValidationAgent.is_warning (errors validation)) in
    (* 3. CalcAgent *)
    let* updatedResults :=
      recalculate {| CalcAgent.rp_orgId := orgId event;
                     CalcAgent.rp_anio := anio event;
                     CalcAgent.rp_scope := Some (affectedScope event) |} in
    (* 4. NotifyAgent *)
    let* thresholdAlerts := checkThresholds (orgId event) (anio event) updatedResults in
    let alerts := alerts ++ thresholdAlerts in
    Runtime.ret {| dc_results := updatedResults;
                   dc_alerts := alerts;
                   dc_validation := validation |}.

(** [onCalculate]: the recalculation asked for by the user. *)
Definition onCalculate (userId orgId : string) (anio : Z)
  : Runtime.Async N CalculateResult :=
  let* now := Runtime.get Runtime.date_iso in
  await AuditAgent.log
    {| AuditAgent.ae_userId := userId;
       AuditAgent.ae_orgId := orgId;
       AuditAgent.ae_accion := CALCULATE;
       AuditAgent.entidad := "results";
       AuditAgent.entidadId := None;
       AuditAgent.campoModificado := None;
       AuditAgent.valorAnterior := JsUndefined;
       AuditAgent.valorNuevo := JsUndefined;
       AuditAgent.ae_timestamp := now;
       AuditAgent.ipAddress := None;
       AuditAgent.sessionId := None |} ;;
  let* results :=
    recalculate {| CalcAgent.rp_orgId := orgId;
                   CalcAgent.rp_anio := anio;
                   CalcAgent.rp_scope := Some both |} in
  let* thresholdAlerts := checkThresholds orgId anio results in
  Runtime.ret {| results := results; alerts := [] ++ thresholdAlerts |}.

(** [onExport]: only the audit entry. *)
Definition onExport (userId orgId tipo : string) : Runtime.Async N unit :=
  let* now := Runtime.get Runtime.date_iso in
  AuditAgent.log
    {| AuditAgent.ae_userId := userId;
       AuditAgent.ae_orgId := orgId;
       AuditAgent.ae_accion := EXPORT;
       AuditAgent.entidad := "report";
       AuditAgent.entidadId := Some tipo;
       AuditAgent.campoModificado := None;
       AuditAgent.valorAnterior := JsUndefined;
       AuditAgent.valorNuevo := JsUndefined;
       AuditAgent.ae_timestamp := now;
       AuditAgent.ipAddress := None;
       AuditAgent.sessionId := None |}.

End Orchestrate.
Arguments DataChangeResult N : clear implicits.
Arguments CalculateResult N : clear implicits.
End Orchestrator.


(* ================================================================== *)
(** * The vocabulary of the properties                                 *)
(* ================================================================== *)

(** What the properties below are stated with: the predicates they use,
    names for locals of the code, and the data of the examples. *)

(** ** Rounding *)

(** [r] is [x] rounded to three decimal places, a tie going up: [r] is
    a multiple of 0.001 and [r - 0.0005 <= x < r + 0.0005]. *)
Definition rounded3_half_up (x r : Q) : Prop :=
  (exists k : Z, r == inject_Z k / 1000)%Q /\
  (r - (1 # 2000) <= x)%Q /\ (x < r + (1 # 2000))%Q.

(** The double [r] is the one nearest to the decimal that is [x]
    rounded to three decimal places, a tie going up. *)
Definition es_redondeo_half_up (x : Q) (r : float) : Prop :=
  exists k : Z, rounded3_half_up x (k # 1000) /\ r = lit (k # 1000).

(** The double [r] is the one nearest to a decimal of three places that
    is nearest to [x], whichever way a tie goes. *)
Definition es_redondeo_3_decimales (x : Q) (r : float) : Prop :=
  exists k : Z, (Qabs ((k # 1000) - x) <= 1 # 2000)%Q /\ r = lit (k # 1000).

(** [Math.round(x * 1000) / 1000], in the arithmetic of the instance. *)
Definition round3 {N} `{JsNumber N} (x : N) : N :=
  (Math_round (x * lit 1000) / lit 1000)%js.

(** [Math.round((kg / 1000) * 1000) / 1000], the reported figure, in
    tonnes, of a sum in kilograms. *)
Definition toneladas3 {N} `{JsNumber N} (kg : N) : N :=
  (Math_round ((kg / lit 1000) * lit 1000) / lit 1000)%js.

(** What three-decimal rounding is in binary64.  The double [x * 1000]
    has a value [v]; with [k] the integer nearest to [v], a tie going
    up, [r] is the double nearest to [k / 1000], or [-0] when [k] is 0
    and the double is negative or [-0].  Said of the values below 2^52
    in magnitude: the doubles from there on are integers, which
    [Math.round] leaves as they are. *)
Definition redondeo3_binary64 (x r : float) : Prop :=
  forall v : Q,
    Float64.to_Q (x * lit 1000)%js = Some v ->
    (Qabs v < inject_Z (2 ^ 52))%Q ->
    r = lit (Qfloor (v + (1 # 2)) # 1000) \/
    (Qfloor (v + (1 # 2)) = 0 /\ r = PrimFloat.neg_zero).

(** ** The calculation engine *)

(** [|a - b| <= eps], in binary64. *)
Definition within (eps a b : float) : bool :=
  PrimFloat.leb (PrimFloat.abs (PrimFloat.sub a b)) eps.

(** The factor triple of the natural-gas example. *)
Definition fe_gas_natural {N} `{JsNumber N} : FactorEmision N :=
  {| co2_kg_ud := lit 0.202; ch4_g_ud := lit 0.00004; n2o_g_ud := lit 0.00001 |}.

(** A factor of 1 kg of CO2 per unit, and no other gas. *)
Definition fe_solo_co2 {N} `{JsNumber N} : FactorEmision N :=
  {| co2_kg_ud := lit 1; ch4_g_ud := lit 0; n2o_g_ud := lit 0 |}.

(** ** The results of a recalculation *)

(** The sum of the seven Scope 1 category subtotals of a result. *)
Definition suma_subtotales_alcance_1 {N} `{JsNumber N} (a : Alcance1 N) : N :=
  (instalaciones_fijas_no_ley a + instalaciones_fijas_ley a
   + transporte_carretera a + transporte_ferroviario_maritimo_aereo_t a
   + maquinaria a + fugitivas a + proceso a)%js.

(** The sum of the three Scope 2 category subtotals of a result. *)
Definition suma_subtotales_alcance_2 {N} `{JsNumber N} (a : Alcance2 N) : N :=
  (electricidad_edificios a + electricidad_vehiculos a + calor_vapor_frio a)%js.

(** The sum of the stored figures of a list of records: they are added
    from 0, from left to right; [null] counts as 0, and a record
    without its figure makes the sum NaN. *)
Definition suma_kg {N} `{JsNumber N} (cifras : list (JsonNumber N)) : N :=
  fold_left (fun suma cifra => (suma + to_number cifra)%js) cifras (lit 0).

(** The sums in kilograms of the ten categories, for the data stored
    for the organisation and year: 0 for a data set that is missing. *)
Definition kg_no_ley {N} `{JsNumber N} (params : CalcAgent.RecalculateParams)
  (fs : JsonStore.Files N) : N :=
  match JsonStore.loadScope1InstalacionesFijas
          (CalcAgent.rp_orgId params) (CalcAgent.rp_anio params) fs with
  | Some d => suma_kg (emisiones_totales_kg_co2e <$> no_sujetas_ley_1_2005 d)
  | None => lit 0
  end.

Definition kg_ley {N} `{JsNumber N} (params : CalcAgent.RecalculateParams)
  (fs : JsonStore.Files N) : N :=
  match JsonStore.loadScope1InstalacionesFijas
          (CalcAgent.rp_orgId params) (CalcAgent.rp_anio params) fs with
  | Some d => suma_kg (emisiones_totales_kg_co2e <$> sujetas_ley_1_2005 d)
  | None => lit 0
  end.

Definition kg_carretera {N} `{JsNumber N} (params : CalcAgent.RecalculateParams)
  (fs : JsonStore.Files N) : N :=
  match JsonStore.loadScope1Vehiculos
          (CalcAgent.rp_orgId params) (CalcAgent.rp_anio params) fs with
  | Some d =>
      (suma_kg (emisiones_totales_kg_co2e <$> transporte_carretera_A1_combustible d)
       + suma_kg (emisiones_totales_kg_co2e <$> transporte_carretera_A2_distancia_km d))%js
  | None => lit 0
  end.

Definition kg_no_carretera {N} `{JsNumber N} (params : CalcAgent.RecalculateParams)
  (fs : JsonStore.Files N) : N :=
  match JsonStore.loadScope1Vehiculos
          (CalcAgent.rp_orgId params) (CalcAgent.rp_anio params) fs with
  | Some d => suma_kg (emisiones_totales_kg_co2e <$> transporte_ferroviario_maritimo_aereo d)
  | None => lit 0
  end.

Definition kg_maquinaria {N} `{JsNumber N} (params : CalcAgent.RecalculateParams)
  (fs : JsonStore.Files N) : N :=
  match JsonStore.loadScope1Vehiculos
          (CalcAgent.rp_orgId params) (CalcAgent.rp_anio params) fs with
  | Some d => suma_kg (emisiones_totales_kg_co2e <$> maquinaria_movil d)
  | None => lit 0
  end.

Definition kg_fugitivas {N} `{JsNumber N} (params : CalcAgent.RecalculateParams)
  (fs : JsonStore.Files N) : N :=
  match JsonStore.loadScope1Fugitivas
          (CalcAgent.rp_orgId params) (CalcAgent.rp_anio params) fs with
  | Some d =>
      (suma_kg (emisiones_kg_co2e <$> climatizacion_refrigeracion d)
       + suma_kg (emisiones_kg_co2e <$> otros d))%js
  | None => lit 0
  end.

Definition kg_proceso {N} `{JsNumber N} (params : CalcAgent.RecalculateParams)
  (fs : JsonStore.Files N) : N :=
  match JsonStore.loadScope1Proceso
          (CalcAgent.rp_orgId params) (CalcAgent.rp_anio params) fs with
  | Some d => suma_kg (emisiones_kg_co2e <$> emisiones d)
  | None => lit 0
  end.

Definition kg_edificios {N} `{JsNumber N} (params : CalcAgent.RecalculateParams)
  (fs : JsonStore.Files N) : N :=
  match JsonStore.loadScope2Electricidad
          (CalcAgent.rp_orgId params) (CalcAgent.rp_anio params) fs with
  | Some d => suma_kg (emisiones_kg_co2 <$> electricidad_edificios_l d)
  | None => lit 0
  end.

Definition kg_vehiculos_electricos {N} `{JsNumber N}
  (params : CalcAgent.RecalculateParams) (fs : JsonStore.Files N) : N :=
  match JsonStore.loadScope2Electricidad
          (CalcAgent.rp_orgId params) (CalcAgent.rp_anio params) fs with
  | Some d => suma_kg (emisiones_kg_co2 <$> electricidad_vehiculos_l d)
  | None => lit 0
  end.

Definition kg_calor_vapor_frio {N} `{JsNumber N} (params : CalcAgent.RecalculateParams)
  (fs : JsonStore.Files N) : N :=
  match JsonStore.loadScope2Electricidad
          (CalcAgent.rp_orgId params) (CalcAgent.rp_anio params) fs with
  | Some d => suma_kg (emisiones_kg_co2 <$> calor_vapor_frio_l d)
  | None => lit 0
  end.

(** The locals [total_alcance1_kg] and [total_alcance2_kg] of
    [recalculate]: the sums of the category sums, in the order of the
    source. *)
Definition total_alcance1_kg {N} `{JsNumber N} (params : CalcAgent.RecalculateParams)
  (fs : JsonStore.Files N) : N :=
  (kg_no_ley params fs + kg_ley params fs + kg_carretera params fs
   + kg_no_carretera params fs + kg_maquinaria params fs
   + kg_fugitivas params fs + kg_proceso params fs)%js.

Definition total_alcance2_kg {N} `{JsNumber N} (params : CalcAgent.RecalculateParams)
  (fs : JsonStore.Files N) : N :=
  (kg_edificios params fs + kg_vehiculos_electricos params fs
   + kg_calor_vapor_frio params fs)%js.

(** Each of the thirteen figures of the results that [recalculate]
    returns, with the sum in kilograms it reports: the seven Scope 1
    subtotals, the three Scope 2 subtotals, the two scope totals and
    the combined total. *)
Definition cifras_y_sumas {N} `{JsNumber N} (params : CalcAgent.RecalculateParams)
  (fs : JsonStore.Files N) : list (N * N) :=
  let r := (CalcAgent.recalculate params fs).1 in
  [ (instalaciones_fijas_no_ley (alcance_1 r), kg_no_ley params fs);
    (instalaciones_fijas_ley (alcance_1 r), kg_ley params fs);
    (transporte_carretera (alcance_1 r), kg_carretera params fs);
    (transporte_ferroviario_maritimo_aereo_t (alcance_1 r), kg_no_carretera params fs);
    (maquinaria (alcance_1 r), kg_maquinaria params fs);
    (fugitivas (alcance_1 r), kg_fugitivas params fs);
    (proceso (alcance_1 r), kg_proceso params fs);
    (electricidad_edificios (alcance_2 r), kg_edificios params fs);
    (electricidad_vehiculos (alcance_2 r), kg_vehiculos_electricos params fs);
    (calor_vapor_frio (alcance_2 r), kg_calor_vapor_frio params fs);
    (a1_total_t_co2e (alcance_1 r), total_alcance1_kg params fs);
    (a2_total_t_co2e (alcance_2 r), total_alcance2_kg params fs);
    (total_alcance_1_2_t_co2e r,
     (total_alcance1_kg params fs + total_alcance2_kg params fs)%js) ].

(** One stored record of a given figure. *)
Definition un_registro {N} (id : string) (cifra : JsonNumber N)
  : list (RegistroTotales (JsonNumber N)) :=
  [ {| rt_id := id; emisiones_totales_kg_co2e := cifra |} ].

(** Fixed installations not subject and subject to Ley 1/2005, with
    one record each of the given figures, and nothing else stored. *)
Definition files_instalaciones {N} (no_ley ley : JsonNumber N) : JsonStore.Files N :=
  {| JsonStore.organization_json := ∅;
     JsonStore.scope1_instalaciones_fijas_json :=
       {[ ("org_001"%string, 2024) :=
            {| no_sujetas_ley_1_2005 := un_registro "caldera" no_ley;
               sujetas_ley_1_2005 := un_registro "horno" ley |} ]};
     JsonStore.scope1_vehiculos_json := ∅;
     JsonStore.scope1_fugitivas_json := ∅;
     JsonStore.scope1_proceso_json := ∅;
     JsonStore.scope2_electricidad_json := ∅;
     JsonStore.results_json := ∅ |}.

(** Two installations of 0.4 kg CO2e each, one of each kind. *)
Definition files_dos_instalaciones {N} `{JsNumber N} : JsonStore.Files N :=
  files_instalaciones (JNum (lit 0.4)) (JNum (lit 0.4)).

(** An installation of 120 kg CO2e, and one stored without its figure. *)
Definition files_sin_cifra {N} `{JsNumber N} : JsonStore.Files N :=
  files_instalaciones (JNum (lit 120)) JAbsent.

(** One record of 500.5 kg CO2e in each of the seven Scope 1 categories
    and of the three Scope 2 categories. *)
Definition files_500_5 {N} `{JsNumber N} : JsonStore.Files N :=
  {| JsonStore.organization_json := ∅;
     JsonStore.scope1_instalaciones_fijas_json :=
       {[ ("org_001"%string, 2024) :=
            {| no_sujetas_ley_1_2005 := un_registro "caldera" (JNum (lit 500.5));
               sujetas_ley_1_2005 := un_registro "horno" (JNum (lit 500.5)) |} ]};
     JsonStore.scope1_vehiculos_json :=
       {[ ("org_001"%string, 2024) :=
            {| transporte_carretera_A1_combustible :=
                 un_registro "furgoneta" (JNum (lit 500.5));
               transporte_carretera_A2_distancia_km := [];
               transporte_ferroviario_maritimo_aereo :=
                 un_registro "tren" (JNum (lit 500.5));
               maquinaria_movil := un_registro "carretilla" (JNum (lit 500.5)) |} ]};
     JsonStore.scope1_fugitivas_json :=
       {[ ("org_001"%string, 2024) :=
            {| climatizacion_refrigeracion :=
                 [ {| rc_id := "split"; emisiones_kg_co2e := JNum (lit 500.5) |} ];
               otros := [] |} ]};
     JsonStore.scope1_proceso_json :=
       {[ ("org_001"%string, 2024) :=
            {| emisiones :=
                 [ {| rc_id := "horno_cal"; emisiones_kg_co2e := JNum (lit 500.5) |} ] |} ]};
     JsonStore.scope2_electricidad_json :=
       {[ ("org_001"%string, 2024) :=
            {| electricidad_edificios_l :=
                 [ {| re_id := "oficina"; emisiones_kg_co2 := JNum (lit 500.5) |} ];
               electricidad_vehiculos_l :=
                 [ {| re_id := "cargador"; emisiones_kg_co2 := JNum (lit 500.5) |} ];
               calor_vapor_frio_l :=
                 [ {| re_id := "red_calor"; emisiones_kg_co2 := JNum (lit 500.5) |} ] |} ]};
     JsonStore.results_json := ∅ |}.

Definition params_org_001_2024 : CalcAgent.RecalculateParams :=
  {| CalcAgent.rp_orgId := "org_001";
     CalcAgent.rp_anio := 2024;
     CalcAgent.rp_scope := Some both |}.

(** No record of emissions is stored for the organisation and year:
    each data set is missing or holds empty lists only. *)
Definition sin_registros {N : Type} (orgId : string) (anio : Z)
  (fs : JsonStore.Files N) : Prop :=
  (forall d, JsonStore.loadScope1InstalacionesFijas orgId anio fs = Some d ->
             no_sujetas_ley_1_2005 d = [] /\ sujetas_ley_1_2005 d = []) /\
  (forall d, JsonStore.loadScope1Vehiculos orgId anio fs = Some d ->
             transporte_carretera_A1_combustible d = [] /\
             transporte_carretera_A2_distancia_km d = [] /\
             transporte_ferroviario_maritimo_aereo d = [] /\
             maquinaria_movil d = []) /\
  (forall d, JsonStore.loadScope1Fugitivas orgId anio fs = Some d ->
             climatizacion_refrigeracion d = [] /\ otros d = []) /\
  (forall d, JsonStore.loadScope1Proceso orgId anio fs = Some d -> emisiones d = []) /\
  (forall d, JsonStore.loadScope2Electricidad orgId anio fs = Some d ->
             electricidad_edificios_l d = [] /\ electricidad_vehiculos_l d = [] /\
             calor_vapor_frio_l d = []).

(** The local [total_t] of [recalculate]: the combined total in tonnes,
    before it is rounded. *)
Definition total_t {N} `{JsNumber N} (params : CalcAgent.RecalculateParams)
  (fs : JsonStore.Files N) : N :=
  ((total_alcance1_kg params fs + total_alcance2_kg params fs) / lit 1000)%js.

(** The divisor of a ratio: the figure that the organisation declares
    when it is a number other than 0 and NaN, and 1 otherwise (no
    organisation, no figure, [null], 0). *)
Definition divisor {N} `{JsNumber N} (declarado : option (JsonNumber N)) : N :=
  match declarado with
  | Some (JNum x) => if truthy x then x else lit 1
  | _ => lit 1
  end.

(** The files of [files_dos_instalaciones] with an organisation that
    declares no employees, a surface of 250 m2 and an activity index
    of zero. *)
Definition files_sin_plantilla {N} `{JsNumber N} : JsonStore.Files N :=
  {| JsonStore.organization_json :=
       {[ ("org_001"%string, 2024) :=
            {| nombre := "Ntizar S.L."; cif_nif := "B12345678";
               superficie_m2 := JNum (lit 250); num_empleados := JNull;
               indice_actividad :=
                 Some {| ia_nombre := "Facturación"; valor := JNum (lit 0);
                         unidades := "M€" |} |} ]};
     JsonStore.scope1_instalaciones_fijas_json :=
       JsonStore.scope1_instalaciones_fijas_json
         (files_instalaciones (JNum (lit 1200)) (JNum (lit 800)));
     JsonStore.scope1_vehiculos_json := ∅;
     JsonStore.scope1_fugitivas_json := ∅;
     JsonStore.scope1_proceso_json := ∅;
     JsonStore.scope2_electricidad_json := ∅;
     JsonStore.results_json := ∅ |}.

(** ** The free-tier guard *)

(** A call of the store that resolves ends with the cache empty. *)
Definition ends_invalidated {N A : Type} (m : PgStore.Pg N A) : Prop :=
  forall env s a s', m env s = (Resolved a, s') -> PgStore._cache s'.1 = None.

(** Usage at exactly the hard limit, and one byte below it, at a given
    time; and a database whose size query throws. *)
Definition env_at_hard_limit (now : Z) : FreeTierGuard.Env :=
  {| FreeTierGuard.now := now;
     FreeTierGuard.pg_database_size := FreeTierGuard.QRow (Some 419430400);
     FreeTierGuard.count_org_year_data := FreeTierGuard.QRow (Some 12) |}.

Definition env_below_hard_limit (now : Z) : FreeTierGuard.Env :=
  {| FreeTierGuard.now := now;
     FreeTierGuard.pg_database_size := FreeTierGuard.QRow (Some 419430399);
     FreeTierGuard.count_org_year_data := FreeTierGuard.QRow (Some 12) |}.

Definition env_statistics_down : FreeTierGuard.Env :=
  {| FreeTierGuard.now := 0;
     FreeTierGuard.pg_database_size := FreeTierGuard.QThrows;
     FreeTierGuard.count_org_year_data := FreeTierGuard.QRow (Some 12) |}.

(** ** The database store *)

(** The kinds of data [initializeOrgYear] creates. *)
Definition tipos_iniciales : list string :=
  ["scope1_instalaciones_fijas"; "scope1_vehiculos"; "scope1_fugitivas";
   "scope2_electricidad"; "results"]%string.

(** What the typed savers are given. *)
Inductive Datos (N : Type) : Type :=
  | de_organizacion (d : Organizacion (JsonNumber N))
  | de_instalaciones_fijas (d : Scope1InstalacionesFijas (JsonNumber N))
  | de_vehiculos (d : Scope1Vehiculos (JsonNumber N))
  | de_fugitivas (d : Scope1Fugitivas (JsonNumber N))
  | de_proceso (d : Scope1Proceso (JsonNumber N))
  | de_electricidad (d : Scope2Electricidad (JsonNumber N))
  | de_resultados (d : Resultados N).
Arguments de_organizacion {N} d.
Arguments de_instalaciones_fijas {N} d.
Arguments de_vehiculos {N} d.
Arguments de_fugitivas {N} d.
Arguments de_proceso {N} d.
Arguments de_electricidad {N} d.
Arguments de_resultados {N} d.

(** The typed saver of a data set. *)
Definition guardar {N} `{JsNumber N} (orgId : string) (anio : Z) (d : Datos N)
  : PgStore.Pg N unit :=
  match d with
  | de_organizacion x => PgStore.saveOrganization orgId anio x
  | de_instalaciones_fijas x => PgStore.saveScope1InstalacionesFijas orgId anio x
  | de_vehiculos x => PgStore.saveScope1Vehiculos orgId anio x
  | de_fugitivas x => PgStore.saveScope1Fugitivas orgId anio x
  | de_proceso x => PgStore.saveScope1Proceso orgId anio x
  | de_electricidad x => PgStore.saveScope2Electricidad orgId anio x
  | de_resultados x => PgStore.saveResults orgId anio x
  end.

(** The kind under which a data set is kept. *)
Definition tipo_de {N} (d : Datos N) : string :=
  match d with
  | de_organizacion _ => "organization"
  | de_instalaciones_fijas _ => "scope1_instalaciones_fijas"
  | de_vehiculos _ => "scope1_vehiculos"
  | de_fugitivas _ => "scope1_fugitivas"
  | de_proceso _ => "scope1_proceso"
  | de_electricidad _ => "scope2_electricidad"
  | de_resultados _ => "results"
  end.

(** [all] with the data set [d], as JSON writes it, in the field of its
    kind. *)
Definition con_datos {N} `{JsNumber N} (d : Datos N) (all : PgStore.AllOrgData N)
  : PgStore.AllOrgData N :=
  {| PgStore.all_organization :=
       match d with
       | de_organizacion x => Some (json_Organizacion x)
       | _ => PgStore.all_organization all
       end;
     PgStore.all_scope1_instalaciones_fijas :=
       match d with
       | de_instalaciones_fijas x => Some (json_Scope1InstalacionesFijas x)
       | _ => PgStore.all_scope1_instalaciones_fijas all
       end;
     PgStore.all_scope1_vehiculos :=
       match d with
       | de_vehiculos x => Some (json_Scope1Vehiculos x)
       | _ => PgStore.all_scope1_vehiculos all
       end;
     PgStore.all_scope1_fugitivas :=
       match d with
       | de_fugitivas x => Some (json_Scope1Fugitivas x)
       | _ => PgStore.all_scope1_fugitivas all
       end;
     PgStore.all_scope1_proceso :=
       match d with
       | de_proceso x => Some (json_Scope1Proceso x)
       | _ => PgStore.all_scope1_proceso all
       end;
     PgStore.all_scope2_electricidad :=
       match d with
       | de_electricidad x => Some (json_Scope2Electricidad x)
       | _ => PgStore.all_scope2_electricidad all
       end;
     PgStore.all_results :=
       match d with
       | de_resultados x => Some (json_Resultados (map_Resultados JNum x))
       | _ => PgStore.all_results all
       end |}.

(** The results of a year without data: every figure is 0. *)
Definition resultados_a_cero {N} `{JsNumber N} (anio : Z) : Resultados N :=
  {| anio_calculo := anio;
     alcance_1 :=
       {| instalaciones_fijas_no_ley := lit 0; instalaciones_fijas_ley := lit 0;
          transporte_carretera := lit 0;
          transporte_ferroviario_maritimo_aereo_t := lit 0;
          maquinaria := lit 0; fugitivas := lit 0; proceso := lit 0;
          a1_total_t_co2e := lit 0 |};
     alcance_2 :=
       {| electricidad_edificios := lit 0; electricidad_vehiculos := lit 0;
          calor_vapor_frio := lit 0; a2_total_t_co2e := lit 0 |};
     total_alcance_1_2_t_co2e := lit 0;
     ratios :=
       {| t_co2e_por_empleado := lit 0; t_co2e_por_m2 := lit 0;
          t_co2e_por_indice_actividad := lit 0 |} |}.

(** A sede as the table keeps it and as [loadSedes] gives it back: an
    empty address is absent. *)
Definition sede_leida (r : PgStore.SedeRecord) : PgStore.SedeRecord :=
  {| PgStore.sede_id := PgStore.sede_id r;
     PgStore.sede_nombre := PgStore.sede_nombre r;
     PgStore.direccion :=
       match PgStore.direccion r with
       | Some EmptyString => None
       | other => other
       end |}.

(** The usage [m] blocks the writes. *)
Definition bloquea (m : FreeTierGuard.SizeCache) : Prop :=
  FreeTierGuard.HARD_LIMIT_BYTES <= FreeTierGuard.bytes m \/
  FreeTierGuard.MAX_ROWS <= FreeTierGuard.rows m.

(** What a call of the store sees: the usage the guard measures, and the
    queries that throw. *)
Definition entorno (guard : FreeTierGuard.Env) (throws : nat -> bool) : PgStore.Env :=
  {| PgStore.guard_env := guard; PgStore.query_throws := throws |}.

(** A database with one sede of org_001 for 2024, and two sedes to save
    in its place. *)
Definition db_con_una_sede {N : Type} : PgStore.Db N :=
  {| PgStore.org_year_data := ∅;
     PgStore.sedes :=
       {[ ("org_001"%string, 2024) :=
            [ {| PgStore.sede_id := "sede_0"; PgStore.sede_nombre := "Almacén";
                 PgStore.direccion := None |} ] ]};
     PgStore.static_emission_factors := None;
     PgStore.static_dropdowns := None;
     PgStore._cache := None |}.

Definition dos_sedes : list PgStore.SedeRecord :=
  [ {| PgStore.sede_id := "sede_1"; PgStore.sede_nombre := "Oficina central";
       PgStore.direccion := Some "Calle Mayor 1"%string |};
    {| PgStore.sede_id := "sede_2"; PgStore.sede_nombre := "Taller";
       PgStore.direccion := Some ""%string |} ].

(** ** The CSV tables *)

(** The records that a table holds: the ones papaparse reads from its
    file, none when the file is missing or blank. *)
Definition registros {Row : Type} (papa : CsvHandler.Papa Row) (tableName : string)
  (store : CsvHandler.Store) : list Row :=
  match store !! tableName with
  | None => []
  | Some csv =>
      if trim_is_empty (list_ascii_of_string csv) then []
      else CsvHandler.parse papa csv
  end.

(** The text that is written for a list of records: the empty text for
    no record. *)
Definition texto_csv {Row : Type} (papa : CsvHandler.Papa Row) (data : list Row)
  : string :=
  match data with
  | [] => ""
  | _ :: _ => CsvHandler.unparse papa data
  end.

(** The column [id] of the record is the string [id]. *)
Definition tiene_id {N : Type} (id : string) (row : CsvHandler.Obj N) : Prop :=
  row !! "id"%string = Some (JsStr id).

(** [kept] is [data] without the records whose [id] is [id], in the
    same order. *)
Inductive sin_id {N : Type} (id : string)
  : list (CsvHandler.Obj N) -> list (CsvHandler.Obj N) -> Prop :=
  | sin_id_nil : sin_id id [] []
  | sin_id_keep row data kept :
      ~ tiene_id id row -> sin_id id data kept -> sin_id id (row :: data) (row :: kept)
  | sin_id_drop row data kept :
      tiene_id id row -> sin_id id data kept -> sin_id id (row :: data) kept.

(** The records of a table that pass the filters. *)
Definition registros_filtrados {Row : Type} (papa : CsvHandler.Papa Row)
  (tableName : string) (filters : option (Row -> bool)) (store : CsvHandler.Store)
  : list Row :=
  match filters with
  | Some matches => List.filter matches (registros papa tableName store)
  | None => registros papa tableName store
  end.

(** papaparse in an example: a table of one column whose file holds
    five records. *)
Definition papa_de_cinco : CsvHandler.Papa Z :=
  {| CsvHandler.parse := fun _ => [1; 2; 3; 4; 5];
     CsvHandler.unparse := fun _ => "n"%string |}.

Definition store_de_cinco : CsvHandler.Store :=
  {[ "tabla"%string := "n 1 2 3 4 5"%string ]}.

(** ** The audit log *)

(** The records that the audit log holds: the ones papaparse reads from
    [store/audit_log.csv], none when the file is missing or blank. *)
Definition registros_de_auditoria {N : Type} (w : Runtime.World N)
  : list (AuditLog N) :=
  match Runtime.store w !! "audit_log"%string with
  | None => []
  | Some csv =>
      if trim_is_empty (list_ascii_of_string csv) then []
      else CsvHandler.parse (Runtime.papa w) csv
  end.

(** [String(v)], and the empty text for [undefined]. *)
Definition texto_de {N : Type} (v : JsValue N) : Text N :=
  match v with
  | JsUndefined => []
  | _ => [PVal v]
  end.

(** The row that records a change event, with the identifier drawn for
    it: who, which organisation, the entity and its identifier, the
    field, the value before and the value asked for, and the time of
    the event. *)
Definition fila_de_cambio {N : Type} (uuid : string) (event : DataChangeEvent N)
  : AuditLog N :=
  {| al_id := "aud_" +:+ substring 0 8 uuid;
     user_id := userId event;
     org_id := orgId event;
     accion := UPDATE;
     entidad_tipo := entity event;
     entidad_id := default ""%string (entityId event);
     campo_modificado := field event;
     valor_anterior := texto_de (oldValue event);
     valor_nuevo := texto_de (newValue event);
     al_timestamp := timestamp event;
     ip_address := "";
     session_id := "" |}.

(** The row of an action that changes no field: a calculation, an
    export. *)
Definition fila_de_accion {N : Type} (uuid userId orgId : string)
  (accion : AccionAuditoria) (entidad entidadId timestamp : string) : AuditLog N :=
  {| al_id := "aud_" +:+ substring 0 8 uuid;
     user_id := userId;
     org_id := orgId;
     accion := accion;
     entidad_tipo := entidad;
     entidad_id := entidadId;
     campo_modificado := "";
     valor_anterior := [];
     valor_nuevo := [];
     al_timestamp := timestamp;
     ip_address := "";
     session_id := "" |}.

(** ** The orchestrator *)

(** The audit entry [onDataChange] writes for a change event. *)
Definition entrada_de_cambio {N : Type} (event : DataChangeEvent N)
  : AuditAgent.AuditEntry N :=
  {| AuditAgent.ae_userId := userId event;
     AuditAgent.ae_orgId := orgId event;
     AuditAgent.ae_accion := UPDATE;
     AuditAgent.entidad := entity event;
     AuditAgent.entidadId := entityId event;
     AuditAgent.campoModificado := Some (field event);
     AuditAgent.valorAnterior := oldValue event;
     AuditAgent.valorNuevo := newValue event;
     AuditAgent.ae_timestamp := timestamp event;
     AuditAgent.ipAddress := None;
     AuditAgent.sessionId := None |}.

(** The world in which [onDataChange] ends: the audit row appended, and
    the validation entered. *)
Definition mundo_tras_validar {N : Type} (event : DataChangeEvent N)
  (w : Runtime.World N)
  : Runtime.World N :=
  Runtime.with_trace (fun t => t ++ [Runtime.ValidationAgent_validate])
    (AuditAgent.log (entrada_de_cambio event) w).2.

(** The change event of the negative quantity: year 2024, field
    [cantidad], new value -5. *)
Definition evento_cantidad_negativa {N : Type} `{JsNumber N} : DataChangeEvent N :=
  {| userId := "usr_001";
     orgId := "org_001";
     anio := 2024;
     entity := "scope1_instalaciones_fijas";
     entityId := Some "inst_001"%string;
     field := "cantidad";
     oldValue := JsNum (lit 120);
     newValue := JsNum (lit (-5));
     affectedScope := scope1;
     timestamp := "2024-06-01T10:00:00.000Z" |}.

(** An alert is returned. *)
Definition alerta_emitida {N} (r : Outcome (JsError N) (list (Text N))) : Prop :=
  exists alerta resto, r = Resolved (alerta :: resto).

(** The percentage of variation, as [checkThresholds] computes it. *)
Definition variacion_pct {N} `{JsNumber N} (previousTotal currentTotal : N) : N :=
  (((currentTotal - previousTotal) / previousTotal) * lit 100)%js.

(** The text of the alert: direction, magnitude to one decimal, the
    prior year, both totals to two decimals, and the threshold. *)
Definition alerta_de_umbral {N} `{JsNumber N} (anio : Z)
  (previousTotal currentTotal : N) : Text N :=
  [ Lit "🔔 ";
    PStr (if ltb (lit 0) (variacion_pct previousTotal currentTotal)
          then "AUMENTO" else "REDUCCIÓN");
    Lit " del ";
    PFixed 1 (Math_abs (variacion_pct previousTotal currentTotal));
    Lit "% respecto a "; PInt (anio - 1); Lit " ";
    Lit "("; PFixed 2 previousTotal; Lit " → "; PFixed 2 currentTotal;
    Lit " t CO2e). ";
    Lit "Supera el umbral del "; PInt 10; Lit "%." ].

(** Results with a given combined total. *)
Definition resultados_con_total {N} `{JsNumber N} (anio : Z) (total : N)
  : Resultados N :=
  {| anio_calculo := anio;
     alcance_1 := alcance_1 (PgStore.emptyResults anio);
     alcance_2 := alcance_2 (PgStore.emptyResults anio);
     total_alcance_1_2_t_co2e := total;
     ratios := ratios (PgStore.emptyResults anio) |}.

(** papaparse in the worlds of the examples, where no CSV text is
    looked into: every list of records is written as the header line of
    the audit log, and no record is read back. *)
Definition papa_de_ejemplo {N} : CsvHandler.Papa (AuditLog N) :=
  {| CsvHandler.parse := fun _ => [];
     CsvHandler.unparse := fun _ =>
       "id,user_id,org_id,accion,entidad_tipo,entidad_id,campo_modificado,valor_anterior,valor_nuevo,timestamp,ip_address,session_id"%string |}.

(** A world in which the database holds, or does not hold, results of
    org_001 for 2023, and answers every query. *)
Definition mundo_con_resultados {N} `{JsNumber N}
  (previos : option (Resultados (JsonNumber N))) : Runtime.World N :=
  {| Runtime.files := JsonStore.empty;
     Runtime.store := ∅;
     Runtime.papa := papa_de_ejemplo;
     Runtime.pg :=
       {| PgStore.org_year_data :=
            match previos with
            | Some r => {[ ("org_001"%string, 2023, "results"%string) := PgStore.DResults r ]}
            | None => ∅
            end;
          PgStore.sedes := ∅;
          PgStore.static_emission_factors := None;
          PgStore.static_dropdowns := None;
          PgStore._cache := None |};
     Runtime.pg_env :=
       {| PgStore.guard_env :=
            {| FreeTierGuard.now := 0;
               FreeTierGuard.pg_database_size := FreeTierGuard.QRow (Some 8192);
               FreeTierGuard.count_org_year_data := FreeTierGuard.QRow (Some 1) |};
          PgStore.query_throws := fun _ => false |};
     Runtime.uuids := fun _ => "00000000-0000-4000-8000-000000000000"%string;
     Runtime.drawn := 0;
     Runtime.date_iso := "2024-06-01T10:00:00.000Z";
     Runtime.trace := [] |}.

(** The results of 2023 are numbers, with a given combined total. *)
Definition mundo_con_previo {N} `{JsNumber N} (total_2023 : N) : Runtime.World N :=
  mundo_con_resultados (Some (map_Resultados JNum (resultados_con_total 2023 total_2023))).

(** ** The validation of an organisation *)

(** A capital letter from A to Z, and a decimal digit. *)
Definition es_mayuscula (c : ascii) : Prop := (65 <= nat_of_ascii c <= 90)%nat.

Definition es_cifra (c : ascii) : Prop := (48 <= nat_of_ascii c <= 57)%nat.

(** A CIF or NIF: a capital letter and eight digits, or eight digits
    and a capital letter, and nothing else. *)
Definition es_cif_nif (s : string) : Prop :=
  exists (letra : ascii) (cifras : list ascii),
    length cifras = 8%nat /\ Forall es_cifra cifras /\ es_mayuscula letra /\
    (list_ascii_of_string s = letra :: cifras \/
     list_ascii_of_string s = cifras ++ [letra]).

(** The data of an organisation that [validateOrganization] accepts,
    and one with a CIF in small letters and no employees. *)
Definition organizacion_valida {N} `{JsNumber N} : ValidationAgent.OrganizationData N :=
  {| ValidationAgent.od_nombre := Some "Ntizar S.L."%string;
     ValidationAgent.od_cif_nif := Some "B12345678"%string;
     ValidationAgent.od_num_empleados := Some (lit 12);
     ValidationAgent.od_superficie_m2 := Some (lit 350.5) |}.

Definition organizacion_no_valida {N} `{JsNumber N} : ValidationAgent.OrganizationData N :=
  {| ValidationAgent.od_nombre := Some "Ntizar S.L."%string;
     ValidationAgent.od_cif_nif := Some "b12345678"%string;
     ValidationAgent.od_num_empleados := Some (lit 0);
     ValidationAgent.od_superficie_m2 := Some (lit 350.5) |}.

(* ================================================================== *)
(** * Properties                                                       *)
(* ================================================================== *)

(** ** Rounding to three decimals *)

(** [lra] after the divisions by 1000 are written as products. *)
Ltac q_lra :=
  unfold Qdiv in *; change (/ 1000)%Q with (1 # 1000)%Q in *; lra.

(** Two doubles whose representations differ are different. *)
Ltac floats_differ H :=
  apply (f_equal Prim2SF) in H; vm_compute in H; discriminate H.

(** A mantissa of [n] binary digits is at least [2 ^ (n - 1)]. *)
Lemma digits2_pos_le (m : positive) :
  2 ^ (Z.pos (digits2_pos m) - 1) <= Z.pos m.
Proof.
  induction m as [m IH | m IH |]; cbn [digits2_pos].
  - rewrite Pos2Z.inj_succ.
    replace (Z.succ (Z.pos (digits2_pos m)) - 1)
      with (Z.succ (Z.pos (digits2_pos m) - 1)) by lia.
    rewrite Z.pow_succ_r by lia. lia.
  - rewrite Pos2Z.inj_succ.
    replace (Z.succ (Z.pos (digits2_pos m)) - 1)
      with (Z.succ (Z.pos (digits2_pos m) - 1)) by lia.
    rewrite Z.pow_succ_r by lia. lia.
  - cbn. lia.
Qed.

(** A double with a non-negative exponent is at least 2^52 in
    magnitude: its mantissa has all its 53 digits. *)
Lemma finite_integer_large (x : float) (s : bool) (m : positive) (e : Z) :
  Prim2SF x = S754_finite s m e -> 0 <= e -> 2 ^ 52 <= Z.pos m * 2 ^ e.
Proof.
  intros Hx He.
  pose proof (Prim2SF_valid x) as Hv. rewrite Hx in Hv.
  unfold valid_binary, bounded, canonical_mantissa, fexp, emin in Hv.
  apply andb_prop in Hv as [Hc _].
  apply Z.eqb_eq in Hc.
  pose proof (digits2_pos_le m) as Hd.
  assert (Hdig : Z.pos (digits2_pos m) = 53) by (unfold prec, emax in Hc; lia).
  rewrite Hdig in Hd. change (53 - 1) with 52 in Hd.
  assert (1 <= 2 ^ e)
    by (apply Z.pow_le_mono_r with (a := 2) (b := 0) (c := e) in He; lia).
  nia.
Qed.

Lemma zero_float (x : float) (s : bool) :
  Prim2SF x = S754_zero s ->
  x = (if s then PrimFloat.neg_zero else PrimFloat.zero).
Proof.
  intros Hx. rewrite <- (SF2Prim_Prim2SF x), Hx. destruct s; reflexivity.
Qed.

(** In binary64, [Math.round(x * 1000) / 1000] is the double nearest to
    [k / 1000], [k] being the double [x * 1000] rounded to the nearest
    integer, a tie going up. *)
Lemma round3_binary64 (x : float) : redondeo3_binary64 x (round3 x).
Proof.
  intros v Hv Hlt.
  unfold round3.
  cbn [Math_round div Float64.number].
  set (y := (x * lit 1000)%js) in *.
  unfold Float64.round.
  rewrite Hv.
  unfold Float64.to_Q in Hv.
  destruct (Prim2SF y) as [s | s | | s m e] eqn:Hy; try discriminate Hv.
  - injection Hv as <-.
    rewrite (zero_float y s Hy).
    destruct s; [right; split | left]; vm_compute; reflexivity.
  - destruct (0 <=? e) eqn:He.
    + exfalso. apply Z.leb_le in He.
      pose proof (finite_integer_large y s m e Hy He) as Hbig.
      injection Hv as <-.
      assert (Habs : (Qabs (if s then - inject_Z (Z.pos m * 2 ^ e)
                            else inject_Z (Z.pos m * 2 ^ e))
                      == inject_Z (Z.pos m * 2 ^ e))%Q).
      { destruct s.
        - rewrite Qabs_opp. apply Qabs_pos. rewrite <- (Zle_Qle 0). lia.
        - apply Qabs_pos. rewrite <- (Zle_Qle 0). lia. }
      rewrite Habs in Hlt. rewrite <- Zlt_Qlt in Hlt. lia.
    + destruct (Qfloor (v + (1 # 2)) =? 0) eqn:Hz.
      * apply Z.eqb_eq in Hz. rewrite Hz.
        destruct s; [right; split | left]; vm_compute; reflexivity.
      * left. reflexivity.
Qed.

(** The double written 0.0045 lies below 0.0045, and above 0.0044. *)
Lemma double_0_0045 :
  exists v : Q,
    Float64.to_Q (lit 0.0045) = Some v /\ (44 # 10000 < v)%Q /\ (v < 45 # 10000)%Q.
Proof.
  eexists. split; [vm_compute; reflexivity|]. split; reflexivity.
Qed.

(** The only thousandth within 0.0005 of a number between 0.0044 and
    0.0045 is 0.004. *)
Lemma thousandth_between (k : Z) (v : Q) :
  (44 # 10000 < v)%Q -> (v < 45 # 10000)%Q ->
  ((k # 1000) - (1 # 2000) <= v)%Q -> (v <= (k # 1000) + (1 # 2000))%Q ->
  k = 4.
Proof.
  intros Hlo Hhi Hk1 Hk2.
  assert (Hup : (k # 1000 < 5 # 1000)%Q) by lra.
  assert (Hdown : (39 # 10000 < k # 1000)%Q) by lra.
  unfold Qlt in Hup, Hdown. cbn in Hup, Hdown. lia.
Qed.

(** ** The calculation engine *)

(** C1, as stated, fails in binary64: for the quantity 0.0045 and a
    factor of 1 kg of CO2 per unit, the product is the double 0.0045,
    which lies below 0.0045 and whose rounding to three decimals, a
    tie going up, is 0.004; the function returns [co2_kg = 0.005]. *)
Lemma combustion_rounding_is_not_half_up :
  ~ (forall v : Q,
       Float64.to_Q (lit 0.0045) = Some v ->
       es_redondeo_half_up (v * 1)
         (CalcAgent.co2_kg
            (CalcAgent.calcularEmisionesCombustible (lit 0.0045) fe_solo_co2))).
Proof.
  intros Hclaim.
  destruct double_0_0045 as (v & Hv & Hlo & Hhi).
  destruct (Hclaim v Hv) as (k & (_ & Hk1 & Hk2) & Hr).
  assert (Hk : k = 4) by (apply (thousandth_between k v); lra).
  subst k. floats_differ Hr.
Qed.

(** C1, amended. For every quantity and factor triple, the four fields
    that [calcularEmisionesCombustible] returns are
    [Math.round(x * 1000) / 1000] for [x] the products [q * feCO2],
    [q * feCH4], [q * feN2O] and the sum
    [q * feCO2 + (q * feCH4 / 1000) * 27.9 + (q * feN2O / 1000) * 273]
    of the products before they are rounded, in the arithmetic of the
    numbers; 27.9 and 273 are constants of the module.  In binary64 each
    field is the double nearest to [k / 1000], [k] being the double
    [x * 1000] rounded to the nearest integer, a tie going up.  For
    [q = 50000] and the factors of natural gas the fields are 10100, 2,
    0.5 and 10100.192; for [q = 0.0045] and a factor of 1 the first is
    0.005. *)
Theorem calcularEmisionesCombustible_formula :
  (forall (N : Type) (number : JsNumber N) (q : N) (fe : FactorEmision N),
     CalcAgent.calcularEmisionesCombustible q fe
     = {| CalcAgent.co2_kg := round3 (q * co2_kg_ud fe)%js;
          CalcAgent.ch4_g := round3 (q * ch4_g_ud fe)%js;
          CalcAgent.n2o_g := round3 (q * n2o_g_ud fe)%js;
          CalcAgent.total_kg_co2e :=
            round3 (q * co2_kg_ud fe
                    + (q * ch4_g_ud fe / lit 1000) * lit 27.9
                    + (q * n2o_g_ud fe / lit 1000) * lit 273)%js |}) /\
  (forall (q : float) (fe : FactorEmision float),
     redondeo3_binary64 (q * co2_kg_ud fe)%js
       (CalcAgent.co2_kg (CalcAgent.calcularEmisionesCombustible q fe)) /\
     redondeo3_binary64 (q * ch4_g_ud fe)%js
       (CalcAgent.ch4_g (CalcAgent.calcularEmisionesCombustible q fe)) /\
     redondeo3_binary64 (q * n2o_g_ud fe)%js
       (CalcAgent.n2o_g (CalcAgent.calcularEmisionesCombustible q fe)) /\
     redondeo3_binary64
       (q * co2_kg_ud fe
        + (q * ch4_g_ud fe / lit 1000) * lit 27.9
        + (q * n2o_g_ud fe / lit 1000) * lit 273)%js
       (CalcAgent.total_kg_co2e (CalcAgent.calcularEmisionesCombustible q fe))) /\
  CalcAgent.calcularEmisionesCombustible (N := float) (lit 50000) fe_gas_natural
  = {| CalcAgent.co2_kg := 10100%float;
       CalcAgent.ch4_g := 2%float;
       CalcAgent.n2o_g := 0.5%float;
       CalcAgent.total_kg_co2e := 10100.192%float |} /\
  CalcAgent.calcularEmisionesCombustible (N := float) (lit 0.0045) fe_solo_co2
  = {| CalcAgent.co2_kg := 0.005%float;
       CalcAgent.ch4_g := 0%float;
       CalcAgent.n2o_g := 0%float;
       CalcAgent.total_kg_co2e := 0.005%float |}.
Proof.
  split; [|split; [|split]].
  - intros N number q fe. reflexivity.
  - intros q fe. repeat split; apply round3_binary64.
  - vm_compute. reflexivity.
  - vm_compute. reflexivity.
Qed.

(** C2, as stated, fails: for [q = 50000] and the factors
    [{0.202, 0.00004, 0.00001}] the total is not within 0.1 of 10292.3
    (binary64 evaluation). *)
Lemma combustion_50000_total_is_not_10292 :
  ~ (within 0.1
       (CalcAgent.co2_kg
          (CalcAgent.calcularEmisionesCombustible (lit 50000) fe_gas_natural))
       10100 = true /\
     within 0.1
       (CalcAgent.total_kg_co2e
          (CalcAgent.calcularEmisionesCombustible (lit 50000) fe_gas_natural))
       10292.3 = true).
Proof.
  intros [_ Htotal]. vm_compute in Htotal. discriminate Htotal.
Qed.

(** C2, amended. For [q = 50000] and the factors
    [{0.202, 0.00004, 0.00001}] the function returns [co2_kg = 10100]
    and [total_kg_co2e = 10100.192]: CH4 and N2O are in grams and are
    divided by 1000 before they are weighted.  Evaluated in binary64,
    and on the exact instance. *)
Theorem combustion_50000_total_is_10100_192 :
  CalcAgent.co2_kg
    (CalcAgent.calcularEmisionesCombustible (lit 50000) fe_gas_natural)
  = 10100%float /\
  CalcAgent.total_kg_co2e
    (CalcAgent.calcularEmisionesCombustible (lit 50000) fe_gas_natural)
  = 10100.192%float /\
  within 0.1
    (CalcAgent.co2_kg
       (CalcAgent.calcularEmisionesCombustible (lit 50000) fe_gas_natural))
    10100 = true /\
  within 0.1
    (CalcAgent.total_kg_co2e
       (CalcAgent.calcularEmisionesCombustible (lit 50000) fe_gas_natural))
    10100.192 = true /\
  (CalcAgent.co2_kg
     (CalcAgent.calcularEmisionesCombustible 50000%Q fe_gas_natural)
   == 10100)%Q /\
  (CalcAgent.total_kg_co2e
     (CalcAgent.calcularEmisionesCombustible 50000%Q fe_gas_natural)
   == 10100.192)%Q.
Proof.
  repeat split; vm_compute; reflexivity.
Qed.

(** C3, as stated, fails in binary64: for a recharge of 0.0045 kg and a
    potential of 1, the product is the double 0.0045, which lies below
    0.0045 and is nearer to 0.004 than to any other decimal of three
    places; the function returns 0.005. *)
Lemma fugitivas_rounding_is_not_nearest :
  ~ (forall v : Q,
       Float64.to_Q (lit 0.0045) = Some v ->
       es_redondeo_3_decimales (v * 1)
         (CalcAgent.calcularEmisionesFugitivas (lit 0.0045) (lit 1))).
Proof.
  intros Hclaim.
  destruct double_0_0045 as (v & Hv & Hlo & Hhi).
  destruct (Hclaim v Hv) as (k & Hk & Hr).
  apply Qabs_Qle_condition in Hk as [Hk1 Hk2].
  assert (Hk4 : k = 4) by (apply (thousandth_between k v); lra).
  subst k. floats_differ Hr.
Qed.

(** C3, amended. For every recharge and potential,
    [calcularEmisionesFugitivas recarga_kg pca_gas] is
    [Math.round(recarga_kg * pca_gas * 1000) / 1000], in kilograms of
    CO2e: the product is not divided by 1000.  In binary64 it is the
    double nearest to [k / 1000], [k] being the double
    [recarga_kg * pca_gas * 1000] rounded to the nearest integer, a tie
    going up.  [calcularEmisionesFugitivas 10 1430 = 14300], and
    [calcularEmisionesFugitivas 0.0045 1 = 0.005]. *)
Theorem calcularEmisionesFugitivas_kilograms :
  (forall (N : Type) (number : JsNumber N) (recarga_kg pca_gas : N),
     CalcAgent.calcularEmisionesFugitivas recarga_kg pca_gas
     = round3 (recarga_kg * pca_gas)%js) /\
  (forall recarga_kg pca_gas : float,
     redondeo3_binary64 (recarga_kg * pca_gas)%js
       (CalcAgent.calcularEmisionesFugitivas recarga_kg pca_gas)) /\
  CalcAgent.calcularEmisionesFugitivas (N := float) (lit 10) (lit 1430)
  = 14300%float /\
  CalcAgent.calcularEmisionesFugitivas (N := float) (lit 0.5) (lit 22800)
  = 11400%float /\
  CalcAgent.calcularEmisionesFugitivas (N := float) (lit 0.0045) (lit 1)
  = 0.005%float.
Proof.
  split; [|split].
  - intros N number recarga_kg pca_gas. reflexivity.
  - intros recarga_kg pca_gas. apply round3_binary64.
  - repeat match goal with |- _ /\ _ => split end; vm_compute; reflexivity.
Qed.

(** ** Totals and subtotals of the results *)

(** C4, as stated, fails: with two installations of 0.4 kg CO2e the
    seven Scope 1 subtotals are all 0 and the Scope 1 total is 0.001
    (binary64 evaluation). *)
Lemma recalculate_total_is_not_sum_of_subtotals :
  ~ (PrimFloat.eqb
       (a1_total_t_co2e
          (alcance_1 (CalcAgent.recalculate params_org_001_2024
                        (files_dos_instalaciones (N := float))).1))
       (suma_subtotales_alcance_1
          (alcance_1 (CalcAgent.recalculate params_org_001_2024
                        (files_dos_instalaciones (N := float))).1))
     = true /\
     PrimFloat.eqb
       (a2_total_t_co2e
          (alcance_2 (CalcAgent.recalculate params_org_001_2024
                        (files_dos_instalaciones (N := float))).1))
       (suma_subtotales_alcance_2
          (alcance_2 (CalcAgent.recalculate params_org_001_2024
                        (files_dos_instalaciones (N := float))).1))
     = true /\
     PrimFloat.eqb
       (total_alcance_1_2_t_co2e
          (CalcAgent.recalculate params_org_001_2024
             (files_dos_instalaciones (N := float))).1)
       (PrimFloat.add
          (a1_total_t_co2e
             (alcance_1 (CalcAgent.recalculate params_org_001_2024
                           (files_dos_instalaciones (N := float))).1))
          (a2_total_t_co2e
             (alcance_2 (CalcAgent.recalculate params_org_001_2024
                           (files_dos_instalaciones (N := float))).1)))
     = true).
Proof.
  intros [Halcance1 _]. vm_compute in Halcance1. discriminate Halcance1.
Qed.

(** [reduce] adds the figures of the records from 0, in their order. *)
Lemma reduce_sum_suma_kg {N} `{JsNumber N} {A : Type}
  (f : A -> JsonNumber N) (xs : list A) :
  CalcAgent.reduce_sum f xs = suma_kg (f <$> xs).
Proof.
  unfold CalcAgent.reduce_sum, suma_kg.
  generalize (lit 0). induction xs as [|x xs IH]; intros acc; [reflexivity|].
  cbn. apply IH.
Qed.

(** Each figure of the returned results is the rounding of its own sum
    in kilograms. *)
Lemma recalculate_cifras {N} `{JsNumber N}
  (params : CalcAgent.RecalculateParams) (fs : JsonStore.Files N) :
  Forall (fun '(cifra, kg) => cifra = toneladas3 kg) (cifras_y_sumas params fs).
Proof.
  unfold cifras_y_sumas, kg_no_ley, kg_ley, kg_carretera, kg_no_carretera,
    kg_maquinaria, kg_fugitivas, kg_proceso, kg_edificios,
    kg_vehiculos_electricos, kg_calor_vapor_frio,
    total_alcance1_kg, total_alcance2_kg,
    kg_no_ley, kg_ley, kg_carretera, kg_no_carretera,
    kg_maquinaria, kg_fugitivas, kg_proceso, kg_edificios,
    kg_vehiculos_electricos, kg_calor_vapor_frio, toneladas3.
  unfold CalcAgent.recalculate.
  cbn [fst snd alcance_1 alcance_2 a1_total_t_co2e a2_total_t_co2e
       total_alcance_1_2_t_co2e instalaciones_fijas_no_ley
       instalaciones_fijas_ley transporte_carretera
       transporte_ferroviario_maritimo_aereo_t maquinaria fugitivas proceso
       electricidad_edificios electricidad_vehiculos calor_vapor_frio].
  unfold CalcAgent.calcularAlcance1InstalacionesFijas,
    CalcAgent.calcularAlcance1Vehiculos, CalcAgent.calcularAlcance1Fugitivas,
    CalcAgent.calcularAlcance1Proceso, CalcAgent.calcularAlcance2.
  destruct (JsonStore.loadScope1InstalacionesFijas _ _ fs);
    destruct (JsonStore.loadScope1Vehiculos _ _ fs);
    destruct (JsonStore.loadScope1Fugitivas _ _ fs);
    destruct (JsonStore.loadScope1Proceso _ _ fs);
    destruct (JsonStore.loadScope2Electricidad _ _ fs);
    cbn [CalcAgent.no_ley_kg CalcAgent.ley_kg CalcAgent.carretera_kg
         CalcAgent.no_carretera_kg CalcAgent.maquinaria_kg
         CalcAgent.edificios_kg CalcAgent.vehiculos_kg
         CalcAgent.calor_vapor_frio_kg];
    rewrite ?reduce_sum_suma_kg;
    repeat constructor.
Qed.

(** C4, amended. Each of the ten category subtotals and of the three
    totals that [recalculate] returns is computed on its own, as
    [Math.round((kg / 1000) * 1000) / 1000] of a sum in kilograms that
    is not rounded: a subtotal from the sum of the stored figures of
    its category, a scope total from the sum of the category sums of
    the scope, the combined total from the sum of the two scope sums.
    In binary64 each figure is the double nearest to [k / 1000], [k]
    being the double [(kg / 1000) * 1000] rounded to the nearest
    integer, a tie going up.  What is saved is the returned value as
    JSON writes it.  With one record of 500.5 kg in every category the
    subtotals are 0.5 each, seven of them adding up to 3.5 and three to
    1.5, and the scope totals are 3.504 and 1.502.  With a record
    stored without its figure the sums it enters are NaN, and are
    saved as [null]. *)
Theorem recalculate_figures_rounded_independently :
  (forall (N : Type) (number : JsNumber N)
          (params : CalcAgent.RecalculateParams) (fs : JsonStore.Files N),
     anio_calculo (CalcAgent.recalculate params fs).1 = CalcAgent.rp_anio params /\
     Forall (fun '(cifra, kg) => cifra = round3 (kg / lit 1000)%js)
       (cifras_y_sumas params fs) /\
     JsonStore.loadResults (CalcAgent.rp_orgId params) (CalcAgent.rp_anio params)
       (CalcAgent.recalculate params fs).2
     = Some (json_Resultados (map_Resultados JNum (CalcAgent.recalculate params fs).1))) /\
  (forall (params : CalcAgent.RecalculateParams) (fs : JsonStore.Files float),
     Forall (fun '(cifra, kg) => redondeo3_binary64 (kg / lit 1000)%js cifra)
       (cifras_y_sumas params fs)) /\
  (cifras_y_sumas params_org_001_2024 (files_500_5 (N := float))).*1
  = [ 0.5; 0.5; 0.5; 0.5; 0.5; 0.5; 0.5; 0.5; 0.5; 0.5; 3.504; 1.502; 5.005 ]%float /\
  (cifras_y_sumas params_org_001_2024 (files_500_5 (N := float))).*2
  = [ 500.5; 500.5; 500.5; 500.5; 500.5; 500.5; 500.5; 500.5; 500.5; 500.5;
      3503.5; 1501.5; 5005 ]%float /\
  suma_subtotales_alcance_1
    (alcance_1 (CalcAgent.recalculate params_org_001_2024
                  (files_500_5 (N := float))).1) = 3.5%float /\
  suma_subtotales_alcance_2
    (alcance_2 (CalcAgent.recalculate params_org_001_2024
                  (files_500_5 (N := float))).1) = 1.5%float /\
  (cifras_y_sumas params_org_001_2024 (files_sin_cifra (N := float))).*1
  = [ 0.12; nan; 0; 0; 0; 0; 0; 0; 0; 0; nan; 0; nan ]%float /\
  (alcance_1 <$>
     JsonStore.loadResults "org_001" 2024
       (CalcAgent.recalculate params_org_001_2024 (files_sin_cifra (N := float))).2)
  = Some {| instalaciones_fijas_no_ley := JNum 0.12%float;
            instalaciones_fijas_ley := JNull;
            transporte_carretera := JNum 0%float;
            transporte_ferroviario_maritimo_aereo_t := JNum 0%float;
            maquinaria := JNum 0%float;
            fugitivas := JNum 0%float;
            proceso := JNum 0%float;
            a1_total_t_co2e := JNull |}.
Proof.
  split; [|split].
  - intros N number params fs. split; [reflexivity|split].
    + exact (recalculate_cifras params fs).
    + unfold CalcAgent.recalculate. cbn [fst snd].
      unfold JsonStore.loadResults, JsonStore.saveResults.
      cbn [JsonStore.results_json]. apply lookup_insert_eq.
  - intros params fs.
    pose proof (recalculate_cifras params fs) as Hcifras.
    induction Hcifras as [|[cifra kg] l Heq _ IH]; constructor; [|exact IH].
    rewrite Heq. apply round3_binary64.
  - repeat match goal with |- _ /\ _ => split end; vm_compute; reflexivity.
Qed.

(** ** The free-tier guard *)

Section GuardProperties.
Context {N : Type} `{JsNumber N}.

(** The verdict is computed from the measurement. *)
Lemma checkWriteAllowed_measurement (env : FreeTierGuard.Env)
  (cache : option FreeTierGuard.SizeCache) :
  FreeTierGuard.dbSizeBytes (FreeTierGuard.checkWriteAllowed (N := N) env cache).1
  = FreeTierGuard.bytes (FreeTierGuard.getDatabaseSize env cache).1 /\
  FreeTierGuard.rowCount (FreeTierGuard.checkWriteAllowed (N := N) env cache).1
  = FreeTierGuard.rows (FreeTierGuard.getDatabaseSize env cache).1 /\
  (FreeTierGuard.checkWriteAllowed (N := N) env cache).2
  = (FreeTierGuard.getDatabaseSize env cache).2.
Proof.
  unfold FreeTierGuard.checkWriteAllowed.
  destruct (FreeTierGuard.getDatabaseSize env cache) as [m c]; cbn [fst snd].
  repeat case_match; cbn; auto.
Qed.

(** C8. Let [m] be the usage that [getDatabaseSize] measures (or
    serves from its cache).  The verdict of [checkWriteAllowed] reports
    the bytes and rows of [m], and is, the conditions being tried in
    this order: bytes at or above the hard limit, blocked with the
    error message of the size; otherwise rows at or above the row
    limit, blocked with the error message of the rows; otherwise bytes
    at or above the warn limit, allowed with the warning message and no
    error; otherwise allowed with neither message.  A blocked verdict
    carries no warning. *)
Theorem checkWriteAllowed_three_levels (env : FreeTierGuard.Env)
  (cache : option FreeTierGuard.SizeCache) (m : FreeTierGuard.SizeCache)
  (cache' : option FreeTierGuard.SizeCache) :
  FreeTierGuard.getDatabaseSize env cache = (m, cache') ->
  exists r,
    FreeTierGuard.checkWriteAllowed (N := N) env cache = (r, cache') /\
    FreeTierGuard.dbSizeBytes r = FreeTierGuard.bytes m /\
    FreeTierGuard.rowCount r = FreeTierGuard.rows m /\
    (FreeTierGuard.HARD_LIMIT_BYTES <= FreeTierGuard.bytes m ->
     FreeTierGuard.allowed r = false /\ FreeTierGuard.warning r = None /\
     exists rest,
       FreeTierGuard.error r
       = Some (Lit "🚫 BLOQUEADO: La base de datos ha alcanzado " :: rest)) /\
    (FreeTierGuard.bytes m < FreeTierGuard.HARD_LIMIT_BYTES ->
     FreeTierGuard.MAX_ROWS <= FreeTierGuard.rows m ->
     FreeTierGuard.allowed r = false /\ FreeTierGuard.warning r = None /\
     exists rest,
       FreeTierGuard.error r
       = Some (Lit "🚫 BLOQUEADO: Se ha alcanzado el límite de " :: rest)) /\
    (FreeTierGuard.WARN_LIMIT_BYTES <= FreeTierGuard.bytes m
       < FreeTierGuard.HARD_LIMIT_BYTES ->
     FreeTierGuard.rows m < FreeTierGuard.MAX_ROWS ->
     FreeTierGuard.allowed r = true /\ FreeTierGuard.error r = None /\
     exists rest,
       FreeTierGuard.warning r
       = Some (Lit "⚠️ AVISO: La base de datos está al " :: rest)) /\
    (FreeTierGuard.bytes m < FreeTierGuard.WARN_LIMIT_BYTES ->
     FreeTierGuard.rows m < FreeTierGuard.MAX_ROWS ->
     FreeTierGuard.allowed r = true /\ FreeTierGuard.warning r = None /\
     FreeTierGuard.error r = None).
Proof.
  intros Hm. unfold FreeTierGuard.checkWriteAllowed. rewrite Hm.
  unfold FreeTierGuard.HARD_LIMIT_BYTES, FreeTierGuard.WARN_LIMIT_BYTES,
    FreeTierGuard.MAX_ROWS.
  destruct (Z.leb_spec (400 * 1024 * 1024) (FreeTierGuard.bytes m));
    [|destruct (Z.leb_spec 10000 (FreeTierGuard.rows m));
      [|destruct (Z.leb_spec (300 * 1024 * 1024) (FreeTierGuard.bytes m))]];
    (eexists; split; [reflexivity|]);
    cbn [FreeTierGuard.allowed FreeTierGuard.error FreeTierGuard.warning
         FreeTierGuard.dbSizeBytes FreeTierGuard.rowCount];
    repeat match goal with |- _ /\ _ => split end;
    intros; try lia; eauto.
Qed.

(** A measurement that is in its window is served from the cache,
    whatever the database would answer. *)
Lemma getDatabaseSize_cached (env : FreeTierGuard.Env) (c : FreeTierGuard.SizeCache) :
  FreeTierGuard.now env - FreeTierGuard.checkedAt c < FreeTierGuard.CACHE_TTL_MS ->
  FreeTierGuard.getDatabaseSize env (Some c) = (c, Some c).
Proof.
  intros Hwin. unfold FreeTierGuard.getDatabaseSize.
  destruct (Z.ltb_spec (FreeTierGuard.now env - FreeTierGuard.checkedAt c)
              FreeTierGuard.CACHE_TTL_MS); [reflexivity|lia].
Qed.

(** The verdict depends on the measurement only. *)
Lemma checkWriteAllowed_of_measurement (env1 env2 : FreeTierGuard.Env)
  (cache1 cache2 : option FreeTierGuard.SizeCache) :
  FreeTierGuard.bytes (FreeTierGuard.getDatabaseSize env1 cache1).1
  = FreeTierGuard.bytes (FreeTierGuard.getDatabaseSize env2 cache2).1 ->
  FreeTierGuard.rows (FreeTierGuard.getDatabaseSize env1 cache1).1
  = FreeTierGuard.rows (FreeTierGuard.getDatabaseSize env2 cache2).1 ->
  (FreeTierGuard.checkWriteAllowed (N := N) env1 cache1).1
  = (FreeTierGuard.checkWriteAllowed (N := N) env2 cache2).1.
Proof.
  unfold FreeTierGuard.checkWriteAllowed.
  destruct (FreeTierGuard.getDatabaseSize env1 cache1) as [m1 c1].
  destruct (FreeTierGuard.getDatabaseSize env2 cache2) as [m2 c2].
  cbn [fst]. intros -> ->.
  repeat case_match; reflexivity.
Qed.

Lemma ends_invalidated_invalidateCache :
  ends_invalidated (N := N) PgStore.invalidateCache.
Proof.
  intros env [db k] a s'. unfold PgStore.invalidateCache.
  intros [= _ <-]. reflexivity.
Qed.

Lemma ends_invalidated_bind {A B} (m : PgStore.Pg N A) (k : A -> PgStore.Pg N B) :
  (forall a, ends_invalidated (k a)) -> ends_invalidated (PgStore.bind m k).
Proof.
  intros Hk env s b s'. unfold PgStore.bind.
  destruct (m env s) as [[a|e] s1]; [|discriminate].
  apply Hk.
Qed.

Lemma ends_invalidated_run {A} (m : PgStore.Pg N A) env db a db' :
  ends_invalidated m ->
  PgStore.run m env db = (Resolved a, db') -> PgStore._cache db' = None.
Proof.
  intros Hm. unfold PgStore.run.
  destruct (m env (db, 0%nat)) as [r [db1 k1]] eqn:Hrun.
  intros [= -> <-]. apply (Hm _ _ _ _ Hrun).
Qed.

Lemma upsertOrgData_invalidates orgId anio tipo data :
  ends_invalidated (PgStore.upsertOrgData orgId anio tipo data).
Proof.
  unfold PgStore.upsertOrgData.
  do 2 (apply ends_invalidated_bind; intros ?).
  apply ends_invalidated_invalidateCache.
Qed.

Lemma saveSedes_invalidates orgId anio data :
  ends_invalidated (PgStore.saveSedes orgId anio data).
Proof.
  unfold PgStore.saveSedes.
  do 3 (apply ends_invalidated_bind; intros ?).
  apply ends_invalidated_invalidateCache.
Qed.

(** A check that has no measurement in its window issues the queries;
    their answers are its measurement, which it leaves in the cache. *)
Lemma getDatabaseSize_measures (env : FreeTierGuard.Env)
  (cache : option FreeTierGuard.SizeCache) (sizeRow rowCountRow : option Z) :
  (forall c, cache = Some c ->
             FreeTierGuard.CACHE_TTL_MS <= FreeTierGuard.now env - FreeTierGuard.checkedAt c) ->
  FreeTierGuard.pg_database_size env = FreeTierGuard.QRow sizeRow ->
  FreeTierGuard.count_org_year_data env = FreeTierGuard.QRow rowCountRow ->
  FreeTierGuard.getDatabaseSize env cache
  = ({| FreeTierGuard.bytes := FreeTierGuard.parseInt_or_0 sizeRow;
        FreeTierGuard.rows := FreeTierGuard.parseInt_or_0 rowCountRow;
        FreeTierGuard.checkedAt := FreeTierGuard.now env |},
     Some {| FreeTierGuard.bytes := FreeTierGuard.parseInt_or_0 sizeRow;
             FreeTierGuard.rows := FreeTierGuard.parseInt_or_0 rowCountRow;
             FreeTierGuard.checkedAt := FreeTierGuard.now env |}).
Proof.
  intros Hstale Hsize Hcount. unfold FreeTierGuard.getDatabaseSize.
  rewrite Hsize, Hcount. destruct cache as [c|]; [|reflexivity].
  specialize (Hstale c eq_refl).
  destruct (Z.ltb_spec (FreeTierGuard.now env - FreeTierGuard.checkedAt c)
              FreeTierGuard.CACHE_TTL_MS); [lia|reflexivity].
Qed.

(** [guardWrite], with the guard's verdict spelled out. *)
Lemma guardWrite_eq (env : PgStore.Env) (db : PgStore.Db N) (k : nat) :
  PgStore.guardWrite env (db, k)
  = (if FreeTierGuard.allowed
          (FreeTierGuard.checkWriteAllowed (N := N) (PgStore.guard_env env) (PgStore._cache db)).1
     then Resolved tt
     else Rejected
            (FreeTierBlockedError
               (match FreeTierGuard.error
                        (FreeTierGuard.checkWriteAllowed (N := N) (PgStore.guard_env env)
                           (PgStore._cache db)).1 with
                | Some ((_ :: _) as msg) => msg
                | _ => [Lit "Límite de almacenamiento excedido"]
                end)),
     (PgStore.with_cache
        (fun _ => (FreeTierGuard.checkWriteAllowed (N := N) (PgStore.guard_env env)
                     (PgStore._cache db)).2) db, k)).
Proof.
  unfold PgStore.guardWrite, PgStore.bind, PgStore.checkWriteAllowed.
  destruct (FreeTierGuard.checkWriteAllowed (PgStore.guard_env env) (PgStore._cache db))
    as [g c].
  cbn [fst snd]. destruct (FreeTierGuard.allowed g); reflexivity.
Qed.


(** The write is allowed unless one of the two hard limits is reached. *)
Lemma checkWriteAllowed_allowed (env : FreeTierGuard.Env)
  (cache : option FreeTierGuard.SizeCache) :
  FreeTierGuard.allowed (FreeTierGuard.checkWriteAllowed (N := N) env cache).1
  = negb ((FreeTierGuard.HARD_LIMIT_BYTES
           <=? FreeTierGuard.bytes (FreeTierGuard.getDatabaseSize env cache).1)
          || (FreeTierGuard.MAX_ROWS
              <=? FreeTierGuard.rows (FreeTierGuard.getDatabaseSize env cache).1)).
Proof.
  unfold FreeTierGuard.checkWriteAllowed.
  destruct (FreeTierGuard.getDatabaseSize env cache) as [m c]. cbn [fst].
  repeat case_match; reflexivity.
Qed.

(** C9. (1) A check that finds no measurement in its window of 60 s
    issues the two queries, reports their answers and leaves them in
    the cache with the time of the check; a check made less than 60 s
    after it, on that cache, returns the very same verdict and leaves
    the cache as it is, whatever the database would answer by then
    (the second environment is arbitrary but for its clock).
    (2) [upsertOrgData], which every typed saver is, when the guard
    lets it pass: if the INSERT throws, the call rejects, nothing is
    written and the cache is the one the guard left; if it answers, the
    row is written and the cache is emptied, the last step before the
    call returns.  [saveSedes] and [initializeOrgYear], when they
    resolve after writing, end with the cache emptied too.
    (3) After a write that resolved, the next check issues the queries
    and reports their answers. *)
Theorem guard_cache_window_and_invalidation :
  (forall (env1 env2 : FreeTierGuard.Env) (cache : option FreeTierGuard.SizeCache)
          (sizeRow rowCountRow : option Z),
      (forall c, cache = Some c ->
                 FreeTierGuard.CACHE_TTL_MS
                 <= FreeTierGuard.now env1 - FreeTierGuard.checkedAt c) ->
      FreeTierGuard.pg_database_size env1 = FreeTierGuard.QRow sizeRow ->
      FreeTierGuard.count_org_year_data env1 = FreeTierGuard.QRow rowCountRow ->
      FreeTierGuard.now env2 - FreeTierGuard.now env1 < FreeTierGuard.CACHE_TTL_MS ->
      (FreeTierGuard.checkWriteAllowed (N := N) env1 cache).2
      = Some {| FreeTierGuard.bytes := FreeTierGuard.parseInt_or_0 sizeRow;
                FreeTierGuard.rows := FreeTierGuard.parseInt_or_0 rowCountRow;
                FreeTierGuard.checkedAt := FreeTierGuard.now env1 |} /\
      FreeTierGuard.dbSizeBytes (FreeTierGuard.checkWriteAllowed (N := N) env1 cache).1
      = FreeTierGuard.parseInt_or_0 sizeRow /\
      FreeTierGuard.rowCount (FreeTierGuard.checkWriteAllowed (N := N) env1 cache).1
      = FreeTierGuard.parseInt_or_0 rowCountRow /\
      FreeTierGuard.checkWriteAllowed (N := N) env2
        (FreeTierGuard.checkWriteAllowed (N := N) env1 cache).2
      = FreeTierGuard.checkWriteAllowed (N := N) env1 cache) /\
  (forall (env : PgStore.Env) (db : PgStore.Db N) orgId anio tipo data m c,
      FreeTierGuard.getDatabaseSize (PgStore.guard_env env) (PgStore._cache db) = (m, c) ->
      FreeTierGuard.bytes m < FreeTierGuard.HARD_LIMIT_BYTES ->
      FreeTierGuard.rows m < FreeTierGuard.MAX_ROWS ->
      PgStore.run (PgStore.upsertOrgData orgId anio tipo data) env db
      = if PgStore.query_throws env 0%nat
        then (Rejected QueryError, PgStore.with_cache (fun _ => c) db)
        else (Resolved tt,
              {| PgStore.org_year_data :=
                   <[(orgId, anio, tipo) := PgStore.json_data data]>
                     (PgStore.org_year_data db);
                 PgStore.sedes := PgStore.sedes db;
                 PgStore.static_emission_factors := PgStore.static_emission_factors db;
                 PgStore.static_dropdowns := PgStore.static_dropdowns db;
                 PgStore._cache := None |})) /\
  (forall env db orgId anio data db',
      PgStore.run (PgStore.saveSedes (N := N) orgId anio data) env db
      = (Resolved tt, db') ->
      PgStore._cache db' = None) /\
  (forall env db orgId anio db',
      PgStore.org_year_data db !! (orgId, anio, "results"%string) = None ->
      PgStore.run (PgStore.initializeOrgYear (N := N) orgId anio) env db
      = (Resolved tt, db') ->
      PgStore._cache db' = None) /\
  (forall env db orgId anio tipo data db' (env2 : FreeTierGuard.Env)
          (sizeRow rowCountRow : option Z),
      PgStore.run (PgStore.upsertOrgData (N := N) orgId anio tipo data) env db
      = (Resolved tt, db') ->
      FreeTierGuard.pg_database_size env2 = FreeTierGuard.QRow sizeRow ->
      FreeTierGuard.count_org_year_data env2 = FreeTierGuard.QRow rowCountRow ->
      FreeTierGuard.dbSizeBytes
        (FreeTierGuard.checkWriteAllowed (N := N) env2 (PgStore._cache db')).1
      = FreeTierGuard.parseInt_or_0 sizeRow /\
      FreeTierGuard.rowCount
        (FreeTierGuard.checkWriteAllowed (N := N) env2 (PgStore._cache db')).1
      = FreeTierGuard.parseInt_or_0 rowCountRow).
Proof.
  split; [|split; [|split; [|split]]].
  - intros env1 env2 cache sizeRow rowCountRow Hstale Hsize Hcount Hwin.
    pose proof (getDatabaseSize_measures env1 cache sizeRow rowCountRow
                  Hstale Hsize Hcount) as Hm.
    destruct (checkWriteAllowed_measurement env1 cache) as (Hb & Hr & Hc).
    rewrite Hb, Hr, Hc, Hm. cbn [fst snd FreeTierGuard.bytes FreeTierGuard.rows].
    repeat split.
    set (m := {| FreeTierGuard.bytes := FreeTierGuard.parseInt_or_0 sizeRow;
                 FreeTierGuard.rows := FreeTierGuard.parseInt_or_0 rowCountRow;
                 FreeTierGuard.checkedAt := FreeTierGuard.now env1 |}) in *.
    assert (Hserved : FreeTierGuard.getDatabaseSize env2 (Some m) = (m, Some m)).
    { apply getDatabaseSize_cached. exact Hwin. }
    rewrite (surjective_pairing (FreeTierGuard.checkWriteAllowed env2 (Some m))).
    rewrite (surjective_pairing (FreeTierGuard.checkWriteAllowed env1 cache)).
    f_equal.
    + apply checkWriteAllowed_of_measurement; rewrite Hserved, Hm; reflexivity.
    + destruct (checkWriteAllowed_measurement env2 (Some m)) as (_ & _ & ->).
      rewrite Hserved, Hc, Hm. reflexivity.
  - intros env db orgId anio tipo data m c Hm Hbytes Hrows.
    unfold PgStore.run, PgStore.upsertOrgData. unfold PgStore.bind at 1.
    rewrite guardWrite_eq, checkWriteAllowed_allowed.
    destruct (checkWriteAllowed_measurement (PgStore.guard_env env)
                (PgStore._cache db)) as (_ & _ & ->).
    rewrite Hm. cbn [fst snd].
    destruct (Z.leb_spec FreeTierGuard.HARD_LIMIT_BYTES (FreeTierGuard.bytes m)); [lia|].
    destruct (Z.leb_spec FreeTierGuard.MAX_ROWS (FreeTierGuard.rows m)); [lia|].
    cbn [orb negb].
    unfold PgStore.bind, PgStore.query, PgStore.invalidateCache.
    destruct (PgStore.query_throws env 0%nat); reflexivity.
  - intros env db orgId anio data db' Hrun.
    apply (ends_invalidated_run _ _ _ _ _ (saveSedes_invalidates _ _ _) Hrun).
  - intros env db orgId anio db' Hnone.
    unfold PgStore.run, PgStore.initializeOrgYear.
    unfold PgStore.bind at 1. unfold PgStore.query at 1.
    destruct (PgStore.query_throws env 0%nat); [discriminate|].
    cbn [id]. rewrite Hnone.
    match goal with
    | |- context [PgStore.bind ?m ?k env ?s] =>
        destruct (PgStore.bind m k env s) as [r [db1 k1]] eqn:Hrun;
        assert (Hinv : ends_invalidated (PgStore.bind m k))
    end.
    { do 2 (apply ends_invalidated_bind; intros ?).
      apply ends_invalidated_invalidateCache. }
    intros [= -> <-]. apply (Hinv _ _ _ _ Hrun).
  - intros env db orgId anio tipo data db' env2 sizeRow rowCountRow Hrun Hsize Hcount.
    rewrite (ends_invalidated_run _ _ _ _ _ (upsertOrgData_invalidates _ _ _ _) Hrun).
    destruct (checkWriteAllowed_measurement env2 None) as (-> & -> & _).
    rewrite (getDatabaseSize_measures env2 None sizeRow rowCountRow); auto.
    discriminate.
Qed.

(** C10. When there is no cached measurement in its window and one of
    the two statistics queries throws, [getDatabaseSize] catches the
    error and reports 0 bytes and 0 rows, and the cache is left as it
    was; [checkWriteAllowed] then answers [allowed = true] with neither
    message, and [guardWrite] resolves, so the write goes ahead.
    [checkWriteAllowed] itself never rejects. *)
Theorem statistics_failure_fails_open (env : FreeTierGuard.Env)
  (cache : option FreeTierGuard.SizeCache) :
  (cache = None \/
   exists c, cache = Some c /\
             FreeTierGuard.CACHE_TTL_MS
               <= FreeTierGuard.now env - FreeTierGuard.checkedAt c) ->
  (FreeTierGuard.pg_database_size env = FreeTierGuard.QThrows \/
   FreeTierGuard.count_org_year_data env = FreeTierGuard.QThrows) ->
  FreeTierGuard.getDatabaseSize env cache
  = ({| FreeTierGuard.bytes := 0; FreeTierGuard.rows := 0;
        FreeTierGuard.checkedAt := FreeTierGuard.now env |}, cache) /\
  FreeTierGuard.allowed (FreeTierGuard.checkWriteAllowed (N := N) env cache).1 = true /\
  FreeTierGuard.warning (FreeTierGuard.checkWriteAllowed (N := N) env cache).1 = None /\
  FreeTierGuard.error (FreeTierGuard.checkWriteAllowed (N := N) env cache).1 = None /\
  (FreeTierGuard.checkWriteAllowed (N := N) env cache).2 = cache /\
  (forall (penv : PgStore.Env) (db : PgStore.Db N),
      PgStore.guard_env penv = env -> PgStore._cache db = cache ->
      (exists r, PgStore.run PgStore.checkWriteAllowed penv db = (Resolved r, db)) /\
      PgStore.run PgStore.guardWrite penv db = (Resolved tt, db)).
Proof.
  intros Hstale Hthrows.
  assert (Hsize : FreeTierGuard.getDatabaseSize env cache
                  = ({| FreeTierGuard.bytes := 0; FreeTierGuard.rows := 0;
                        FreeTierGuard.checkedAt := FreeTierGuard.now env |}, cache)).
  { unfold FreeTierGuard.getDatabaseSize.
    destruct Hstale as [->|(c & -> & Hold)].
    - destruct Hthrows as [->| ->]; [reflexivity|].
      destruct (FreeTierGuard.pg_database_size env); reflexivity.
    - destruct (Z.ltb_spec (FreeTierGuard.now env - FreeTierGuard.checkedAt c)
                  FreeTierGuard.CACHE_TTL_MS); [lia|].
      destruct Hthrows as [->| ->]; [reflexivity|].
      destruct (FreeTierGuard.pg_database_size env); reflexivity. }
  assert (Hcheck : exists r, FreeTierGuard.checkWriteAllowed (N := N) env cache = (r, cache) /\
                             FreeTierGuard.allowed r = true /\
                             FreeTierGuard.warning r = None /\
                             FreeTierGuard.error r = None).
  { unfold FreeTierGuard.checkWriteAllowed. rewrite Hsize. cbn.
    eexists. split; [reflexivity|]. cbn. auto. }
  destruct Hcheck as (r & Hr & Hallowed & Hwarning & Herror).
  rewrite Hr. cbn [fst snd].
  repeat match goal with |- _ /\ _ => split end; auto.
  intros penv db <- <-.
  assert (Hdb : PgStore.with_cache (fun _ => PgStore._cache db) db = db)
    by (destruct db; reflexivity).
  split.
  - unfold PgStore.run, PgStore.checkWriteAllowed.
    rewrite Hr, Hdb. eexists. reflexivity.
  - unfold PgStore.run, PgStore.guardWrite, PgStore.bind, PgStore.checkWriteAllowed.
    rewrite Hr, Hdb. cbv beta iota zeta.
    rewrite Hallowed. reflexivity.
Qed.

End GuardProperties.

(** The database reports exactly the hard limit: the write is blocked. *)
Lemma checkWriteAllowed_three_levels_witness :
  exists r,
    FreeTierGuard.checkWriteAllowed (N := float) (env_at_hard_limit 0) None
    = (r, Some {| FreeTierGuard.bytes := 419430400; FreeTierGuard.rows := 12;
                  FreeTierGuard.checkedAt := 0 |}) /\
    FreeTierGuard.allowed r = false /\ is_Some (FreeTierGuard.error r).
Proof.
  destruct (checkWriteAllowed_three_levels (N := float) (env_at_hard_limit 0) None
              _ _ eq_refl) as (r & Hr & _ & _ & Hhard & _).
  exists r. split; [exact Hr|].
  destruct Hhard as (Hallowed & _ & rest & Herror); [vm_compute; discriminate|].
  split; [exact Hallowed|]. rewrite Herror. eexists. reflexivity.
Defined.

(** A check at time 0 measures one byte below the hard limit; a check at
    59.999 s, when the database has reached the limit, repeats the
    verdict. *)
Lemma guard_cache_window_and_invalidation_witness :
  FreeTierGuard.checkWriteAllowed (N := float) (env_at_hard_limit 59999)
    (FreeTierGuard.checkWriteAllowed (N := float) (env_below_hard_limit 0) None).2
  = FreeTierGuard.checkWriteAllowed (N := float) (env_below_hard_limit 0) None.
Proof.
  apply (proj1 (guard_cache_window_and_invalidation (N := float))
           (env_below_hard_limit 0) (env_at_hard_limit 59999) None
           (Some 419430399) (Some 12)).
  - discriminate.
  - reflexivity.
  - reflexivity.
  - vm_compute. reflexivity.
Defined.

Lemma statistics_failure_fails_open_witness :
  FreeTierGuard.getDatabaseSize env_statistics_down None
  = ({| FreeTierGuard.bytes := 0; FreeTierGuard.rows := 0;
        FreeTierGuard.checkedAt := FreeTierGuard.now env_statistics_down |}, None) /\
  FreeTierGuard.allowed
    (FreeTierGuard.checkWriteAllowed (N := Q) env_statistics_down None).1 = true.
Proof.
  destruct (statistics_failure_fails_open (N := Q) env_statistics_down None
              (or_introl eq_refl) (or_introl eq_refl))
    as (Hsize & Hallowed & _).
  split; [exact Hsize|exact Hallowed].
Defined.

(** ** The orchestrator *)

Section PipelineProperties.
Context {N : Type} `{JsNumber N}.

(** [AuditAgent.log] resolves, and it has written the audit log again:
    the records it held, followed by the new row. *)
Lemma log_appends (entry : AuditAgent.AuditEntry N) (w : Runtime.World N) :
  (AuditAgent.log entry w).1 = Resolved tt /\
  Runtime.store (AuditAgent.log entry w).2
  = <["audit_log"%string :=
        CsvHandler.unparse (Runtime.papa w)
          (registros_de_auditoria w
           ++ [AuditAgent.auditRow (Runtime.uuids w (Runtime.drawn w)) entry])]>
      (Runtime.store w) /\
  Runtime.trace (AuditAgent.log entry w).2
  = Runtime.trace w ++ [Runtime.AuditAgent_logged] /\
  Runtime.files (AuditAgent.log entry w).2 = Runtime.files w /\
  Runtime.pg (AuditAgent.log entry w).2 = Runtime.pg w /\
  Runtime.papa (AuditAgent.log entry w).2 = Runtime.papa w /\
  Runtime.pg_env (AuditAgent.log entry w).2 = Runtime.pg_env w /\
  Runtime.date_iso (AuditAgent.log entry w).2 = Runtime.date_iso w.
Proof.
  unfold AuditAgent.log, Runtime.bind, Runtime.record, Runtime.modify,
    Runtime.uuidv4, CsvHandler.appendRow, CsvHandler.writeCSV,
    registros_de_auditoria, CsvHandler.readCSV.
  cbn [fst snd Runtime.store Runtime.papa Runtime.trace Runtime.files Runtime.pg
       Runtime.pg_env Runtime.date_iso Runtime.drawn Runtime.uuids
       Runtime.with_store Runtime.with_drawn Runtime.with_trace].
  repeat split.
  destruct (Runtime.store w !! "audit_log"%string) as [csv|]; [|reflexivity].
  destruct (trim_is_empty (list_ascii_of_string csv)); [reflexivity|].
  destruct (CsvHandler.parse (Runtime.papa w) csv); reflexivity.
Qed.

(** With Promises in [factors] and [dropdowns], the validation of a
    year in range throws. *)
Lemma validate_with_promise_in_range
  (p : Promise (option EmissionFactors)) (dropdowns : ValidationAgent.Ref Dropdowns)
  (event : DataChangeEvent N) :
  2007 <= anio event <= 2027 ->
  ValidationAgent.validate_with (ValidationAgent.RPromise p) dropdowns event
  = Rejected (TypeError "Cannot read properties of undefined (reading 'includes')").
Proof.
  intros Hrange. unfold ValidationAgent.validate_with, ValidationAgent.check_anio.
  destruct (Z.ltb_spec (anio event) 2007); [lia|].
  destruct (Z.ltb_spec 2027 (anio event)); [lia|].
  reflexivity.
Qed.

(** A year out of range is an error entry, whatever [factors] holds. *)
Lemma check_anio_out_of_range (factors : ValidationAgent.Ref EmissionFactors)
  (event : DataChangeEvent N) :
  anio event < 2007 \/ 2027 < anio event ->
  exists e, ValidationAgent.check_anio factors event = Resolved [e] /\
            severity e = error /\ ve_field e = "anio"%string.
Proof.
  intros Hout. unfold ValidationAgent.check_anio.
  destruct (Z.ltb_spec (anio event) 2007);
    [|destruct (Z.ltb_spec 2027 (anio event)); [|lia]];
    cbn; eexists; (split; [reflexivity|split; reflexivity]).
Qed.

(** A negative number is an error entry for its field. *)
Lemma check_negativo_negative (event : DataChangeEvent N) (x : N) :
  newValue event = JsNum x -> ltb x (lit 0) = true ->
  exists e, ValidationAgent.check_negativo event = [e] /\
            severity e = error /\ ve_field e = field event.
Proof.
  intros Hnum Hneg. unfold ValidationAgent.check_negativo.
  rewrite Hnum, Hneg. eexists. split; [reflexivity|split; reflexivity].
Qed.

Lemma filter_is_error_nonempty (l : list (ValidationEntry N)) (e : ValidationEntry N) :
  In e l -> severity e = error ->
  (length (List.filter ValidationAgent.is_error l) =? 0)%nat = false.
Proof.
  intros Hin Hsev.
  assert (Hf : In e (List.filter ValidationAgent.is_error l)).
  { apply filter_In. split; [exact Hin|].
    unfold ValidationAgent.is_error. rewrite Hsev. reflexivity. }
  destruct (List.filter ValidationAgent.is_error l); [destruct Hf|reflexivity].
Qed.

(** Whenever the validation returns, a negative number has made the
    result invalid, with an error entry for the field. *)
Lemma validate_with_negative (factors : ValidationAgent.Ref EmissionFactors)
  (dropdowns : ValidationAgent.Ref Dropdowns) (event : DataChangeEvent N)
  (x : N) (r : ValidationResult N) :
  newValue event = JsNum x -> ltb x (lit 0) = true ->
  ValidationAgent.validate_with factors dropdowns event = Resolved r ->
  isValid r = false /\
  exists e, In e (errors r) /\ severity e = error /\ ve_field e = field event.
Proof.
  intros Hnum Hneg. unfold ValidationAgent.validate_with.
  destruct (ValidationAgent.check_anio factors event) as [errors_anio|]; [|discriminate].
  destruct (ValidationAgent.check_tipo_combustible dropdowns event)
    as [errors_tipo|]; [|discriminate].
  intros [= <-]. cbn [isValid errors].
  destruct (check_negativo_negative event x Hnum Hneg) as (e & He & Hsev & Hfield).
  assert (Hin : In e ((errors_anio ++ ValidationAgent.check_negativo event
                        ++ ValidationAgent.check_cantidad event) ++ errors_tipo)).
  { rewrite He. apply in_or_app. left. apply in_or_app. right. left. reflexivity. }
  split; [apply (filter_is_error_nonempty _ e Hin Hsev)|].
  exists e. auto.
Qed.

(** With the two loads awaited, as with the synchronous loaders of
    json-store, the validation returns for every event. *)
Lemma validate_with_awaited_returns
  (p : Promise (option EmissionFactors)) (q : Promise (option Dropdowns))
  (event : DataChangeEvent N) :
  exists r,
    ValidationAgent.validate_with (ValidationAgent.awaited p)
      (ValidationAgent.awaited q) event = Resolved r.
Proof.
  unfold ValidationAgent.validate_with, ValidationAgent.check_anio,
    ValidationAgent.check_tipo_combustible.
  destruct p as [[factors|]], q as [[dropdowns|]]; cbn;
    repeat case_match; simplify_eq; eexists; reflexivity.
Qed.

(** With a Promise in [factors], a validation that returns has found
    the year out of range: its result is never valid. *)
Lemma validate_with_promise_never_valid
  (p : Promise (option EmissionFactors)) (dropdowns : ValidationAgent.Ref Dropdowns)
  (event : DataChangeEvent N) (r : ValidationResult N) :
  ValidationAgent.validate_with (ValidationAgent.RPromise p) dropdowns event
  = Resolved r ->
  isValid r = false /\ (anio event < 2007 \/ 2027 < anio event).
Proof.
  intros Hr.
  assert (Hout : anio event < 2007 \/ 2027 < anio event).
  { destruct (Z.ltb_spec (anio event) 2007); [lia|].
    destruct (Z.ltb_spec 2027 (anio event)); [lia|].
    rewrite validate_with_promise_in_range in Hr by lia. discriminate Hr. }
  split; [|exact Hout].
  revert Hr. unfold ValidationAgent.validate_with.
  destruct (check_anio_out_of_range (ValidationAgent.RPromise p) event Hout)
    as (e & -> & Hsev & _).
  destruct (ValidationAgent.check_tipo_combustible dropdowns event)
    as [errors_tipo|]; [|discriminate].
  intros [= <-]. cbn.
  unfold ValidationAgent.is_error at 1. rewrite Hsev. reflexivity.
Qed.

(** [onDataChange] as it runs: it audits, it validates, and it rejects
    with what the validation threw or with the [ValidationError] of its
    list; the calculation is not reached. *)
Lemma onDataChange_outcome (event : DataChangeEvent N) (w : Runtime.World N) :
  Orchestrator.onDataChange event w
  = match ValidationAgent.validate_with
            (ValidationAgent.RPromise (PgStore.loadEmissionFactors (Runtime.pg w)))
            (ValidationAgent.RPromise (PgStore.loadDropdowns (Runtime.pg w))) event with
    | Rejected e => (Rejected e, mundo_tras_validar event w)
    | Resolved validation =>
        (Rejected (ValidationError (errors validation)), mundo_tras_validar event w)
    end.
Proof.
  unfold Orchestrator.onDataChange, mundo_tras_validar.
  fold (entrada_de_cambio event).
  unfold Runtime.bind at 1.
  destruct (log_appends (entrada_de_cambio event) w) as (Hres & _ & _ & _ & Hpg & _).
  destruct (AuditAgent.log (entrada_de_cambio event) w) as [r w1].
  cbn [fst snd] in *. subst r.
  unfold Runtime.bind at 1, ValidationAgent.validate.
  cbn [Runtime.pg Runtime.with_trace]. rewrite Hpg.
  destruct (ValidationAgent.validate_with _ _ event) as [validation|e] eqn:Hval;
    [|reflexivity].
  destruct (validate_with_promise_never_valid _ _ _ _ Hval) as [-> _].
  reflexivity.
Qed.

(** The audit row of a change event is the row that records it. *)
Lemma auditRow_de_cambio (uuid : string) (event : DataChangeEvent N) :
  AuditAgent.auditRow uuid (entrada_de_cambio event) = fila_de_cambio uuid event.
Proof. reflexivity. Qed.

(** C7. For every change event and every world, whatever [onDataChange]
    ends with, a rejection by the validation included, it has written
    the audit log anew with one more record: the records the log held,
    followed by the row that records the attempted change (user,
    organisation, action UPDATE, entity, field, old and new value, the
    time of the event); no other CSV file is touched.  The row is
    written before the validation agent is entered. *)
Theorem onDataChange_audits_before_validation
  (event : DataChangeEvent N) (w : Runtime.World N) :
  Runtime.store (Orchestrator.onDataChange event w).2 !! "audit_log"%string
  = Some (CsvHandler.unparse (Runtime.papa w)
            (registros_de_auditoria w
             ++ [fila_de_cambio (Runtime.uuids w (Runtime.drawn w)) event])) /\
  (forall tableName,
      tableName <> "audit_log"%string ->
      Runtime.store (Orchestrator.onDataChange event w).2 !! tableName
      = Runtime.store w !! tableName) /\
  exists rest,
    Runtime.trace (Orchestrator.onDataChange event w).2
    = Runtime.trace w
      ++ Runtime.AuditAgent_logged :: Runtime.ValidationAgent_validate :: rest.
Proof.
  rewrite onDataChange_outcome.
  destruct (log_appends (entrada_de_cambio event) w) as (_ & Hstore & Htrace & _).
  assert (Hw : Runtime.store (mundo_tras_validar event w)
               = <["audit_log"%string :=
                     CsvHandler.unparse (Runtime.papa w)
                       (registros_de_auditoria w
                        ++ [fila_de_cambio (Runtime.uuids w (Runtime.drawn w)) event])]>
                   (Runtime.store w) /\
               Runtime.trace (mundo_tras_validar event w)
               = Runtime.trace w
                 ++ [Runtime.AuditAgent_logged; Runtime.ValidationAgent_validate]).
  { unfold mundo_tras_validar. cbn [Runtime.store Runtime.trace Runtime.with_trace].
    rewrite Hstore, Htrace, <- app_assoc, auditRow_de_cambio. split; reflexivity. }
  destruct Hw as [Hs Ht].
  destruct (ValidationAgent.validate_with _ _ event); cbn [snd];
    rewrite Hs;
    (split; [apply lookup_insert_eq|
             split; [intros t Ht'; apply lookup_insert_ne; congruence|
                     exists []; exact Ht]]).
Qed.

(** C6, on the code. For the change event [{anio: 2024, field:
    "cantidad", newValue: -5}], in every world, [onDataChange] rejects
    with a [TypeError], not with a [ValidationError]: [validate] calls
    the asynchronous [loadEmissionFactors] without [await] and reads
    [anios_disponibles.includes] off the Promise, before it comes to
    the sign of the value.  The calculation is not entered and the JSON
    files are as they were. *)
Theorem onDataChange_negative_cantidad_throws_type_error (w : Runtime.World N) :
  (Orchestrator.onDataChange evento_cantidad_negativa w).1
  = Rejected (TypeError "Cannot read properties of undefined (reading 'includes')") /\
  Runtime.trace (Orchestrator.onDataChange evento_cantidad_negativa w).2
  = Runtime.trace w ++ [Runtime.AuditAgent_logged; Runtime.ValidationAgent_validate] /\
  Runtime.files (Orchestrator.onDataChange evento_cantidad_negativa w).2
  = Runtime.files w.
Proof.
  rewrite onDataChange_outcome.
  rewrite validate_with_promise_in_range by (cbn; lia).
  cbn [fst snd].
  destruct (log_appends (entrada_de_cambio evento_cantidad_negativa) w)
    as (_ & _ & Htrace & Hfiles & _).
  unfold mundo_tras_validar. cbn [Runtime.trace Runtime.files Runtime.with_trace].
  rewrite Htrace, Hfiles, <- app_assoc. repeat split.
Qed.

(** For a year outside 2007-2027 the rejection of a negative number is
    the [ValidationError], and its list has an error entry for the
    field. *)
Lemma onDataChange_negative_out_of_range (event : DataChangeEvent N)
  (x : N) (w : Runtime.World N) :
  anio event < 2007 \/ 2027 < anio event ->
  newValue event = JsNum x -> ltb x (lit 0) = true ->
  exists errs e,
    (Orchestrator.onDataChange event w).1 = Rejected (ValidationError errs) /\
    In e errs /\ severity e = error /\ ve_field e = field event.
Proof.
  intros Hout Hnum Hneg. rewrite onDataChange_outcome.
  destruct (ValidationAgent.validate_with _ _ event) as [validation|err] eqn:Hval.
  - destruct (validate_with_negative _ _ _ x _ Hnum Hneg Hval) as (_ & e & Hin & Hsev & Hf).
    exists (errors validation), e. cbn [fst]. auto.
  - exfalso. revert Hval. unfold ValidationAgent.validate_with.
    destruct (check_anio_out_of_range
                (ValidationAgent.RPromise (PgStore.loadEmissionFactors (Runtime.pg w)))
                event Hout) as (e & -> & _).
    unfold ValidationAgent.check_tipo_combustible. rewrite Hnum. discriminate.
Qed.

End PipelineProperties.

(** ** The threshold alert *)

(** C5, as stated, fails: the prior year has results with a combined
    total of 0 (what [initializeOrgYear] writes), the new total is 50;
    the percentage of variation, [((50 - 0) / 0) * 100], is infinite in
    binary64 and exceeds 10, and no alert is produced. *)
Lemma threshold_alert_missing_for_zero_prior_total :
  ~ (alerta_emitida
       (Orchestrator.checkThresholds "org_001" 2024
          (resultados_con_total 2024 (lit 50)) (mundo_con_previo (lit 0))).1
     <-> PrimFloat.ltb 10 (PrimFloat.abs (variacion_pct (lit 0) (lit 50))) = true).
Proof.
  intros [_ Hback].
  destruct Hback as (alerta & resto & Halerta).
  - vm_compute. reflexivity.
  - vm_compute in Halerta. discriminate Halerta.
Qed.

(** [checkThresholds], step by step: the lookup of the prior year and
    the two tests. *)
Lemma checkThresholds_eval {N} `{JsNumber N} (orgId : string) (anio : Z)
  (currentResults : Resultados N) (w : Runtime.World N) :
  PgStore.query_throws (Runtime.pg_env w) 0%nat = false ->
  (Orchestrator.checkThresholds orgId anio currentResults w).1
  = Resolved
      match PgStore.org_year_data (Runtime.pg w) !! (orgId, anio - 1, "results"%string) with
      | Some (PgStore.DResults previousResults) =>
          let previousTotal := to_number (total_alcance_1_2_t_co2e previousResults) in
          let currentTotal := total_alcance_1_2_t_co2e currentResults in
          if ltb (lit 0) previousTotal then
            if ltb (lit 10) (Math_abs (variacion_pct previousTotal currentTotal)) then
              [ alerta_de_umbral anio previousTotal currentTotal ]
            else []
          else []
      | _ => []
      end.
Proof.
  intros Hquery.
  unfold Orchestrator.checkThresholds, Runtime.bind, Runtime.record, Runtime.modify,
    Runtime.call_pg, PgStore.run, PgStore.loadResults, PgStore.bind,
    PgStore.loadOrgData, PgStore.query, PgStore.ret, Runtime.ret,
    alerta_de_umbral, variacion_pct, Orchestrator.THRESHOLD_PERCENT.
  cbn [Runtime.pg_env Runtime.pg Runtime.with_trace fst snd id].
  rewrite Hquery.
  destruct (PgStore.org_year_data (Runtime.pg w) !! (orgId, anio - 1, "results"%string))
    as [[| | | | | |previousResults]|]; try reflexivity.
  change (inject_Z 10) with 10%Q.
  cbn [fst]. repeat case_match; reflexivity.
Qed.

(** C5, amended. After a recalculation, when the load of the prior
    year answers: no error is raised; a threshold alert is produced if
    and only if the prior year has results whose combined total is
    above 0 and [((current - prior) / prior) * 100], as the arithmetic
    of the numbers computes it, is above 10 in absolute value; the
    alert is the one text that states the direction, the magnitude, the
    prior year and both totals; without results of the prior year, or
    with a prior total that is 0, negative or [null], there is no
    alert.  In binary64: prior 100 t against 115 t gives the alert of
    an increase of 15 %, against 85 t that of a reduction of 15 %, and
    against 105 t and 110 t none; prior 1 t against 1.1 t gives an
    alert, of 10.000000000000009 %; prior 7.13 t against 7.843 t gives
    none, although the second double exceeds the first by more than a
    tenth of it. *)
Theorem checkThresholds_alert_iff (N : Type) (number : JsNumber N)
  (orgId : string) (anio : Z) (currentResults : Resultados N) (w : Runtime.World N) :
  PgStore.query_throws (Runtime.pg_env w) 0%nat = false ->
  (exists alerts,
     (Orchestrator.checkThresholds orgId anio currentResults w).1 = Resolved alerts /\
     (alerts <> [] <->
      exists previousResults,
        PgStore.org_year_data (Runtime.pg w) !! (orgId, anio - 1, "results"%string)
        = Some (PgStore.DResults previousResults) /\
        ltb (lit 0) (to_number (total_alcance_1_2_t_co2e previousResults)) = true /\
        ltb (lit 10)
          (Math_abs (variacion_pct
                       (to_number (total_alcance_1_2_t_co2e previousResults))
                       (total_alcance_1_2_t_co2e currentResults))) = true) /\
     (forall previousResults,
        PgStore.org_year_data (Runtime.pg w) !! (orgId, anio - 1, "results"%string)
        = Some (PgStore.DResults previousResults) ->
        alerts <> [] ->
        alerts = [ alerta_de_umbral anio
                     (to_number (total_alcance_1_2_t_co2e previousResults))
                     (total_alcance_1_2_t_co2e currentResults) ])) /\
  (Orchestrator.checkThresholds "org_001" 2024
     (resultados_con_total 2024 (lit 115)) (mundo_con_previo (N := float) (lit 100))).1
  = Resolved
      [ [ Lit "🔔 "; PStr "AUMENTO"; Lit " del "; PFixed 1 15%float;
          Lit "% respecto a "; PInt 2023; Lit " ";
          Lit "("; PFixed 2 100%float; Lit " → "; PFixed 2 115%float;
          Lit " t CO2e). "; Lit "Supera el umbral del "; PInt 10; Lit "%." ] ] /\
  (Orchestrator.checkThresholds "org_001" 2024
     (resultados_con_total 2024 (lit 85)) (mundo_con_previo (N := float) (lit 100))).1
  = Resolved
      [ [ Lit "🔔 "; PStr "REDUCCIÓN"; Lit " del "; PFixed 1 15%float;
          Lit "% respecto a "; PInt 2023; Lit " ";
          Lit "("; PFixed 2 100%float; Lit " → "; PFixed 2 85%float;
          Lit " t CO2e). "; Lit "Supera el umbral del "; PInt 10; Lit "%." ] ] /\
  (Orchestrator.checkThresholds "org_001" 2024
     (resultados_con_total 2024 (lit 105)) (mundo_con_previo (N := float) (lit 100))).1
  = Resolved [] /\
  (Orchestrator.checkThresholds "org_001" 2024
     (resultados_con_total 2024 (lit 110)) (mundo_con_previo (N := float) (lit 100))).1
  = Resolved [] /\
  (Orchestrator.checkThresholds "org_001" 2024
     (resultados_con_total 2024 (lit 1.1)) (mundo_con_previo (N := float) (lit 1))).1
  = Resolved
      [ [ Lit "🔔 "; PStr "AUMENTO"; Lit " del "; PFixed 1 10.000000000000009%float;
          Lit "% respecto a "; PInt 2023; Lit " ";
          Lit "("; PFixed 2 1%float; Lit " → "; PFixed 2 1.1%float;
          Lit " t CO2e). "; Lit "Supera el umbral del "; PInt 10; Lit "%." ] ] /\
  (Orchestrator.checkThresholds "org_001" 2024
     (resultados_con_total 2024 (lit 7.843)) (mundo_con_previo (N := float) (lit 7.13))).1
  = Resolved [] /\
  (exists prior current : Q,
     Float64.to_Q (lit 7.13) = Some prior /\ Float64.to_Q (lit 7.843) = Some current /\
     (prior + (1 # 10) * prior < current)%Q) /\
  (Orchestrator.checkThresholds "org_001" 2024
     (resultados_con_total 2024 (lit 50))
     (mundo_con_resultados (N := float)
        (Some (map_Resultados (fun _ => JNull) (resultados_con_total 2023 (lit 0)))))).1
  = Resolved [] /\
  (Orchestrator.checkThresholds "org_001" 2024
     (resultados_con_total 2024 (lit 50)) (mundo_con_resultados (N := float) None)).1
  = Resolved [].
Proof.
  intros Hquery.
  split.
  - rewrite (checkThresholds_eval orgId anio currentResults w Hquery).
    eexists. split; [reflexivity|].
    destruct (PgStore.org_year_data (Runtime.pg w) !! (orgId, anio - 1, "results"%string))
      as [data|] eqn:Hlookup.
    + destruct data as [| | | | | |previousResults];
        try (split; [split; [intros Hne; contradiction Hne; reflexivity
                            |intros (p & Hp & _); discriminate Hp]
                    |intros p Hp; discriminate Hp]).
      cbv zeta.
      set (prev := to_number (total_alcance_1_2_t_co2e previousResults)).
      set (cur := total_alcance_1_2_t_co2e currentResults).
      destruct (ltb (lit 0) prev) eqn:Hpos;
        [destruct (ltb (lit 10) (Math_abs (variacion_pct prev cur))) eqn:Hexc|].
      * split; [split|].
        -- intros _. exists previousResults. fold prev cur. auto.
        -- intros _. discriminate.
        -- intros p Hp _. injection Hp as <-. reflexivity.
      * split; [split|].
        -- intros Hne; contradiction Hne; reflexivity.
        -- intros (p & Hp & _ & Hg). injection Hp as <-.
           fold prev cur in Hg. congruence.
        -- intros p _ Hne; contradiction Hne; reflexivity.
      * split; [split|].
        -- intros Hne; contradiction Hne; reflexivity.
        -- intros (p & Hp & Hg & _). injection Hp as <-.
           fold prev in Hg. congruence.
        -- intros p _ Hne; contradiction Hne; reflexivity.
    + split; [split; [intros Hne; contradiction Hne; reflexivity
                     |intros (p & Hp & _); discriminate Hp]
             |intros p Hp; discriminate Hp].
  - repeat match goal with |- _ /\ _ => split end;
      try (vm_compute; reflexivity).
    eexists. eexists.
    split; [vm_compute; reflexivity|].
    split; [vm_compute; reflexivity|].
    reflexivity.
Qed.

Lemma checkThresholds_alert_iff_witness :
  exists alerts,
    (Orchestrator.checkThresholds "org_001" 2024
       (resultados_con_total 2024 (lit 115)) (mundo_con_previo (N := float) (lit 100))).1
    = Resolved alerts /\
    alerts <> [].
Proof.
  destruct (proj1 (checkThresholds_alert_iff float Float64.number "org_001" 2024
                     (resultados_con_total 2024 (lit 115))
                     (mundo_con_previo (lit 100)) eq_refl))
    as (alerts & Halerts & Hiff & _).
  exists alerts. split; [exact Halerts|].
  apply Hiff. eexists. split; [vm_compute; reflexivity|].
  split; vm_compute; reflexivity.
Defined.


(** ** Further properties of the engine and of the orchestrator *)

Lemma round_zero (x : Q) : (x == 0)%Q -> (Exact.round x / 1000 == 0)%Q.
Proof.
  intros Hx. unfold Exact.round.
  assert (Hfloor : Qfloor (x + (1 # 2)) = 0%Z).
  { rewrite (Qfloor_comp (x + (1 # 2)) (1 # 2)) by (rewrite Hx; reflexivity).
    reflexivity. }
  rewrite Hfloor. reflexivity.
Qed.

(** X1. A quantity of zero gives zero emissions, whatever the factors:
    the four fields of the combustion, the fugitive emissions and the
    electricity emissions.  Stated on the exact instance. *)
Theorem zero_quantity_zero_emissions (fe : FactorEmision Q) (factor : Q) (gdo : bool) :
  (CalcAgent.co2_kg (CalcAgent.calcularEmisionesCombustible 0%Q fe) == 0)%Q /\
  (CalcAgent.ch4_g (CalcAgent.calcularEmisionesCombustible 0%Q fe) == 0)%Q /\
  (CalcAgent.n2o_g (CalcAgent.calcularEmisionesCombustible 0%Q fe) == 0)%Q /\
  (CalcAgent.total_kg_co2e (CalcAgent.calcularEmisionesCombustible 0%Q fe) == 0)%Q /\
  (CalcAgent.calcularEmisionesFugitivas 0%Q factor == 0)%Q /\
  (CalcAgent.calcularEmisionesElectricidad 0%Q factor gdo == 0)%Q.
Proof.
  unfold CalcAgent.calcularEmisionesCombustible, CalcAgent.calcularEmisionesFugitivas,
    CalcAgent.calcularEmisionesElectricidad, PCA_CH4, PCA_N2O.
  cbn [CalcAgent.co2_kg CalcAgent.ch4_g CalcAgent.n2o_g CalcAgent.total_kg_co2e
       add sub mul div lit Math_round Exact.number].
  repeat match goal with |- _ /\ _ => split end;
    try (apply round_zero; unfold Qdiv; ring).
  destruct gdo; [reflexivity|apply round_zero; ring].
Qed.

(** X2. With a Garantía de Origen the electricity emissions are 0,
    whatever the consumption and the factor.  Without it they are
    [Math.round(kwh * factor * 1000) / 1000]: in binary64, the double
    nearest to [k / 1000], [k] being the double [kwh * factor * 1000]
    rounded to the nearest integer, a tie going up.  100000 kWh at
    0.26 kg/kWh are 26000 kg, and 4.55 kWh at 0.11 kg/kWh are 0.5 kg
    (binary64 evaluations). *)
Theorem calcularEmisionesElectricidad_gdo :
  (forall (N : Type) (number : JsNumber N) (kwh factor : N),
     CalcAgent.calcularEmisionesElectricidad kwh factor true = lit 0 /\
     CalcAgent.calcularEmisionesElectricidad kwh factor false
     = round3 (kwh * factor)%js) /\
  (forall kwh factor : float,
     redondeo3_binary64 (kwh * factor)%js
       (CalcAgent.calcularEmisionesElectricidad kwh factor false)) /\
  CalcAgent.calcularEmisionesElectricidad (N := float) (lit 100000) (lit 0.26) true
  = 0%float /\
  CalcAgent.calcularEmisionesElectricidad (N := float) (lit 100000) (lit 0.26) false
  = 26000%float /\
  CalcAgent.calcularEmisionesElectricidad (N := float) (lit 4.55) (lit 0.11) false
  = 0.5%float.
Proof.
  split; [|split].
  - intros N number kwh factor. split; reflexivity.
  - intros kwh factor. apply round3_binary64.
  - repeat match goal with |- _ /\ _ => split end; vm_compute; reflexivity.
Qed.

Lemma round_monotone (x y : Q) :
  (x <= y)%Q -> (Exact.round x / 1000 <= Exact.round y / 1000)%Q.
Proof.
  intros Hle. unfold Exact.round.
  assert (Hfloor : (Qfloor (x + (1 # 2)) <= Qfloor (y + (1 # 2)))%Z)
    by (apply Qfloor_resp_le; lra).
  rewrite Zle_Qle in Hfloor. q_lra.
Qed.

(** X3. For fixed non-negative factors the combustion total does not
    decrease when the quantity grows.  Stated on the exact instance. *)
Theorem combustion_total_monotone (q1 q2 : Q) (fe : FactorEmision Q) :
  (0 <= co2_kg_ud fe)%Q -> (0 <= ch4_g_ud fe)%Q -> (0 <= n2o_g_ud fe)%Q ->
  (q1 <= q2)%Q ->
  (CalcAgent.total_kg_co2e (CalcAgent.calcularEmisionesCombustible q1 fe)
   <= CalcAgent.total_kg_co2e (CalcAgent.calcularEmisionesCombustible q2 fe))%Q.
Proof.
  intros Hco2 Hch4 Hn2o Hq.
  unfold CalcAgent.calcularEmisionesCombustible, PCA_CH4, PCA_N2O.
  cbn [CalcAgent.total_kg_co2e add sub mul div lit Math_round Exact.number].
  apply round_monotone.
  assert (H1 : (q1 * co2_kg_ud fe <= q2 * co2_kg_ud fe)%Q)
    by (apply Qmult_le_compat_r; assumption).
  assert (H2 : (q1 * ch4_g_ud fe <= q2 * ch4_g_ud fe)%Q)
    by (apply Qmult_le_compat_r; assumption).
  assert (H3 : (q1 * n2o_g_ud fe <= q2 * n2o_g_ud fe)%Q)
    by (apply Qmult_le_compat_r; assumption).
  set (a1 := (q1 * co2_kg_ud fe)%Q) in *. set (a2 := (q2 * co2_kg_ud fe)%Q) in *.
  set (b1 := (q1 * ch4_g_ud fe)%Q) in *. set (b2 := (q2 * ch4_g_ud fe)%Q) in *.
  set (c1 := (q1 * n2o_g_ud fe)%Q) in *. set (c2 := (q2 * n2o_g_ud fe)%Q) in *.
  q_lra.
Qed.

Lemma combustion_total_monotone_witness :
  (CalcAgent.total_kg_co2e (CalcAgent.calcularEmisionesCombustible 100%Q fe_gas_natural)
   <= CalcAgent.total_kg_co2e (CalcAgent.calcularEmisionesCombustible 50000%Q fe_gas_natural))%Q.
Proof.
  refine (combustion_total_monotone 100 50000 fe_gas_natural _ _ _ _); discriminate.
Defined.

Section EntryPoints.
Context {N : Type} `{JsNumber N}.

(** X4. [onExport] resolves, and all it does is to write the audit
    log anew with one more record: the records the log held, followed
    by the row of the export (user, organisation, action EXPORT, entity
    'report', the format as entity identifier, the time of the call).
    The other CSV files, the JSON files and the database are as they
    were, and neither the validation nor the calculation is entered. *)
Theorem onExport_only_audits (userId orgId tipo : string) (w : Runtime.World N) :
  (Orchestrator.onExport userId orgId tipo w).1 = Resolved tt /\
  Runtime.store (Orchestrator.onExport userId orgId tipo w).2
  = <["audit_log"%string :=
        CsvHandler.unparse (Runtime.papa w)
          (registros_de_auditoria w
           ++ [fila_de_accion (Runtime.uuids w (Runtime.drawn w)) userId orgId
                 EXPORT "report" tipo (Runtime.date_iso w)])]>
      (Runtime.store w) /\
  Runtime.trace (Orchestrator.onExport userId orgId tipo w).2
  = Runtime.trace w ++ [Runtime.AuditAgent_logged] /\
  Runtime.files (Orchestrator.onExport userId orgId tipo w).2 = Runtime.files w /\
  Runtime.pg (Orchestrator.onExport userId orgId tipo w).2 = Runtime.pg w.
Proof.
  unfold Orchestrator.onExport, Runtime.bind at 1, Runtime.get.
  match goal with
  | |- context [AuditAgent.log ?e w] =>
      destruct (log_appends e w) as (Hres & Hstore & Htrace & Hfiles & Hpg & _)
  end.
  repeat match goal with |- _ /\ _ => split end; assumption.
Qed.

(** X5. [onCalculate], when the load of the prior year's results
    answers: it writes the audit log anew with one more record, the
    row of the calculation (user, organisation, action CALCULATE,
    entity 'results', the time of the call) after the records the log
    held; then it recalculates from the JSON files and saves the
    results; then it runs the threshold check on them.  It returns the
    recalculated results with the alerts of the check, and there is no
    validation stage. *)
Theorem onCalculate_recalculates_and_checks (userId orgId : string) (anio : Z)
  (w : Runtime.World N) :
  PgStore.query_throws (Runtime.pg_env w) 0%nat = false ->
  exists alerts,
    (Orchestrator.checkThresholds orgId anio
       (CalcAgent.recalculate
          {| CalcAgent.rp_orgId := orgId; CalcAgent.rp_anio := anio;
             CalcAgent.rp_scope := Some both |} (Runtime.files w)).1 w).1
    = Resolved alerts /\
    (Orchestrator.onCalculate userId orgId anio w).1
    = Resolved
        {| Orchestrator.results :=
             (CalcAgent.recalculate
                {| CalcAgent.rp_orgId := orgId; CalcAgent.rp_anio := anio;
                   CalcAgent.rp_scope := Some both |} (Runtime.files w)).1;
           Orchestrator.alerts := alerts |} /\
    Runtime.store (Orchestrator.onCalculate userId orgId anio w).2
    = <["audit_log"%string :=
          CsvHandler.unparse (Runtime.papa w)
            (registros_de_auditoria w
             ++ [fila_de_accion (Runtime.uuids w (Runtime.drawn w)) userId orgId
                   CALCULATE "results" "" (Runtime.date_iso w)])]>
        (Runtime.store w) /\
    Runtime.files (Orchestrator.onCalculate userId orgId anio w).2
    = (CalcAgent.recalculate
         {| CalcAgent.rp_orgId := orgId; CalcAgent.rp_anio := anio;
            CalcAgent.rp_scope := Some both |} (Runtime.files w)).2 /\
    Runtime.trace (Orchestrator.onCalculate userId orgId anio w).2
    = Runtime.trace w
      ++ [Runtime.AuditAgent_logged; Runtime.CalcAgent_recalculate;
          Runtime.Orchestrator_checkThresholds].
Proof.
  intros Hquery.
  rewrite (checkThresholds_eval orgId anio _ w Hquery).
  eexists. split; [reflexivity|].
  remember (Orchestrator.onCalculate userId orgId anio w) as X eqn:HX.
  unfold Orchestrator.onCalculate, Runtime.get in HX.
  unfold Runtime.bind at 1 in HX. cbv beta iota in HX.
  unfold Runtime.bind at 1 in HX.
  match type of HX with
  | context [AuditAgent.log ?e w] =>
      destruct (log_appends e w)
        as (Hres & Hstore & Htrace & Hfiles & Hpg & _ & Henv & _);
      destruct (AuditAgent.log e w) as [r1 w1]
  end.
  destruct w1 as [files1 store1 papa1 pg1 pg_env1 uuids1 drawn1 date_iso1 trace1].
  cbn [fst snd Runtime.store Runtime.trace Runtime.files Runtime.pg Runtime.pg_env]
    in Hres, Hstore, Htrace, Hfiles, Hpg, Henv.
  subst r1 store1 trace1 files1 pg1 pg_env1.
  unfold Orchestrator.recalculate, Orchestrator.checkThresholds,
    Runtime.bind, Runtime.record, Runtime.modify,
    Runtime.call_pg, Runtime.ret, PgStore.run, PgStore.loadResults,
    PgStore.bind, PgStore.loadOrgData, PgStore.query, PgStore.ret,
    alerta_de_umbral, variacion_pct, Orchestrator.THRESHOLD_PERCENT in *.
  cbn [Runtime.pg_env Runtime.pg Runtime.files Runtime.trace Runtime.store
       Runtime.with_trace Runtime.with_files Runtime.with_pg fst snd id] in HX.
  destruct (CalcAgent.recalculate _ (Runtime.files w)) as [r fs] eqn:Hrec.
  cbn [Runtime.pg_env Runtime.pg Runtime.files Runtime.trace Runtime.store
       Runtime.with_trace Runtime.with_files Runtime.with_pg fst snd id] in HX |- *.
  rewrite Hquery in HX.
  change (inject_Z 10) with 10%Q in *.
  destruct (PgStore.org_year_data (Runtime.pg w) !! (orgId, anio - 1, "results"%string))
    as [[| | | | | |previousResults]|];
    repeat case_match; simplify_eq;
    cbn; rewrite <- ?app_assoc; repeat split; reflexivity.
Qed.

End EntryPoints.

Lemma onCalculate_recalculates_and_checks_witness :
  exists res,
    (Orchestrator.onCalculate "usr_001" "org_001" 2024 (mundo_con_previo 100%Q)).1
    = Resolved res.
Proof.
  destruct (onCalculate_recalculates_and_checks "usr_001" "org_001" 2024
              (mundo_con_previo 100%Q) eq_refl) as (alerts & _ & Hres & _).
  eexists. exact Hres.
Defined.

(* ================================================================== *)
(** * The free-tier guard and the database store: further properties  *)
(* ================================================================== *)

(** A case that cannot be: [None] that is [Some], a rejection that is a
    resolution. *)
Ltac absurd_outcome :=
  match goal with
  | H : is_Some None |- _ => destruct H as [? ?]; discriminate
  | H : Rejected _ = Resolved _ |- _ => discriminate H
  | H : Resolved _ = Rejected _ |- _ => discriminate H
  end.

(** A list in descending order without repeats is in strictly
    descending order. *)
Lemma descending_without_repeats (l : list Z) :
  StronglySorted Z.ge l -> NoDup l -> Sorted Z.gt l.
Proof.
  induction 1 as [|x l Hsorted IH Hall]; intros Hnodup; [constructor|].
  apply NoDup_cons in Hnodup as [Hx Hnodup].
  constructor; [apply IH; exact Hnodup|].
  destruct l as [|y l]; constructor.
  apply Forall_cons in Hall as [Hge _].
  assert (x <> y) by (intros ->; apply Hx; constructor).
  lia.
Qed.

Section StoreProperties.
Context {N : Type} `{JsNumber N}.

(** The verdict on a usage that blocks: not allowed, with the message
    of the limit that is tried first. *)
Lemma checkWriteAllowed_blocked (env : FreeTierGuard.Env)
  (cache : option FreeTierGuard.SizeCache) (m : FreeTierGuard.SizeCache)
  (c : option FreeTierGuard.SizeCache) :
  FreeTierGuard.getDatabaseSize env cache = (m, c) ->
  bloquea m ->
  exists rest,
    FreeTierGuard.allowed (FreeTierGuard.checkWriteAllowed (N := N) env cache).1 = false /\
    FreeTierGuard.error (FreeTierGuard.checkWriteAllowed (N := N) env cache).1
    = Some (Lit (if FreeTierGuard.HARD_LIMIT_BYTES <=? FreeTierGuard.bytes m
                 then "🚫 BLOQUEADO: La base de datos ha alcanzado "
                 else "🚫 BLOQUEADO: Se ha alcanzado el límite de ") :: rest) /\
    (FreeTierGuard.checkWriteAllowed (N := N) env cache).2 = c.
Proof.
  intros Hm Hblock. unfold FreeTierGuard.checkWriteAllowed. rewrite Hm.
  destruct (Z.leb_spec FreeTierGuard.HARD_LIMIT_BYTES (FreeTierGuard.bytes m)).
  - eexists. cbn. repeat split; reflexivity.
  - destruct (Z.leb_spec FreeTierGuard.MAX_ROWS (FreeTierGuard.rows m)).
    + eexists. cbn. repeat split; reflexivity.
    + destruct Hblock; lia.
Qed.

(** The verdict on a usage that does not block: allowed. *)
Lemma checkWriteAllowed_passes (env : FreeTierGuard.Env)
  (cache : option FreeTierGuard.SizeCache) (m : FreeTierGuard.SizeCache)
  (c : option FreeTierGuard.SizeCache) :
  FreeTierGuard.getDatabaseSize env cache = (m, c) ->
  FreeTierGuard.bytes m < FreeTierGuard.HARD_LIMIT_BYTES ->
  FreeTierGuard.rows m < FreeTierGuard.MAX_ROWS ->
  FreeTierGuard.allowed (FreeTierGuard.checkWriteAllowed (N := N) env cache).1 = true /\
  (FreeTierGuard.checkWriteAllowed (N := N) env cache).2 = c.
Proof.
  intros Hm Hbytes Hrows.
  rewrite checkWriteAllowed_allowed.
  destruct (checkWriteAllowed_measurement (N := N) env cache) as (_ & _ & ->).
  rewrite Hm. cbn [fst snd].
  destruct (Z.leb_spec FreeTierGuard.HARD_LIMIT_BYTES (FreeTierGuard.bytes m)); [lia|].
  destruct (Z.leb_spec FreeTierGuard.MAX_ROWS (FreeTierGuard.rows m)); [lia|].
  split; reflexivity.
Qed.

(** X6. [getUsageInfo] reports the usage that [getDatabaseSize]
    measures: the rows, [isBlocked] exactly when the bytes are at or
    above the hard limit or the rows at or above the row limit,
    [isNearLimit] exactly when the bytes are at or above the warn
    limit.  It agrees with [checkWriteAllowed] on the same usage:
    [isBlocked] is the negation of [allowed], a warning is given
    exactly when [isNearLimit] holds and [isBlocked] does not, the two
    texts are the same, and both leave the same cache. *)
Theorem getUsageInfo_agrees_with_guard (env : FreeTierGuard.Env)
  (cache : option FreeTierGuard.SizeCache) (m : FreeTierGuard.SizeCache)
  (c : option FreeTierGuard.SizeCache) :
  FreeTierGuard.getDatabaseSize env cache = (m, c) ->
  exists u,
    FreeTierGuard.getUsageInfo (N := N) env cache = (u, c) /\
    FreeTierGuard.ui_rowCount u = FreeTierGuard.rows m /\
    (FreeTierGuard.isBlocked u = true <-> bloquea m) /\
    (FreeTierGuard.isNearLimit u = true <->
     FreeTierGuard.WARN_LIMIT_BYTES <= FreeTierGuard.bytes m) /\
    FreeTierGuard.isBlocked u
    = negb (FreeTierGuard.allowed (FreeTierGuard.checkWriteAllowed (N := N) env cache).1) /\
    (is_Some (FreeTierGuard.warning (FreeTierGuard.checkWriteAllowed (N := N) env cache).1) <->
     FreeTierGuard.isNearLimit u = true /\ FreeTierGuard.isBlocked u = false) /\
    FreeTierGuard.ui_dbSizeMB u
    = FreeTierGuard.dbSizeMB (FreeTierGuard.checkWriteAllowed (N := N) env cache).1 /\
    FreeTierGuard.ui_usagePercent u
    = FreeTierGuard.usagePercent (FreeTierGuard.checkWriteAllowed (N := N) env cache).1 /\
    (FreeTierGuard.checkWriteAllowed (N := N) env cache).2 = c.
Proof.
  intros Hm.
  unfold FreeTierGuard.getUsageInfo, FreeTierGuard.checkWriteAllowed, bloquea.
  rewrite Hm. eexists. split; [reflexivity|].
  cbn [FreeTierGuard.ui_rowCount FreeTierGuard.isBlocked FreeTierGuard.isNearLimit
       FreeTierGuard.ui_dbSizeMB FreeTierGuard.ui_usagePercent].
  destruct (Z.leb_spec FreeTierGuard.HARD_LIMIT_BYTES (FreeTierGuard.bytes m)) as [Hhard|Hhard];
    [|destruct (Z.leb_spec FreeTierGuard.MAX_ROWS (FreeTierGuard.rows m)) as [Hrows|Hrows];
      [|destruct (Z.leb_spec FreeTierGuard.WARN_LIMIT_BYTES (FreeTierGuard.bytes m))
          as [Hwarn|Hwarn]]];
    cbn;
    repeat match goal with |- _ /\ _ => split | |- _ <-> _ => split end;
    try reflexivity; try tauto; try lia; try discriminate;
    try (intros [? ?]; discriminate); try (intros [? ?]; congruence);
    try (intros [? | ?]; lia); eauto;
    try (unfold FreeTierGuard.HARD_LIMIT_BYTES, FreeTierGuard.WARN_LIMIT_BYTES in *; lia).
Qed.

(** X7. When the usage that the guard measures blocks, every write is
    rejected with the guard's message as a [FreeTierBlockedError],
    before any statement is sent: [upsertOrgData] and [saveSedes] issue
    no query and leave the tables as they were (the guard's cache holds
    what the measurement left), and [initializeOrgYear], for a year
    without results, stops after its one SELECT. *)
Theorem blocked_write_changes_nothing (env : PgStore.Env) (db : PgStore.Db N)
  (m : FreeTierGuard.SizeCache) (c : option FreeTierGuard.SizeCache) :
  FreeTierGuard.getDatabaseSize (PgStore.guard_env env) (PgStore._cache db) = (m, c) ->
  bloquea m ->
  exists rest,
    (forall orgId anio tipo data,
        PgStore.upsertOrgData orgId anio tipo data env (db, 0%nat)
        = (Rejected
             (FreeTierBlockedError
                (Lit (if FreeTierGuard.HARD_LIMIT_BYTES <=? FreeTierGuard.bytes m
                      then "🚫 BLOQUEADO: La base de datos ha alcanzado "
                      else "🚫 BLOQUEADO: Se ha alcanzado el límite de ") :: rest)),
           ({| PgStore.org_year_data := PgStore.org_year_data db;
               PgStore.sedes := PgStore.sedes db;
               PgStore.static_emission_factors := PgStore.static_emission_factors db;
               PgStore.static_dropdowns := PgStore.static_dropdowns db;
               PgStore._cache := c |}, 0%nat))) /\
    (forall orgId anio data,
        PgStore.saveSedes orgId anio data env (db, 0%nat)
        = (Rejected
             (FreeTierBlockedError
                (Lit (if FreeTierGuard.HARD_LIMIT_BYTES <=? FreeTierGuard.bytes m
                      then "🚫 BLOQUEADO: La base de datos ha alcanzado "
                      else "🚫 BLOQUEADO: Se ha alcanzado el límite de ") :: rest)),
           ({| PgStore.org_year_data := PgStore.org_year_data db;
               PgStore.sedes := PgStore.sedes db;
               PgStore.static_emission_factors := PgStore.static_emission_factors db;
               PgStore.static_dropdowns := PgStore.static_dropdowns db;
               PgStore._cache := c |}, 0%nat))) /\
    (forall orgId anio,
        PgStore.query_throws env 0%nat = false ->
        PgStore.org_year_data db !! (orgId, anio, "results"%string) = None ->
        PgStore.initializeOrgYear orgId anio env (db, 0%nat)
        = (Rejected
             (FreeTierBlockedError
                (Lit (if FreeTierGuard.HARD_LIMIT_BYTES <=? FreeTierGuard.bytes m
                      then "🚫 BLOQUEADO: La base de datos ha alcanzado "
                      else "🚫 BLOQUEADO: Se ha alcanzado el límite de ") :: rest)),
           ({| PgStore.org_year_data := PgStore.org_year_data db;
               PgStore.sedes := PgStore.sedes db;
               PgStore.static_emission_factors := PgStore.static_emission_factors db;
               PgStore.static_dropdowns := PgStore.static_dropdowns db;
               PgStore._cache := c |}, 1%nat))).
Proof.
  intros Hm Hblock.
  destruct (checkWriteAllowed_blocked _ _ _ _ Hm Hblock) as (rest & Hallowed & Herror & Hcache).
  exists rest.
  repeat match goal with |- _ /\ _ => split end.
  - intros. unfold PgStore.upsertOrgData, PgStore.bind.
    rewrite guardWrite_eq, Hallowed, Herror, Hcache. reflexivity.
  - intros. unfold PgStore.saveSedes, PgStore.bind.
    rewrite guardWrite_eq, Hallowed, Herror, Hcache. reflexivity.
  - intros orgId anio Hquery Hnone.
    unfold PgStore.initializeOrgYear, PgStore.bind, PgStore.query.
    rewrite Hquery. cbn [id]. rewrite Hnone.
    rewrite guardWrite_eq, Hallowed, Herror, Hcache. reflexivity.
Qed.

(** What [insert_all] leaves: the rows that were there, and new rows of
    the inserted kinds only. *)
Lemma insert_all_keeps (orgId : string) (anio : Z)
  (inserts : list (string * PgStore.OrgYearData N)) (env : PgStore.Env)
  (db db' : PgStore.Db N) (k k' : nat) r :
  PgStore.insert_all orgId anio inserts env (db, k) = (r, (db', k')) ->
  PgStore.org_year_data db ⊆ PgStore.org_year_data db' /\
  PgStore.sedes db' = PgStore.sedes db /\
  PgStore._cache db' = PgStore._cache db /\
  (forall key, PgStore.org_year_data db !! key = None ->
               is_Some (PgStore.org_year_data db' !! key) ->
               exists tipo, tipo ∈ inserts.*1 /\ key = (orgId, anio, tipo)).
Proof.
  revert db k. induction inserts as [|row rest IH]; intros db k.
  - cbn. intros [= <- <- <-]. repeat split; try reflexivity.
    intros key Hnone [d Hd]. congruence.
  - cbn [PgStore.insert_all]. unfold PgStore.bind at 1.
    unfold PgStore.insert_do_nothing, PgStore.query.
    destruct (PgStore.query_throws env k).
    + intros [= <- <- <-]. repeat split; try reflexivity.
      intros key Hnone [d Hd]. congruence.
    + intros Hrest. apply IH in Hrest as (Hsub & Hsedes & Hcache & Hnew).
      cbn in Hsub, Hsedes, Hcache, Hnew.
      assert (Hstep : PgStore.org_year_data db
                      ⊆ match PgStore.org_year_data db !! (orgId, anio, row.1) with
                        | Some _ => PgStore.org_year_data db
                        | None => <[(orgId, anio, row.1) := PgStore.json_data row.2]>
                                    (PgStore.org_year_data db)
                        end).
      { destruct (PgStore.org_year_data db !! (orgId, anio, row.1)) eqn:Hrow;
          [reflexivity|]. apply insert_subseteq. exact Hrow. }
      repeat split; try assumption.
      * etrans; eassumption.
      * intros key Hnone Hsome.
        destruct (decide (key = (orgId, anio, row.1))) as [->|Hne].
        { exists row.1. split; [cbn; apply elem_of_cons; left; reflexivity|reflexivity]. }
        destruct (Hnew key) as (tipo & Hin & ->).
        { destruct (PgStore.org_year_data db !! (orgId, anio, row.1)); [exact Hnone|].
          rewrite lookup_insert_ne by congruence. exact Hnone. }
        { exact Hsome. }
        exists tipo. split; [cbn; apply elem_of_cons; right; exact Hin|reflexivity].
Qed.

(** When [insert_all] resolves, every inserted kind has its row, and a
    row that was missing holds the data that was inserted for it. *)
Lemma insert_all_resolved (orgId : string) (anio : Z)
  (inserts : list (string * PgStore.OrgYearData N)) (env : PgStore.Env)
  (db db' : PgStore.Db N) (k k' : nat) :
  NoDup inserts.*1 ->
  PgStore.insert_all orgId anio inserts env (db, k) = (Resolved tt, (db', k')) ->
  forall row, row ∈ inserts ->
    is_Some (PgStore.org_year_data db' !! (orgId, anio, row.1)) /\
    (PgStore.org_year_data db !! (orgId, anio, row.1) = None ->
     PgStore.org_year_data db' !! (orgId, anio, row.1) = Some (PgStore.json_data row.2)).
Proof.
  revert db k. induction inserts as [|row0 rest IH]; intros db k Hnodup Hrun row Hin.
  - apply elem_of_nil in Hin as [].
  - cbn in Hnodup. apply NoDup_cons in Hnodup as [Hfresh Hnodup].
    cbn [PgStore.insert_all] in Hrun. unfold PgStore.bind at 1 in Hrun.
    unfold PgStore.insert_do_nothing, PgStore.query in Hrun.
    destruct (PgStore.query_throws env k); [discriminate|].
    pose proof (insert_all_keeps _ _ _ _ _ _ _ _ _ Hrun) as (Hsub & _ & _ & _).
    cbn in Hsub.
    apply elem_of_cons in Hin as [->|Hin].
    + destruct (PgStore.org_year_data db !! (orgId, anio, row0.1)) as [d|] eqn:Hrow.
      * split; [|discriminate].
        exists d. eapply lookup_weaken; eassumption.
      * assert (Hnew : PgStore.org_year_data db' !! (orgId, anio, row0.1)
                       = Some (PgStore.json_data row0.2)).
        { eapply lookup_weaken; [|exact Hsub]. apply lookup_insert_eq. }
        split; [eexists; exact Hnew|intros _; exact Hnew].
    + destruct (IH _ _ Hnodup Hrun row Hin) as [Hsome Hval].
      split; [exact Hsome|]. intros Hnone. apply Hval. cbn.
      assert (Hne : row.1 <> row0.1).
      { intros Heq. apply Hfresh. rewrite <- Heq. apply (list_elem_of_fmap_2 fst). exact Hin. }
      destruct (PgStore.org_year_data db !! (orgId, anio, row0.1)); [exact Hnone|].
      rewrite lookup_insert_ne by congruence. exact Hnone.
Qed.

(** X8. [initializeOrgYear] never overwrites: whatever it returns,
    every row that was stored is unchanged, a row it created is one of
    the five initial kinds of this organisation and year, and the sedes
    are untouched.  When it resolves for a year without results, all
    five kinds are present and the results are the empty results, every
    figure 0, as JSON writes them.  When the results row exists it
    resolves at once and changes nothing, whatever else is missing. *)
Theorem initializeOrgYear_never_overwrites (orgId : string) (anio : Z)
  (env : PgStore.Env) (db db' : PgStore.Db N) r :
  PgStore.run (PgStore.initializeOrgYear orgId anio) env db = (r, db') ->
  (forall key d, PgStore.org_year_data db !! key = Some d ->
                 PgStore.org_year_data db' !! key = Some d) /\
  (forall key, PgStore.org_year_data db !! key = None ->
               is_Some (PgStore.org_year_data db' !! key) ->
               exists tipo, tipo ∈ tipos_iniciales /\ key = (orgId, anio, tipo)) /\
  PgStore.sedes db' = PgStore.sedes db /\
  (r = Resolved tt ->
   PgStore.org_year_data db !! (orgId, anio, "results"%string) = None ->
   (forall tipo, tipo ∈ tipos_iniciales ->
                 is_Some (PgStore.org_year_data db' !! (orgId, anio, tipo))) /\
   PgStore.org_year_data db' !! (orgId, anio, "results"%string)
   = Some (PgStore.DResults
             (json_Resultados (map_Resultados JNum (resultados_a_cero anio))))) /\
  (PgStore.query_throws env 0%nat = false ->
   is_Some (PgStore.org_year_data db !! (orgId, anio, "results"%string)) ->
   r = Resolved tt /\ db' = db).
Proof.
  unfold PgStore.run, PgStore.initializeOrgYear.
  unfold PgStore.bind at 1. unfold PgStore.query at 1.
  destruct (PgStore.query_throws env 0%nat) eqn:Hq0.
  { intros [= <- <-]. repeat split; try easy.
    intros key Hnone [d Hd]. congruence. }
  cbn [id].
  destruct (PgStore.org_year_data db !! (orgId, anio, "results"%string)) as [d0|] eqn:Hres.
  { cbn. intros [= <- <-]. repeat split; try easy.
    intros key Hnone [d Hd]. congruence. }
  unfold PgStore.bind at 1. rewrite guardWrite_eq.
  destruct (FreeTierGuard.allowed _).
  2:{ intros [= <- <-]. repeat split; try easy; try absurd_outcome.
      intros key Hnone [d Hd]. cbn in Hd. congruence. }
  unfold PgStore.bind at 1.
  match goal with
  | |- context [PgStore.insert_all orgId anio ?l env ?s] =>
      destruct (PgStore.insert_all orgId anio l env s) as [r1 [db1 k1]] eqn:Hall;
      pose proof (insert_all_keeps _ _ _ _ _ _ _ _ _ Hall) as (Hsub & Hsedes & _ & Hnew)
  end.
  cbn in Hsub, Hsedes, Hnew.
  assert (Hkeep : forall key d, PgStore.org_year_data db !! key = Some d ->
                                PgStore.org_year_data db1 !! key = Some d).
  { intros key d Hd. eapply lookup_weaken; eassumption. }
  assert (Hnd : NoDup tipos_iniciales) by (apply (bool_decide_unpack _); vm_compute; exact I).
  destruct r1 as [[]|e].
  - unfold PgStore.invalidateCache. intros [= <- <-].
    cbn [PgStore.org_year_data PgStore.sedes PgStore.with_cache].
    pose proof (fun Hnd' => insert_all_resolved _ _ _ _ _ _ _ _ Hnd' Hall) as Hok.
    specialize (Hok Hnd).
    repeat split; try easy; try absurd_outcome.
    + intros tipo Hin.
      match type of Hok with
      | forall row, row ∈ ?l -> _ =>
          assert (Hin' : tipo ∈ l.*1) by exact Hin;
          apply list_elem_of_fmap in Hin' as (row & -> & Hrow);
          exact (proj1 (Hok row Hrow))
      end.
    + apply (Hok ("results"%string,
                  PgStore.DResults (map_Resultados JNum (PgStore.emptyResults anio))));
        [repeat constructor|exact Hres].
  - intros [= <- <-]. repeat split; try easy; try absurd_outcome.
Qed.

(** A write through [upsertOrgData] that resolves has changed the row
    of its key, and has emptied the cache. *)
Lemma upsertOrgData_resolved (orgId : string) (anio : Z) (tipo : string)
  (data : PgStore.OrgYearData N) (env : PgStore.Env) (db db' : PgStore.Db N) :
  PgStore.run (PgStore.upsertOrgData orgId anio tipo data) env db = (Resolved tt, db') ->
  db' = {| PgStore.org_year_data :=
             <[(orgId, anio, tipo) := PgStore.json_data data]> (PgStore.org_year_data db);
           PgStore.sedes := PgStore.sedes db;
           PgStore.static_emission_factors := PgStore.static_emission_factors db;
           PgStore.static_dropdowns := PgStore.static_dropdowns db;
           PgStore._cache := None |}.
Proof.
  unfold PgStore.run, PgStore.upsertOrgData. unfold PgStore.bind at 1.
  rewrite guardWrite_eq.
  destruct (FreeTierGuard.allowed _); [|discriminate].
  unfold PgStore.bind, PgStore.query, PgStore.invalidateCache.
  destruct (PgStore.query_throws env 0%nat); [discriminate|].
  intros [= <-]. reflexivity.
Qed.

(** What [loadAllOrgData] answers when its queries do. *)
Lemma loadAllOrgData_answers (orgId : string) (anio : Z) (env : PgStore.Env)
  (db : PgStore.Db N) :
  (forall k, PgStore.query_throws env k = false) ->
  PgStore.run (PgStore.loadAllOrgData orgId anio) env db
  = (Resolved
       {| PgStore.all_organization :=
            match PgStore.org_year_data db !! (orgId, anio, "organization"%string) with
            | Some (PgStore.DOrganization d) => Some d
            | _ => None
            end;
          PgStore.all_scope1_instalaciones_fijas :=
            match PgStore.org_year_data db
                  !! (orgId, anio, "scope1_instalaciones_fijas"%string) with
            | Some (PgStore.DScope1InstalacionesFijas d) => Some d
            | _ => None
            end;
          PgStore.all_scope1_vehiculos :=
            match PgStore.org_year_data db !! (orgId, anio, "scope1_vehiculos"%string) with
            | Some (PgStore.DScope1Vehiculos d) => Some d
            | _ => None
            end;
          PgStore.all_scope1_fugitivas :=
            match PgStore.org_year_data db !! (orgId, anio, "scope1_fugitivas"%string) with
            | Some (PgStore.DScope1Fugitivas d) => Some d
            | _ => None
            end;
          PgStore.all_scope1_proceso :=
            match PgStore.org_year_data db !! (orgId, anio, "scope1_proceso"%string) with
            | Some (PgStore.DScope1Proceso d) => Some d
            | _ => None
            end;
          PgStore.all_scope2_electricidad :=
            match PgStore.org_year_data db !! (orgId, anio, "scope2_electricidad"%string) with
            | Some (PgStore.DScope2Electricidad d) => Some d
            | _ => None
            end;
          PgStore.all_results :=
            match PgStore.org_year_data db !! (orgId, anio, "results"%string) with
            | Some (PgStore.DResults d) => Some d
            | _ => None
            end |}, db).
Proof.
  intros Hq.
  unfold PgStore.run, PgStore.loadAllOrgData, PgStore.loadOrganization,
    PgStore.loadScope1InstalacionesFijas, PgStore.loadScope1Vehiculos,
    PgStore.loadScope1Fugitivas, PgStore.loadScope1Proceso,
    PgStore.loadScope2Electricidad, PgStore.loadResults, PgStore.loadOrgData,
    PgStore.bind, PgStore.query, PgStore.ret.
  rewrite !Hq. reflexivity.
Qed.

(** X9. Round trip of the typed savers: after a typed save that
    resolves, [loadAllOrgData] of the same organisation and year gives
    what it gave before with the saved data, as JSON writes it, in the
    field of its kind; the row of that kind is the only one that
    changed; the data of every other organisation or year, and all
    sedes, read as before. *)
Theorem typed_save_then_load (orgId : string) (anio : Z) (d : Datos N)
  (env env2 : PgStore.Env) (db db' : PgStore.Db N) :
  PgStore.run (guardar orgId anio d) env db = (Resolved tt, db') ->
  (forall k, PgStore.query_throws env2 k = false) ->
  exists antes,
    PgStore.run (PgStore.loadAllOrgData orgId anio) env2 db = (Resolved antes, db) /\
    PgStore.run (PgStore.loadAllOrgData orgId anio) env2 db'
    = (Resolved (con_datos d antes), db') /\
    (forall key, key <> (orgId, anio, tipo_de d) ->
                 PgStore.org_year_data db' !! key = PgStore.org_year_data db !! key) /\
    (forall orgId' anio',
        (orgId', anio') <> (orgId, anio) ->
        (PgStore.run (PgStore.loadAllOrgData orgId' anio') env2 db').1
        = (PgStore.run (PgStore.loadAllOrgData orgId' anio') env2 db).1) /\
    (forall orgId' anio',
        (PgStore.run (PgStore.loadSedes orgId' anio') env2 db').1
        = (PgStore.run (PgStore.loadSedes orgId' anio') env2 db).1).
Proof.
  intros Hsave Hq.
  eexists. split; [apply loadAllOrgData_answers; exact Hq|].
  rewrite !loadAllOrgData_answers by exact Hq.
  assert (Hdb : exists data,
             db' = {| PgStore.org_year_data :=
                        <[(orgId, anio, tipo_de d) := PgStore.json_data data]>
                          (PgStore.org_year_data db);
                      PgStore.sedes := PgStore.sedes db;
                      PgStore.static_emission_factors := PgStore.static_emission_factors db;
                      PgStore.static_dropdowns := PgStore.static_dropdowns db;
                      PgStore._cache := None |} /\
             match d with
             | de_organizacion x => data = PgStore.DOrganization x
             | de_instalaciones_fijas x => data = PgStore.DScope1InstalacionesFijas x
             | de_vehiculos x => data = PgStore.DScope1Vehiculos x
             | de_fugitivas x => data = PgStore.DScope1Fugitivas x
             | de_proceso x => data = PgStore.DScope1Proceso x
             | de_electricidad x => data = PgStore.DScope2Electricidad x
             | de_resultados x => data = PgStore.DResults (map_Resultados JNum x)
             end).
  { destruct d; cbn in Hsave; apply upsertOrgData_resolved in Hsave;
      eexists; (split; [exact Hsave|reflexivity]). }
  destruct Hdb as (data & -> & Hdata).
  repeat match goal with |- _ /\ _ => split end.
  - f_equal. cbn [PgStore.org_year_data].
    destruct d; subst data; cbn;
      rewrite lookup_insert_eq, ?lookup_insert_ne by (intros [=]); reflexivity.
  - intros key Hne. cbn [PgStore.org_year_data].
    apply lookup_insert_ne. congruence.
  - intros orgId' anio' Hne.
    rewrite !loadAllOrgData_answers by exact Hq. cbn [fst PgStore.org_year_data].
    rewrite !lookup_insert_ne by congruence. reflexivity.
  - intros orgId' anio'.
    unfold PgStore.run, PgStore.loadSedes, PgStore.query. rewrite Hq. reflexivity.
Qed.

Lemma sede_leida_eq (r : PgStore.SedeRecord) :
  {| PgStore.sede_id := PgStore.sede_id r;
     PgStore.sede_nombre := PgStore.sede_nombre r;
     PgStore.direccion := PgStore.or_undefined (PgStore.direccion r) |}
  = sede_leida r.
Proof. destruct r as [id nombre [[|a s]|]]; reflexivity. Qed.

(** [insert_sedes] appends the sedes one by one and stops at the first
    INSERT that throws: when the queries [k], ..., [k + j - 1] answer,
    the first [j] sedes are in the table. *)
Lemma insert_sedes_prefix (orgId : string) (anio : Z) (l : list PgStore.SedeRecord)
  (env : PgStore.Env) (db : PgStore.Db N) (k j : nat) :
  (forall i, (i < j)%nat -> PgStore.query_throws env (k + i)%nat = false) ->
  ((j < length l)%nat -> PgStore.query_throws env (k + j)%nat = true) ->
  (j <= length l)%nat ->
  exists db',
    PgStore.insert_sedes orgId anio l env (db, k)
    = (if (j <? length l)%nat then Rejected QueryError else Resolved tt,
       (db', (k + (if (j <? length l)%nat then S j else j))%nat)) /\
    PgStore.org_year_data db' = PgStore.org_year_data db /\
    PgStore._cache db' = PgStore._cache db /\
    default [] (PgStore.sedes db' !! (orgId, anio))
    = default [] (PgStore.sedes db !! (orgId, anio)) ++ map sede_leida (take j l) /\
    (forall key, key <> (orgId, anio) ->
                 PgStore.sedes db' !! key = PgStore.sedes db !! key).
Proof.
  revert db k j. induction l as [|sede l IH]; intros db k j Hok Hthrow Hj.
  - cbn in Hj. assert (j = 0%nat) as -> by lia.
    exists db. cbn. rewrite Nat.add_0_r, app_nil_r. auto.
  - destruct j as [|j].
    + exists db. cbn [PgStore.insert_sedes length]. rewrite sede_leida_eq.
      unfold PgStore.bind, PgStore.query.
      rewrite Nat.add_0_r in Hthrow. rewrite Hthrow by (cbn; lia).
      cbn. rewrite app_nil_r. replace (k + 1)%nat with (S k) by lia. auto.
    + cbn [PgStore.insert_sedes]. rewrite sede_leida_eq.
      unfold PgStore.bind at 1. unfold PgStore.query at 1.
      specialize (Hok 0%nat ltac:(lia)) as Hk. rewrite Nat.add_0_r in Hk. rewrite Hk.
      destruct (IH (PgStore.with_sedes
                      (fun t => <[(orgId, anio) :=
                                    default [] (t !! (orgId, anio)) ++ [sede_leida sede]]> t) db)
                   (S k) j) as (db' & Hrun & Hdata & Hcache & Hsedes & Hother).
      * intros i Hi. replace (S k + i)%nat with (k + S i)%nat by lia. apply Hok. lia.
      * intros Hlt. replace (S k + j)%nat with (k + S j)%nat by lia.
        apply Hthrow. cbn. lia.
      * cbn in Hj. lia.
      * exists db'. rewrite Hrun. cbn [length].
        replace (S j <? S (length l))%nat with (j <? length l)%nat by reflexivity.
        repeat split; auto.
        { f_equal. f_equal. destruct (j <? length l)%nat; lia. }
        { rewrite Hsedes. cbn [PgStore.sedes PgStore.with_sedes].
          rewrite lookup_insert_eq. cbn [default take id map].
          rewrite <- app_assoc. reflexivity. }
        { intros key Hne. rewrite Hother by exact Hne.
          cbn [PgStore.sedes PgStore.with_sedes].
          apply lookup_insert_ne. congruence. }
Qed.

(** X10. [saveSedes] replaces: after it resolves, the table holds for
    the organisation and year exactly the saved sedes, in order, an
    empty address kept as absent, and [loadSedes] gives them; the sedes
    of the other organisations and years and the yearly data are as
    before. *)
Theorem saveSedes_replaces (orgId : string) (anio : Z) (data : list PgStore.SedeRecord)
  (env env2 : PgStore.Env) (db db' : PgStore.Db N) :
  PgStore.run (PgStore.saveSedes orgId anio data) env db = (Resolved tt, db') ->
  PgStore.query_throws env2 0%nat = false ->
  default [] (PgStore.sedes db' !! (orgId, anio)) = map sede_leida data /\
  PgStore.run (PgStore.loadSedes orgId anio) env2 db'
  = (Resolved (map sede_leida data), db') /\
  (forall key, key <> (orgId, anio) -> PgStore.sedes db' !! key = PgStore.sedes db !! key) /\
  PgStore.org_year_data db' = PgStore.org_year_data db.
Proof.
  unfold PgStore.run, PgStore.saveSedes. unfold PgStore.bind at 1.
  rewrite guardWrite_eq.
  destruct (FreeTierGuard.allowed _); [|discriminate].
  unfold PgStore.bind at 1. unfold PgStore.query at 1.
  destruct (PgStore.query_throws env 0%nat); [discriminate|].
  unfold PgStore.bind at 1.
  match goal with
  | |- context [PgStore.insert_sedes orgId anio data env (?d, 1%nat)] =>
      set (db0 := d);
      destruct (PgStore.insert_sedes orgId anio data env (db0, 1%nat))
        as [r [db1 k1]] eqn:Hins
  end.
  destruct r as [[]|e]; [|discriminate].
  unfold PgStore.invalidateCache. intros [= <-] Hq2.
  assert (Hall : forall j, (j <= length data)%nat ->
                           (forall i, (i < j)%nat ->
                                      PgStore.query_throws env (1 + i)%nat = false)).
  { induction j as [|j IHj]; intros Hj i Hi; [lia|].
    destruct (decide (i = j)) as [->|Hne]; [|apply IHj; lia].
    destruct (PgStore.query_throws env (1 + j)%nat) eqn:Hthrow; [|reflexivity].
    destruct (insert_sedes_prefix orgId anio data env db0 1 j)
      as (db2 & Hrun & _); [apply IHj; lia|auto|lia|].
    rewrite Hins in Hrun.
    destruct (Nat.ltb_spec j (length data)); [discriminate|lia]. }
  destruct (insert_sedes_prefix orgId anio data env db0 1 (length data))
    as (db2 & Hrun & Hdata & _ & Hsedes & Hother);
    [apply Hall; lia|lia|lia|].
  rewrite Hins in Hrun. rewrite Nat.ltb_irrefl in Hrun.
  injection Hrun as <- _.
  subst db0. cbn [PgStore.sedes PgStore.with_sedes PgStore.with_cache
                  PgStore.org_year_data] in *.
  rewrite lookup_delete_eq in Hsedes. cbn [default app] in Hsedes.
  rewrite firstn_all in Hsedes.
  repeat split.
  - exact Hsedes.
  - unfold PgStore.loadSedes, PgStore.query. rewrite Hq2.
    cbn [PgStore.sedes PgStore.with_cache]. rewrite Hsedes.
    do 2 f_equal. rewrite map_map. apply map_ext.
    intros r. rewrite sede_leida_eq.
    destruct r as [id nombre [[|a s]|]]; reflexivity.
  - intros key Hne. rewrite Hother by exact Hne.
    apply lookup_delete_ne. congruence.
  - exact Hdata.
Qed.

(** X11. [saveSedes] is not atomic: when the guard lets it pass, the
    DELETE and the first [j] INSERTs answer and the next INSERT throws,
    the call is rejected and the table is left with the first [j] new
    sedes only: the old ones are gone.  The cache is the one the
    measurement left: it is not invalidated. *)
Theorem saveSedes_is_not_atomic (orgId : string) (anio : Z)
  (data : list PgStore.SedeRecord) (env : PgStore.Env) (db : PgStore.Db N) (j : nat)
  (m : FreeTierGuard.SizeCache) (c : option FreeTierGuard.SizeCache) :
  FreeTierGuard.getDatabaseSize (PgStore.guard_env env) (PgStore._cache db) = (m, c) ->
  FreeTierGuard.bytes m < FreeTierGuard.HARD_LIMIT_BYTES ->
  FreeTierGuard.rows m < FreeTierGuard.MAX_ROWS ->
  (forall i, (i <= j)%nat -> PgStore.query_throws env i = false) ->
  PgStore.query_throws env (S j) = true ->
  (j < length data)%nat ->
  exists db',
    PgStore.run (PgStore.saveSedes orgId anio data) env db = (Rejected QueryError, db') /\
    default [] (PgStore.sedes db' !! (orgId, anio)) = map sede_leida (take j data) /\
    PgStore._cache db' = c.
Proof.
  intros Hm Hbytes Hrows Hok Hthrow Hj.
  destruct (checkWriteAllowed_passes _ _ _ _ Hm Hbytes Hrows) as [Hallowed Hcache0].
  unfold PgStore.run, PgStore.saveSedes. unfold PgStore.bind at 1.
  rewrite guardWrite_eq, Hallowed, Hcache0.
  unfold PgStore.bind at 1. unfold PgStore.query at 1.
  rewrite (Hok 0%nat) by lia.
  unfold PgStore.bind at 1.
  match goal with
  | |- context [PgStore.insert_sedes orgId anio data env (?d, 1%nat)] =>
      destruct (insert_sedes_prefix orgId anio data env d 1 j)
        as (db1 & Hrun & _ & Hcache & Hsedes & _)
  end.
  - intros i Hi. apply Hok. lia.
  - intros _. exact Hthrow.
  - lia.
  - rewrite Hrun. destruct (Nat.ltb_spec j (length data)); [|lia].
    exists db1. split; [reflexivity|]. split.
    + rewrite Hsedes. cbn [PgStore.sedes PgStore.with_sedes PgStore.with_cache].
      rewrite lookup_delete_eq. reflexivity.
    + rewrite Hcache. reflexivity.
Qed.

(** X12. [listOrgYears] answers the years for which the organisation
    has a row of any kind, each once, in strictly descending order, and
    leaves the database as it was. *)
Theorem listOrgYears_lists_the_years (orgId : string) (env : PgStore.Env)
  (db : PgStore.Db N) :
  PgStore.query_throws env 0%nat = false ->
  exists years,
    PgStore.run (PgStore.listOrgYears orgId) env db = (Resolved years, db) /\
    (forall anio, anio ∈ years <->
                  exists tipo, is_Some (PgStore.org_year_data db !! (orgId, anio, tipo))) /\
    NoDup years /\
    Sorted Z.gt years.
Proof.
  intros Hq. unfold PgStore.run, PgStore.listOrgYears, PgStore.query. rewrite Hq.
  eexists. split; [reflexivity|].
  match goal with
  | |- context [merge_sort Z.ge ?l] => set (years := l)
  end.
  assert (Hperm : merge_sort Z.ge years ≡ₚ years) by apply merge_sort_Permutation.
  assert (Hnodup : NoDup (merge_sort Z.ge years)).
  { rewrite Hperm. apply NoDup_remove_dups. }
  split; [intros year; split|split].
  - rewrite Hperm. subst years. rewrite elem_of_remove_dups, list_elem_of_omap.
    intros ([[[o a] t] d] & Hin & Hsome).
    apply elem_of_map_to_list in Hin. cbn in Hsome.
    destruct (decide (o = orgId)) as [->|]; [|discriminate].
    injection Hsome as ->. exists t. eexists. exact Hin.
  - intros (tipo & d & Hd).
    rewrite Hperm. subst years. rewrite elem_of_remove_dups, list_elem_of_omap.
    exists (orgId, year, tipo, d). split.
    + apply elem_of_map_to_list. exact Hd.
    + cbn. rewrite decide_True by reflexivity. reflexivity.
  - exact Hnodup.
  - apply descending_without_repeats; [|exact Hnodup].
    apply StronglySorted_merge_sort.
    + intros x y z. lia.
    + intros x y. lia.
Qed.

End StoreProperties.

Lemma getUsageInfo_agrees_with_guard_witness :
  exists u,
    FreeTierGuard.getUsageInfo (N := float) (env_at_hard_limit 0) None
    = (u, Some {| FreeTierGuard.bytes := 419430400; FreeTierGuard.rows := 12;
                  FreeTierGuard.checkedAt := 0 |}) /\
    FreeTierGuard.isBlocked u = true.
Proof.
  destruct (getUsageInfo_agrees_with_guard (N := float) (env_at_hard_limit 0) None _ _ eq_refl)
    as (u & Hu & _ & Hblocked & _).
  exists u. split; [exact Hu|].
  apply Hblocked. left. vm_compute. discriminate.
Defined.

Lemma blocked_write_changes_nothing_witness :
  exists rest,
    PgStore.saveSedes (N := float) "org_001" 2024 dos_sedes
      (entorno (env_at_hard_limit 0) (fun _ => false)) (db_con_una_sede, 0%nat)
    = (Rejected
         (FreeTierBlockedError
            (Lit "🚫 BLOQUEADO: La base de datos ha alcanzado " :: rest)),
       ({| PgStore.org_year_data := ∅;
           PgStore.sedes := PgStore.sedes (db_con_una_sede (N := float));
           PgStore.static_emission_factors := None;
           PgStore.static_dropdowns := None;
           PgStore._cache :=
             Some {| FreeTierGuard.bytes := 419430400; FreeTierGuard.rows := 12;
                     FreeTierGuard.checkedAt := 0 |} |}, 0%nat)).
Proof.
  destruct (blocked_write_changes_nothing (N := float)
              (entorno (env_at_hard_limit 0) (fun _ => false)) db_con_una_sede _ _ eq_refl)
    as (rest & _ & Hsedes & _).
  - left. vm_compute. discriminate.
  - exists rest. apply Hsedes.
Defined.

Lemma initializeOrgYear_never_overwrites_witness :
  PgStore.org_year_data
    (PgStore.run (PgStore.initializeOrgYear (N := float) "org_001" 2024)
       (entorno (env_below_hard_limit 0) (fun _ => false)) db_con_una_sede).2
  !! ("org_001"%string, 2024, "results"%string)
  = Some (PgStore.DResults
            (json_Resultados (map_Resultados JNum (resultados_a_cero 2024)))).
Proof.
  destruct (initializeOrgYear_never_overwrites (N := float) "org_001" 2024
              (entorno (env_below_hard_limit 0) (fun _ => false)) db_con_una_sede
              _ _ (surjective_pairing _)) as (_ & _ & _ & Hnew & _).
  apply Hnew; reflexivity.
Defined.

Lemma typed_save_then_load_witness :
  exists antes,
    (PgStore.run (PgStore.loadAllOrgData "org_001" 2024)
       (entorno (env_below_hard_limit 0) (fun _ => false))
       (PgStore.run
          (guardar (N := float) "org_001" 2024
             (de_resultados (resultados_con_total 2024 (lit 12.5))))
          (entorno (env_below_hard_limit 0) (fun _ => false)) db_con_una_sede).2).1
    = Resolved (con_datos (de_resultados (resultados_con_total 2024 (lit 12.5))) antes).
Proof.
  destruct (typed_save_then_load (N := float) "org_001" 2024
              (de_resultados (resultados_con_total 2024 (lit 12.5)))
              (entorno (env_below_hard_limit 0) (fun _ => false))
              (entorno (env_below_hard_limit 0) (fun _ => false))
              db_con_una_sede _ eq_refl (fun _ => eq_refl))
    as (antes & _ & Hload & _).
  exists antes. exact (f_equal fst Hload).
Defined.

Lemma saveSedes_replaces_witness :
  (PgStore.run (PgStore.loadSedes "org_001" 2024)
     (entorno (env_below_hard_limit 0) (fun _ => false))
     (PgStore.run (PgStore.saveSedes (N := float) "org_001" 2024 dos_sedes)
        (entorno (env_below_hard_limit 0) (fun _ => false)) db_con_una_sede).2).1
  = Resolved (map sede_leida dos_sedes).
Proof.
  destruct (saveSedes_replaces (N := float) "org_001" 2024 dos_sedes
              (entorno (env_below_hard_limit 0) (fun _ => false))
              (entorno (env_below_hard_limit 0) (fun _ => false))
              db_con_una_sede _ eq_refl eq_refl) as (_ & Hload & _).
  exact (f_equal fst Hload).
Defined.

Lemma saveSedes_is_not_atomic_witness :
  exists db',
    PgStore.run (PgStore.saveSedes (N := float) "org_001" 2024 dos_sedes)
      (entorno (env_below_hard_limit 0) (fun k => (k =? 2)%nat)) db_con_una_sede
    = (Rejected QueryError, db') /\
    default [] (PgStore.sedes db' !! ("org_001"%string, 2024))
    = map sede_leida (take 1 dos_sedes).
Proof.
  destruct (saveSedes_is_not_atomic (N := float) "org_001" 2024 dos_sedes
              (entorno (env_below_hard_limit 0) (fun k => (k =? 2)%nat))
              db_con_una_sede 1 _ _ eq_refl) as (db' & Hrun & Hsedes & _).
  - vm_compute. reflexivity.
  - vm_compute. reflexivity.
  - intros [|[|i]] Hi; [reflexivity|reflexivity|lia].
  - reflexivity.
  - cbn. lia.
  - exists db'. split; assumption.
Defined.

Lemma listOrgYears_lists_the_years_witness :
  exists years,
    PgStore.run (PgStore.listOrgYears "org_001")
      (entorno (env_below_hard_limit 0) (fun _ => false))
      (Runtime.pg (mundo_con_previo (N := float) (lit 100)))
    = (Resolved years, Runtime.pg (mundo_con_previo (lit 100))) /\
    2023 ∈ years.
Proof.
  destruct (listOrgYears_lists_the_years (N := float) "org_001"
              (entorno (env_below_hard_limit 0) (fun _ => false))
              (Runtime.pg (mundo_con_previo (lit 100))) eq_refl)
    as (years & Hrun & Hin & _).
  exists years. split; [exact Hrun|].
  apply Hin. exists "results"%string. eexists. reflexivity.
Defined.

(* ================================================================== *)
(** * The JSON store: further properties                              *)
(* ================================================================== *)

Section JsonProperties.
Context {N : Type} `{JsNumber N}.





End JsonProperties.


(* ================================================================== *)
(** * The CSV tables: further properties                              *)
(* ================================================================== *)

Section CsvProperties.
Context {N : Type} (papa : CsvHandler.Papa (CsvHandler.Obj N)).

Lemma writeCSV_texto {Row : Type} (p : CsvHandler.Papa Row) (tableName : string)
  (data : list Row) (store : CsvHandler.Store) :
  CsvHandler.writeCSV p tableName data store = <[tableName := texto_csv p data]> store.
Proof. destruct data; reflexivity. Qed.

Lemma id_is_tiene_id (id : string) (row : CsvHandler.Obj N) :
  CsvHandler.id_is id row = true <-> tiene_id id row.
Proof.
  unfold CsvHandler.id_is, tiene_id.
  destruct (row !! "id"%string) as [[x|s|b| |]|]; try (split; [discriminate|congruence]).
  rewrite String.eqb_eq. split; congruence.
Qed.

Lemma id_is_false (id : string) (row : CsvHandler.Obj N) :
  CsvHandler.id_is id row = false <-> ~ tiene_id id row.
Proof.
  rewrite <- id_is_tiene_id. destruct (CsvHandler.id_is id row); split; congruence.
Qed.

Lemma findIndex_None {A : Type} (p : A -> bool) (l : list A) :
  CsvHandler.findIndex p l = None <-> Forall (fun x => p x = false) l.
Proof.
  induction l as [|x l IH]; cbn; [split; [constructor|reflexivity]|].
  destruct (p x) eqn:Hx.
  - split; [discriminate|]. intros Hall. apply Forall_cons in Hall as [Hx' _]. congruence.
  - destruct (CsvHandler.findIndex p l); cbn.
    + split; [discriminate|]. intros Hall. apply Forall_cons in Hall as [_ Hl].
      apply IH in Hl. discriminate.
    + split; [|reflexivity]. intros _. constructor; [exact Hx|]. apply IH. reflexivity.
Qed.

Lemma findIndex_first {A : Type} (p : A -> bool) (pre post : list A) (row : A) :
  Forall (fun x => p x = false) pre -> p row = true ->
  CsvHandler.findIndex p (pre ++ row :: post) = Some (length pre) /\
  List.find p (pre ++ row :: post) = Some row.
Proof.
  intros Hpre Hrow. induction Hpre as [|x pre Hx _ IH]; cbn.
  - rewrite Hrow. split; reflexivity.
  - rewrite Hx. destruct IH as [-> ->]. split; reflexivity.
Qed.

Lemma find_None {A : Type} (p : A -> bool) (l : list A) :
  Forall (fun x => p x = false) l -> List.find p l = None.
Proof.
  induction 1 as [|x l Hx _ IH]; cbn; [reflexivity|]. rewrite Hx. exact IH.
Qed.

Lemma filter_sin_id (id : string) (data : list (CsvHandler.Obj N)) :
  sin_id id data (List.filter (fun row => negb (CsvHandler.id_is id row)) data).
Proof.
  induction data as [|row data IH]; cbn; [constructor|].
  destruct (CsvHandler.id_is id row) eqn:Hrow; cbn.
  - apply sin_id_drop; [apply id_is_tiene_id; exact Hrow|exact IH].
  - apply sin_id_keep; [apply id_is_false; exact Hrow|exact IH].
Qed.

Lemma filter_length_same (id : string) (data : list (CsvHandler.Obj N)) :
  (length (List.filter (fun row => negb (CsvHandler.id_is id row)) data)
   =? length data)%nat
  = forallb (fun row => negb (CsvHandler.id_is id row)) data.
Proof.
  induction data as [|row data IH]; [reflexivity|].
  pose proof (filter_length_le (fun row => negb (CsvHandler.id_is id row)) data) as Hle.
  cbn. destruct (CsvHandler.id_is id row); cbn.
  - apply Nat.eqb_neq. lia.
  - exact IH.
Qed.

(** X14. [deleteRow]: when no record of the table has the [id], it
    returns false and writes nothing; otherwise it returns true and
    writes the file of the table anew, as the text of the records
    without those whose [id] it is, in their order (the empty text if
    none is left); no other file is touched. *)
Theorem deleteRow_removes_every_match (tableName id : string)
  (store : CsvHandler.Store) :
  (Forall (fun row => ~ tiene_id id row) (registros papa tableName store) ->
   CsvHandler.deleteRow papa tableName id store = (false, store)) /\
  (Exists (tiene_id id) (registros papa tableName store) ->
   exists kept,
     sin_id id (registros papa tableName store) kept /\
     CsvHandler.deleteRow papa tableName id store
     = (true, <[tableName := texto_csv papa kept]> store)).
Proof.
  unfold CsvHandler.deleteRow.
  change (CsvHandler.readCSV papa tableName store) with (registros papa tableName store).
  rewrite filter_length_same, writeCSV_texto.
  split.
  - intros Hnone.
    assert (Hall : forallb (fun row => negb (CsvHandler.id_is id row))
                     (registros papa tableName store) = true).
    { apply forallb_forall. intros row Hin.
      apply List.Forall_forall with (x := row) in Hnone; [|exact Hin].
      apply id_is_false in Hnone. rewrite Hnone. reflexivity. }
    rewrite Hall. reflexivity.
  - intros Hsome. eexists. split; [apply filter_sin_id|].
    assert (Hall : forallb (fun row => negb (CsvHandler.id_is id row))
                     (registros papa tableName store) = false).
    { apply not_true_is_false. intros Hall.
      apply List.Exists_exists in Hsome as (row & Hin & Hrow).
      rewrite forallb_forall in Hall. specialize (Hall row Hin).
      apply id_is_tiene_id in Hrow. rewrite Hrow in Hall. discriminate. }
    rewrite Hall. reflexivity.
Qed.

(** X15. [updateRow] and [findById] act on the first record that has
    the [id].  When no record has it, [updateRow] returns [null] and
    writes nothing, and [findById] returns [null].  Otherwise
    [findById] returns that record, and [updateRow] returns it with
    the fields of [updates] over its own and writes the file of the
    table anew, as the text of the records with the merged one in its
    place. *)
Theorem updateRow_updates_first_match (tableName id : string)
  (updates : CsvHandler.Obj N) (store : CsvHandler.Store) :
  (Forall (fun row => ~ tiene_id id row) (registros papa tableName store) ->
   CsvHandler.updateRow papa tableName id updates store = (None, store) /\
   CsvHandler.findById papa tableName id store = None) /\
  (forall pre row post,
      registros papa tableName store = pre ++ row :: post ->
      Forall (fun r => ~ tiene_id id r) pre ->
      tiene_id id row ->
      CsvHandler.findById papa tableName id store = Some row /\
      exists merged,
        (forall k, merged !! k = match updates !! k with
                                 | Some v => Some v
                                 | None => row !! k
                                 end) /\
        CsvHandler.updateRow papa tableName id updates store
        = (Some merged,
           <[tableName := CsvHandler.unparse papa (pre ++ merged :: post)]> store)).
Proof.
  unfold CsvHandler.updateRow, CsvHandler.findById.
  change (CsvHandler.readCSV papa tableName store) with (registros papa tableName store).
  split.
  - intros Hnone.
    assert (Hall : Forall (fun x => CsvHandler.id_is id x = false)
                     (registros papa tableName store)).
    { eapply Forall_impl; [exact Hnone|]. intros row. apply id_is_false. }
    rewrite (proj2 (findIndex_None _ _) Hall), (find_None _ _ Hall). split; reflexivity.
  - intros pre row post Hdata Hpre Hrow. rewrite Hdata.
    assert (Hall : Forall (fun x => CsvHandler.id_is id x = false) pre).
    { eapply Forall_impl; [exact Hpre|]. intros r. apply id_is_false. }
    apply id_is_tiene_id in Hrow.
    destruct (findIndex_first (CsvHandler.id_is id) pre post row Hall Hrow) as [-> ->].
    split; [reflexivity|].
    exists (updates ∪ row). split.
    + intros k. rewrite lookup_union.
      destruct (updates !! k), (row !! k); reflexivity.
    + rewrite list_lookup_middle by reflexivity. cbn [default].
      rewrite insert_app_r_alt by lia. rewrite Nat.sub_diag. cbn [insert list_insert].
      rewrite list_lookup_middle by reflexivity.
      rewrite writeCSV_texto. f_equal. f_equal.
      destruct pre; reflexivity.
Qed.

End CsvProperties.

Section PageProperties.
Context {Row : Type} (papa : CsvHandler.Papa Row).

(** A slice between two indices that are not negative. *)
Lemma slice_inside {A : Type} (l : list A) (start end_ : Z) :
  0 <= start -> start <= end_ ->
  CsvHandler.slice start end_ l
  = take (Z.to_nat (end_ - start)) (drop (Z.to_nat start) l).
Proof.
  intros Hstart Hend. unfold CsvHandler.slice.
  destruct (Z.ltb_spec start 0); [lia|]. destruct (Z.ltb_spec end_ 0); [lia|].
  set (len := Z.of_nat (length l)).
  destruct (Z.le_gt_cases len start) as [Hout|Hin].
  - rewrite !drop_ge by lia. rewrite !take_nil. reflexivity.
  - rewrite (Z.min_l start len) by lia.
    destruct (Z.le_gt_cases end_ len) as [Hle|Hgt].
    + rewrite (Z.min_l end_ len) by lia. reflexivity.
    + rewrite (Z.min_r end_ len) by lia.
      rewrite !take_ge; [reflexivity| |]; rewrite length_drop; lia.
Qed.

(** Consecutive chunks of a list make up the list. *)
Lemma chunks_concat {A : Type} (s n : nat) (l : list A) :
  (0 < s)%nat -> (length l <= n * s)%nat ->
  concat ((fun i => take s (drop (i * s) l)) <$> seq 0 n) = l.
Proof.
  intros Hs. revert l. induction n as [|n IH]; intros l Hlen.
  - destruct l; [reflexivity|cbn in Hlen; lia].
  - cbn [seq fmap list_fmap concat]. rewrite <- fmap_S_seq, <- list_fmap_compose.
    etrans; [|apply (take_drop s l)]. f_equal.
    etrans; [|apply (IH (drop s l)); rewrite length_drop; lia].
    f_equal. apply list_fmap_ext. intros _ i _. unfold compose.
    rewrite drop_drop. reflexivity.
Qed.

(** X16. [paginatedRead], for a page size above 0: [total] is the
    number of records of the table that pass the filters; page [p >= 1]
    holds the records from position [(p - 1) * pageSize] on, at most
    [pageSize] of them; [totalPages] is the least number of pages that
    hold all the records, the pages beyond it are empty, and pages 1 to
    [totalPages] put together are the filtered records, each once and
    in order.  Page 0 is empty, and a negative page counts from the end
    of the list.  The files are only read. *)
Theorem paginatedRead_pages (tableName : string) (page pageSize : Z)
  (filters : option (Row -> bool)) (store : CsvHandler.Store) :
  0 < pageSize ->
  CsvHandler.pr_total (CsvHandler.paginatedRead papa tableName page pageSize filters store)
  = Z.of_nat (length (registros_filtrados papa tableName filters store)) /\
  CsvHandler.pr_page (CsvHandler.paginatedRead papa tableName page pageSize filters store)
  = page /\
  (1 <= page ->
   CsvHandler.pr_data (CsvHandler.paginatedRead papa tableName page pageSize filters store)
   = take (Z.to_nat pageSize)
       (drop (Z.to_nat ((page - 1) * pageSize))
          (registros_filtrados papa tableName filters store))) /\
  (exists pages,
      CsvHandler.pr_totalPages
        (CsvHandler.paginatedRead papa tableName page pageSize filters store)
      = Some pages /\
      Z.of_nat (length (registros_filtrados papa tableName filters store))
      <= pages * pageSize /\
      pages * pageSize
      < Z.of_nat (length (registros_filtrados papa tableName filters store)) + pageSize /\
      (pages < page ->
       CsvHandler.pr_data
         (CsvHandler.paginatedRead papa tableName page pageSize filters store)
       = []) /\
      concat ((fun p =>
                 CsvHandler.pr_data
                   (CsvHandler.paginatedRead papa tableName p pageSize filters store))
              <$> seqZ 1 pages)
      = registros_filtrados papa tableName filters store) /\
  (page = 0 ->
   CsvHandler.pr_data (CsvHandler.paginatedRead papa tableName page pageSize filters store)
   = []) /\
  (page < 0 ->
   (1 - page) * pageSize
   <= Z.of_nat (length (registros_filtrados papa tableName filters store)) ->
   CsvHandler.pr_data (CsvHandler.paginatedRead papa tableName page pageSize filters store)
   = take (Z.to_nat pageSize)
       (drop (Z.to_nat
                (Z.of_nat (length (registros_filtrados papa tableName filters store))
                 + (page - 1) * pageSize))
          (registros_filtrados papa tableName filters store))).
Proof.
  intros Hsize.
  assert (Hpage : forall p, 1 <= p ->
             CsvHandler.pr_data
               (CsvHandler.paginatedRead papa tableName p pageSize filters store)
             = take (Z.to_nat pageSize)
                 (drop (Z.to_nat ((p - 1) * pageSize))
                    (registros_filtrados papa tableName filters store))).
  { intros p Hp. unfold CsvHandler.paginatedRead. cbn [CsvHandler.pr_data].
    change (CsvHandler.readCSV papa tableName store) with (registros papa tableName store).
    fold (registros_filtrados papa tableName filters store).
    rewrite slice_inside by nia. f_equal. f_equal. lia. }
  assert (Hpages : CsvHandler.pr_totalPages
                     (CsvHandler.paginatedRead papa tableName page pageSize filters store)
                   = Some (- (- Z.of_nat (length (registros_filtrados papa tableName
                                                     filters store)) / pageSize))).
  { unfold CsvHandler.paginatedRead. cbn [CsvHandler.pr_totalPages].
    destruct (Z.eqb_spec pageSize 0) as [|_]; [lia|]. reflexivity. }
  assert (Hslice : CsvHandler.pr_data
                     (CsvHandler.paginatedRead papa tableName page pageSize filters store)
                   = CsvHandler.slice ((page - 1) * pageSize)
                       ((page - 1) * pageSize + pageSize)
                       (registros_filtrados papa tableName filters store)) by reflexivity.
  set (data := registros_filtrados papa tableName filters store) in *.
  set (total := Z.of_nat (length data)) in *.
  assert (Htotal : 0 <= total) by (unfold total; lia).
  split; [reflexivity|]. split; [reflexivity|].
  split; [apply Hpage|]. split; [|split].
  - exists (- (- total / pageSize)). split; [exact Hpages|].
    pose proof (Z.div_mod (- total) pageSize ltac:(lia)) as Hdm.
    pose proof (Z.mod_pos_bound (- total) pageSize Hsize) as Hmod.
    set (pages := - (- total / pageSize)) in *.
    assert (Hle : total <= pages * pageSize) by (unfold pages; nia).
    assert (Hlt : pages * pageSize < total + pageSize) by (unfold pages; nia).
    repeat split; [exact Hle|exact Hlt| |].
    + intros Hbeyond. rewrite Hpage by nia.
      rewrite drop_ge; [apply take_nil|].
      assert (total <= (page - 1) * pageSize) by nia.
      unfold total in *. lia.
    + assert (Hpos : 0 <= pages) by nia.
      unfold seqZ. rewrite <- !list_fmap_compose.
      etrans; [|apply (chunks_concat (Z.to_nat pageSize) (Z.to_nat pages) data);
                 [lia|unfold total in *; nia]].
      f_equal. apply list_fmap_ext. intros _ i _. unfold compose.
      rewrite Hpage by lia. do 2 f_equal. nia.
  - intros Hzero. rewrite Hslice, Hzero. unfold CsvHandler.slice.
    destruct (Z.ltb_spec ((0 - 1) * pageSize) 0); [|lia].
    destruct (Z.ltb_spec ((0 - 1) * pageSize + pageSize) 0); [lia|].
    fold total. replace (Z.to_nat (Z.min ((0 - 1) * pageSize + pageSize) total
                                   - Z.max (total + (0 - 1) * pageSize) 0))
      with 0%nat by lia.
    reflexivity.
  - intros Hneg Hfits. rewrite Hslice. unfold CsvHandler.slice. fold total.
    destruct (Z.ltb_spec ((page - 1) * pageSize) 0); [|nia].
    destruct (Z.ltb_spec ((page - 1) * pageSize + pageSize) 0); [|nia].
    f_equal; [|f_equal]; lia.
Qed.

End PageProperties.

Lemma paginatedRead_pages_witness :
  CsvHandler.pr_data
    (CsvHandler.paginatedRead papa_de_cinco "tabla" 2 2 None store_de_cinco)
  = [3; 4].
Proof.
  rewrite (proj1 (proj2 (proj2 (paginatedRead_pages papa_de_cinco "tabla" 2 2 None
                                  store_de_cinco eq_refl)))) by lia.
  vm_compute. reflexivity.
Defined.

(* ================================================================== *)
(** * The orchestrator and the audit agent: further properties        *)
(* ================================================================== *)

Section OrchestratorProperties.
Context {N : Type} `{JsNumber N}.

(** X17. No change event reaches the calculation: [validate] reads
    the emission factors off a Promise that it has not awaited, so the
    validation never comes out valid, and [onDataChange] always
    rejects, with the calculation agent not entered and the JSON files
    as they were. *)
Theorem onDataChange_never_recalculates (event : DataChangeEvent N)
  (w : Runtime.World N) :
  (exists e, (Orchestrator.onDataChange event w).1 = Rejected e) /\
  Runtime.trace (Orchestrator.onDataChange event w).2
  = Runtime.trace w ++ [Runtime.AuditAgent_logged; Runtime.ValidationAgent_validate] /\
  Runtime.files (Orchestrator.onDataChange event w).2 = Runtime.files w /\
  Runtime.pg (Orchestrator.onDataChange event w).2 = Runtime.pg w.
Proof.
  rewrite onDataChange_outcome.
  destruct (log_appends (entrada_de_cambio event) w)
    as (_ & _ & Htrace & Hfiles & Hpg & _).
  assert (Hw : Runtime.trace (mundo_tras_validar event w)
               = Runtime.trace w
                 ++ [Runtime.AuditAgent_logged; Runtime.ValidationAgent_validate] /\
               Runtime.files (mundo_tras_validar event w) = Runtime.files w /\
               Runtime.pg (mundo_tras_validar event w) = Runtime.pg w).
  { unfold mundo_tras_validar.
    cbn [Runtime.trace Runtime.files Runtime.pg Runtime.with_trace].
    rewrite Htrace, Hfiles, Hpg, <- app_assoc. repeat split. }
  destruct (ValidationAgent.validate_with _ _ event); cbn [fst snd];
    (split; [eexists; reflexivity|exact Hw]).
Qed.

(** X18. How [onDataChange] rejects.  For a year from 2007 to 2027 it
    is a [TypeError]: [anios_disponibles] is read off the Promise.  For
    a year outside that range the year check does not look at the
    factors and gives an error entry for [anio]; then a string value of
    the field [tipo_combustible] makes the check of the fuel read
    [tipos_combustible] off the other Promise, a [TypeError] again, and
    every other event is rejected with the [ValidationError] whose list
    starts with the entry for [anio]. *)
Theorem onDataChange_rejection_kinds (event : DataChangeEvent N) (w : Runtime.World N) :
  (2007 <= anio event <= 2027 ->
   exists what, (Orchestrator.onDataChange event w).1 = Rejected (TypeError what)) /\
  (anio event < 2007 \/ 2027 < anio event ->
   field event = "tipo_combustible"%string ->
   (exists s, newValue event = JsStr s) ->
   exists what, (Orchestrator.onDataChange event w).1 = Rejected (TypeError what)) /\
  (anio event < 2007 \/ 2027 < anio event ->
   field event <> "tipo_combustible"%string \/ (forall s, newValue event <> JsStr s) ->
   exists e rest,
     (Orchestrator.onDataChange event w).1 = Rejected (ValidationError (e :: rest)) /\
     ve_field e = "anio"%string /\ severity e = error).
Proof.
  rewrite onDataChange_outcome.
  split; [|split].
  - intros Hrange. rewrite validate_with_promise_in_range by exact Hrange.
    eexists. reflexivity.
  - intros Hout Hfield (s & Hs).
    unfold ValidationAgent.validate_with.
    destruct (check_anio_out_of_range
                (ValidationAgent.RPromise (PgStore.loadEmissionFactors (Runtime.pg w)))
                event Hout) as (e & -> & _).
    unfold ValidationAgent.check_tipo_combustible. rewrite Hs, Hfield.
    cbn. eexists. reflexivity.
  - intros Hout Hother.
    unfold ValidationAgent.validate_with.
    destruct (check_anio_out_of_range
                (ValidationAgent.RPromise (PgStore.loadEmissionFactors (Runtime.pg w)))
                event Hout) as (e & -> & Hsev & Hfield).
    assert (Htipo : ValidationAgent.check_tipo_combustible
                      (ValidationAgent.RPromise (PgStore.loadDropdowns (Runtime.pg w)))
                      event = Resolved []).
    { unfold ValidationAgent.check_tipo_combustible.
      destruct (newValue event) as [x|s|b| |] eqn:Hval; try reflexivity.
      destruct (String.eqb_spec (field event) "tipo_combustible") as [Heq|Hne];
        [|reflexivity].
      destruct Hother as [Hne|Hnot]; [contradiction|]. destruct (Hnot s eq_refl). }
    rewrite Htipo. cbn [fst app].
    exists e. eexists. split; [reflexivity|]. split; assumption.
Qed.


(** X20. [onCalculate] never writes to the database.  When the load of
    the prior year's results throws, it rejects with that error after
    the audit row of the calculation has been written and the
    recalculated results have been saved: what it did before stays
    done. *)
Theorem onCalculate_never_writes_the_database (userId orgId : string) (anio : Z)
  (w : Runtime.World N) :
  Runtime.pg (Orchestrator.onCalculate userId orgId anio w).2 = Runtime.pg w /\
  (PgStore.query_throws (Runtime.pg_env w) 0%nat = true ->
   (Orchestrator.onCalculate userId orgId anio w).1 = Rejected QueryError /\
   Runtime.files (Orchestrator.onCalculate userId orgId anio w).2
   = (CalcAgent.recalculate
        {| CalcAgent.rp_orgId := orgId; CalcAgent.rp_anio := anio;
           CalcAgent.rp_scope := Some both |} (Runtime.files w)).2 /\
   Runtime.store (Orchestrator.onCalculate userId orgId anio w).2
   = <["audit_log"%string :=
         CsvHandler.unparse (Runtime.papa w)
           (registros_de_auditoria w
            ++ [fila_de_accion (Runtime.uuids w (Runtime.drawn w)) userId orgId
                  CALCULATE "results" "" (Runtime.date_iso w)])]>
       (Runtime.store w) /\
   Runtime.trace (Orchestrator.onCalculate userId orgId anio w).2
   = Runtime.trace w
     ++ [Runtime.AuditAgent_logged; Runtime.CalcAgent_recalculate;
         Runtime.Orchestrator_checkThresholds]).
Proof.
  remember (Orchestrator.onCalculate userId orgId anio w) as X eqn:HX.
  unfold Orchestrator.onCalculate, Runtime.get in HX.
  unfold Runtime.bind at 1 in HX. cbv beta iota in HX.
  unfold Runtime.bind at 1 in HX.
  match type of HX with
  | context [AuditAgent.log ?e w] =>
      destruct (log_appends e w)
        as (Hres & Hstore & Htrace & Hfiles & Hpg & _ & Henv & _);
      destruct (AuditAgent.log e w) as [r1 w1]
  end.
  destruct w1 as [files1 store1 papa1 pg1 pg_env1 uuids1 drawn1 date_iso1 trace1].
  cbn [fst snd Runtime.store Runtime.trace Runtime.files Runtime.pg Runtime.pg_env]
    in Hres, Hstore, Htrace, Hfiles, Hpg, Henv.
  subst r1 store1 trace1 files1 pg1 pg_env1.
  unfold Orchestrator.recalculate, Orchestrator.checkThresholds,
    Runtime.bind, Runtime.record, Runtime.modify,
    Runtime.call_pg, Runtime.ret, PgStore.run, PgStore.loadResults,
    PgStore.bind, PgStore.loadOrgData, PgStore.query, PgStore.ret in HX.
  cbn [Runtime.pg_env Runtime.pg Runtime.files Runtime.trace Runtime.store
       Runtime.with_trace Runtime.with_files Runtime.with_pg fst snd id] in HX.
  destruct (CalcAgent.recalculate _ (Runtime.files w)) as [r fs] eqn:Hrec.
  cbn [Runtime.pg_env Runtime.pg Runtime.files Runtime.trace Runtime.store
       Runtime.with_trace Runtime.with_files Runtime.with_pg fst snd id] in HX |- *.
  destruct (PgStore.query_throws (Runtime.pg_env w) 0%nat) eqn:Hq.
  - subst X. cbn. rewrite <- !app_assoc. repeat split.
  - split; [|discriminate].
    destruct (PgStore.org_year_data (Runtime.pg w) !! (orgId, anio - 1, "results"%string))
      as [[| | | | | |previousResults]|];
      repeat case_match; simplify_eq; reflexivity.
Qed.

End OrchestratorProperties.

(* ================================================================== *)
(** * The calculation agent: further properties                       *)
(* ================================================================== *)

Section RecalculateProperties.
Context {N : Type} `{JsNumber N}.


(** The divisors of the ratios. *)
Lemma or_else_divisor (a : option (JsonNumber N)) : or_else a (lit 1) = divisor a.
Proof. destruct a as [[x| |]|]; reflexivity. Qed.

(** The ratios that [recalculate] returns, on the total in tonnes and
    their divisors. *)
Lemma recalculate_ratios (params : CalcAgent.RecalculateParams) (fs : JsonStore.Files N) :
  ratios (CalcAgent.recalculate params fs).1
  = {| t_co2e_por_empleado :=
         (Math_round
            ((total_t params fs
              / divisor (num_empleados <$>
                           JsonStore.loadOrganization (CalcAgent.rp_orgId params)
                             (CalcAgent.rp_anio params) fs)) * lit 1000)
          / lit 1000)%js;
       t_co2e_por_m2 :=
         (Math_round
            ((total_t params fs
              / divisor (superficie_m2 <$>
                           JsonStore.loadOrganization (CalcAgent.rp_orgId params)
                             (CalcAgent.rp_anio params) fs)) * lit 10000)
          / lit 10000)%js;
       t_co2e_por_indice_actividad :=
         (Math_round
            ((total_t params fs
              / divisor (valor <$>
                           (JsonStore.loadOrganization (CalcAgent.rp_orgId params)
                              (CalcAgent.rp_anio params) fs ≫= indice_actividad)))
             * lit 1000000)
          / lit 1000000)%js |}.
Proof.
  pose proof (recalculate_cifras params fs) as Hcifras.
  unfold CalcAgent.recalculate. cbn [fst ratios].
  rewrite !or_else_divisor.
  unfold total_t, total_alcance1_kg, total_alcance2_kg, kg_no_ley, kg_ley,
    kg_carretera, kg_no_carretera, kg_maquinaria, kg_fugitivas, kg_proceso,
    kg_edificios, kg_vehiculos_electricos, kg_calor_vapor_frio.
  unfold CalcAgent.calcularAlcance1InstalacionesFijas,
    CalcAgent.calcularAlcance1Vehiculos, CalcAgent.calcularAlcance1Fugitivas,
    CalcAgent.calcularAlcance1Proceso, CalcAgent.calcularAlcance2.
  destruct (JsonStore.loadScope1InstalacionesFijas _ _ fs);
    destruct (JsonStore.loadScope1Vehiculos _ _ fs);
    destruct (JsonStore.loadScope1Fugitivas _ _ fs);
    destruct (JsonStore.loadScope1Proceso _ _ fs);
    destruct (JsonStore.loadScope2Electricidad _ _ fs);
    cbn [CalcAgent.no_ley_kg CalcAgent.ley_kg CalcAgent.carretera_kg
         CalcAgent.no_carretera_kg CalcAgent.maquinaria_kg
         CalcAgent.edificios_kg CalcAgent.vehiculos_kg
         CalcAgent.calor_vapor_frio_kg];
    rewrite ?reduce_sum_suma_kg; reflexivity.
Qed.

End RecalculateProperties.

(** In binary64 a divisor is never 0 and never NaN. *)
Lemma divisor_binary64 (declarado : option (JsonNumber float)) :
  PrimFloat.eqb (divisor declarado) 0 = false /\
  PrimFloat.eqb (divisor declarado) (divisor declarado) = true.
Proof.
  destruct declarado as [[x| |]|]; cbn [divisor]; try (split; reflexivity).
  destruct (truthy x) eqn:Hx; [|split; reflexivity].
  cbn [truthy Float64.number] in Hx.
  apply andb_prop in Hx as [Hzero Hself].
  apply negb_true_iff in Hzero.
  split; assumption.
Qed.

(** X22. The ratios never divide by zero.  Each is the combined total
    in tonnes, before it is rounded, divided by its divisor and then
    rounded to 3, 4 and 6 decimals with [Math.round]; the divisor is
    the number of employees, the surface or the value of the activity
    index that the organisation declares, when that is a number other
    than 0 and NaN, and 1 in every other case: no organisation, no
    figure, [null], 0.  In binary64 no divisor is 0 or NaN.  With totals
    of 2000 kg, no employees declared, 250 m2 and an activity index of
    0, the ratios are 2, 0.008 and 2. *)
Theorem ratios_never_divide_by_zero :
  (forall (N : Type) (number : JsNumber N)
          (params : CalcAgent.RecalculateParams) (fs : JsonStore.Files N),
     exists por_empleado por_m2 por_indice : N,
       ratios (CalcAgent.recalculate params fs).1
       = {| t_co2e_por_empleado :=
              (Math_round ((total_t params fs / por_empleado) * lit 1000) / lit 1000)%js;
            t_co2e_por_m2 :=
              (Math_round ((total_t params fs / por_m2) * lit 10000) / lit 10000)%js;
            t_co2e_por_indice_actividad :=
              (Math_round ((total_t params fs / por_indice) * lit 1000000)
               / lit 1000000)%js |} /\
       match JsonStore.loadOrganization (CalcAgent.rp_orgId params)
               (CalcAgent.rp_anio params) fs with
       | None => por_empleado = lit 1 /\ por_m2 = lit 1 /\ por_indice = lit 1
       | Some org =>
           por_empleado = divisor (Some (num_empleados org)) /\
           por_m2 = divisor (Some (superficie_m2 org)) /\
           por_indice = divisor (valor <$> indice_actividad org)
       end) /\
  (forall declarado : option (JsonNumber float),
     PrimFloat.eqb (divisor declarado) 0 = false /\
     PrimFloat.eqb (divisor declarado) (divisor declarado) = true) /\
  ratios (CalcAgent.recalculate params_org_001_2024 (files_sin_plantilla (N := float))).1
  = {| t_co2e_por_empleado := 2%float;
       t_co2e_por_m2 := 0.008%float;
       t_co2e_por_indice_actividad := 2%float |}.
Proof.
  split; [|split].
  - intros N number params fs.
    do 3 eexists. split; [apply recalculate_ratios|].
    destruct (JsonStore.loadOrganization _ _ fs) as [org|]; repeat split.
  - apply divisor_binary64.
  - vm_compute. reflexivity.
Qed.

(** X23. Without any record of emissions (each data set missing, or
    holding empty lists only), the thirteen figures that [recalculate]
    returns are 0 in binary64, and the year is the one asked for. *)
Theorem recalculate_without_records (params : CalcAgent.RecalculateParams)
  (fs : JsonStore.Files float) :
  sin_registros (CalcAgent.rp_orgId params) (CalcAgent.rp_anio params) fs ->
  anio_calculo (CalcAgent.recalculate params fs).1 = CalcAgent.rp_anio params /\
  Forall (fun cifra => cifra = 0%float) (cifras_y_sumas params fs).*1.
Proof.
  intros (Hfijas & Hvehiculos & Hfugitivas & Hproceso & Halcance2).
  split; [reflexivity|].
  pose proof (recalculate_cifras params fs) as Hcifras.
  assert (Hkg : Forall (fun kg => kg = 0%float) (cifras_y_sumas params fs).*2).
  { unfold cifras_y_sumas, total_alcance1_kg, total_alcance2_kg, kg_no_ley, kg_ley,
      kg_carretera, kg_no_carretera, kg_maquinaria, kg_fugitivas, kg_proceso,
      kg_edificios, kg_vehiculos_electricos, kg_calor_vapor_frio.
    cbn [fmap list_fmap snd].
    destruct (JsonStore.loadScope1InstalacionesFijas _ _ fs) as [d1|];
      [destruct (Hfijas d1 eq_refl) as [-> ->]|];
      (destruct (JsonStore.loadScope1Vehiculos _ _ fs) as [d2|];
       [destruct (Hvehiculos d2 eq_refl) as (-> & -> & -> & ->)|]);
      (destruct (JsonStore.loadScope1Fugitivas _ _ fs) as [d3|];
       [destruct (Hfugitivas d3 eq_refl) as [-> ->]|]);
      (destruct (JsonStore.loadScope1Proceso _ _ fs) as [d4|];
       [rewrite (Hproceso d4 eq_refl)|]);
      (destruct (JsonStore.loadScope2Electricidad _ _ fs) as [d5|];
       [destruct (Halcance2 d5 eq_refl) as (-> & -> & ->)|]);
      repeat constructor. }
  revert Hcifras Hkg.
  generalize (cifras_y_sumas params fs).
  induction l as [|[cifra kg] l IH]; cbn [fmap list_fmap fst snd];
    intros Hcifras Hkg; [constructor|].
  apply Forall_cons in Hcifras as [Hcifra Hcifras].
  apply Forall_cons in Hkg as [Hkg0 Hkg].
  constructor; [|apply IH; assumption].
  cbn in Hkg0. subst. vm_compute. reflexivity.
Qed.

Lemma recalculate_without_records_witness :
  Forall (fun cifra => cifra = 0%float)
    (cifras_y_sumas params_org_001_2024 (JsonStore.empty (N := float))).*1.
Proof.
  refine (proj2 (recalculate_without_records params_org_001_2024 JsonStore.empty _)).
  unfold sin_registros.
  repeat match goal with |- _ /\ _ => split end;
    intros d Hd; vm_compute in Hd; discriminate Hd.
Defined.

(* ================================================================== *)
(** * The validation agent: further properties                        *)
(* ================================================================== *)

Lemma is_upper_spec (c : ascii) : ValidationAgent.is_upper c = true <-> es_mayuscula c.
Proof.
  unfold ValidationAgent.is_upper, es_mayuscula.
  rewrite andb_true_iff, !Nat.leb_le. tauto.
Qed.

Lemma is_digit_spec (c : ascii) : ValidationAgent.is_digit c = true <-> es_cifra c.
Proof.
  unfold ValidationAgent.is_digit, es_cifra.
  rewrite andb_true_iff, !Nat.leb_le. tauto.
Qed.

(** The regular expression accepts the CIFs and NIFs, and nothing
    else. *)
Lemma cif_nif_test_spec (s : string) :
  ValidationAgent.cif_nif_test s = true <-> es_cif_nif s.
Proof.
  unfold ValidationAgent.cif_nif_test, es_cif_nif.
  split.
  - destruct (list_ascii_of_string s)
      as [|c1 [|c2 [|c3 [|c4 [|c5 [|c6 [|c7 [|c8 [|c9 [|c10 l]]]]]]]]]];
      try discriminate.
    intros Htest. apply orb_true_iff in Htest as [Htest|Htest];
      cbn [forallb] in Htest.
    1: apply andb_prop in Htest as [Hletra Htest].
    2: apply andb_prop in Htest as [Htest Hletra].
    all: repeat (apply andb_prop in Htest as [? Htest]);
      repeat match goal with
             | H : ValidationAgent.is_upper _ = true |- _ => apply is_upper_spec in H
             | H : ValidationAgent.is_digit _ = true |- _ => apply is_digit_spec in H
             end.
    + exists c1, [c2; c3; c4; c5; c6; c7; c8; c9].
      split; [reflexivity|].
      split; [repeat (apply Forall_cons_2; [assumption|]); apply Forall_nil_2|].
      split; [assumption|]. left. reflexivity.
    + exists c9, [c1; c2; c3; c4; c5; c6; c7; c8].
      split; [reflexivity|].
      split; [repeat (apply Forall_cons_2; [assumption|]); apply Forall_nil_2|].
      split; [assumption|]. right. reflexivity.
  - intros (letra & cifras & Hlen & Hcifras & Hletra & Hs).
    destruct cifras as [|d1 [|d2 [|d3 [|d4 [|d5 [|d6 [|d7 [|d8 [|d9 l]]]]]]]]];
      try discriminate Hlen.
    repeat match goal with
           | H : Forall _ (_ :: _) |- _ => apply Forall_cons in H as [? H]
           end.
    apply is_upper_spec in Hletra.
    repeat match goal with
           | H : es_cifra _ |- _ => apply is_digit_spec in H
           end.
    destruct Hs as [-> | ->]; cbn [app forallb];
      repeat match goal with
             | H : _ = true |- _ => rewrite H; clear H
             end;
      cbn; rewrite ?orb_true_r; reflexivity.
Qed.

(** In binary64 the numbers that are neither 0 nor NaN and are above 0
    are the numbers above 0. *)
Lemma positive_binary64 (x : float) :
  truthy x = true /\ ltb (lit 0) x = true <-> PrimFloat.ltb 0 x = true.
Proof.
  cbn [truthy ltb lit Float64.number].
  change (Float64.of_Q 0) with 0%float.
  split; [tauto|]. intros Hlt. split; [|exact Hlt].
  rewrite !FloatAxioms.eqb_spec. rewrite FloatAxioms.ltb_spec in Hlt.
  change (Prim2SF 0) with (S754_zero false) in *.
  destruct (Prim2SF x) as [s|s| |s m e]; try discriminate Hlt.
  - destruct s; [discriminate Hlt|reflexivity].
  - destruct s; [discriminate Hlt|]. cbn.
    rewrite Z.compare_refl, Pos.compare_refl. reflexivity.
Qed.

Section OrganizationProperties.
Context {N : Type} `{JsNumber N}.

Lemma not_string_blank (s : option string) :
  ValidationAgent.not_string s || trim_is_empty (list_ascii_of_string (default "" s)) = false
  <-> exists t, s = Some t /\ trim_is_empty (list_ascii_of_string t) = false.
Proof.
  destruct s as [[|c t]|]; cbn [ValidationAgent.not_string default orb].
  - split; [discriminate|]. intros (t & [= <-] & Ht). discriminate.
  - split; [intros Ht; eexists; split; [reflexivity|exact Ht]|].
    intros (t' & [= <-] & Ht). exact Ht.
  - split; [discriminate|]. intros (t & Ht & _). discriminate.
Qed.

Lemma not_string_cif (s : option string) :
  ValidationAgent.not_string s || negb (ValidationAgent.cif_nif_test (default "" s)) = false
  <-> exists t, s = Some t /\ es_cif_nif t.
Proof.
  destruct s as [[|c t]|]; cbn [ValidationAgent.not_string default orb].
  - split; [discriminate|]. intros (t & [= <-] & Ht).
    apply cif_nif_test_spec in Ht. discriminate.
  - rewrite negb_false_iff, cif_nif_test_spec.
    split; [intros Ht; eexists; split; [reflexivity|exact Ht]|].
    intros (t' & [= <-] & Ht). exact Ht.
  - split; [discriminate|]. intros (t & Ht & _). discriminate.
Qed.

Lemma not_positive_spec (x : option N) :
  ValidationAgent.not_positive x = false
  <-> exists y, x = Some y /\ truthy y = true /\ ltb (lit 0) y = true.
Proof.
  destruct x as [x|]; cbn [ValidationAgent.not_positive].
  - rewrite orb_false_iff, !negb_false_iff. split.
    + intros [Ht Hl]. exists x. auto.
    + intros (y & [= <-] & Ht & Hl). auto.
  - split; [discriminate|]. intros (y & Hy & _). discriminate.
Qed.

(** The outcome of [validateOrganization], by the four checks. *)
Lemma validateOrganization_eq (data : ValidationAgent.OrganizationData N) :
  exists b1 b2 b3 b4 : bool,
    (b1 = false <->
     exists s, ValidationAgent.od_nombre data = Some s /\
               trim_is_empty (list_ascii_of_string s) = false) /\
    (b2 = false <->
     exists s, ValidationAgent.od_cif_nif data = Some s /\ es_cif_nif s) /\
    (b3 = false <->
     exists x, ValidationAgent.od_num_empleados data = Some x /\
               truthy x = true /\ ltb (lit 0) x = true) /\
    (b4 = false <->
     exists x, ValidationAgent.od_superficie_m2 data = Some x /\
               truthy x = true /\ ltb (lit 0) x = true) /\
    ve_field <$> errors (ValidationAgent.validateOrganization data)
    = (if b1 then ["nombre"%string] else [])
      ++ (if b2 then ["cif_nif"%string] else [])
      ++ (if b3 then ["num_empleados"%string] else [])
      ++ (if b4 then ["superficie_m2"%string] else []) /\
    Forall (fun e => severity e = error)
      (errors (ValidationAgent.validateOrganization data)) /\
    isValid (ValidationAgent.validateOrganization data)
    = negb b1 && negb b2 && negb b3 && negb b4.
Proof.
  unfold ValidationAgent.validateOrganization.
  eexists _, _, _, _.
  split; [apply not_string_blank|]. split; [apply not_string_cif|].
  split; [apply not_positive_spec|]. split; [apply not_positive_spec|].
  destruct (ValidationAgent.not_string (ValidationAgent.od_nombre data) || _);
    destruct (ValidationAgent.not_string (ValidationAgent.od_cif_nif data) || _);
    destruct (ValidationAgent.not_positive (ValidationAgent.od_num_empleados data));
    destruct (ValidationAgent.not_positive (ValidationAgent.od_superficie_m2 data));
    cbn; repeat split; repeat constructor.
Qed.

End OrganizationProperties.

Lemma campos_de_error (b1 b2 b3 b4 : bool) :
  ("nombre"%string ∈ (if b1 then ["nombre"%string] else [])
      ++ (if b2 then ["cif_nif"%string] else [])
      ++ (if b3 then ["num_empleados"%string] else [])
      ++ (if b4 then ["superficie_m2"%string] else []) <-> b1 = true) /\
  ("cif_nif"%string ∈ (if b1 then ["nombre"%string] else [])
      ++ (if b2 then ["cif_nif"%string] else [])
      ++ (if b3 then ["num_empleados"%string] else [])
      ++ (if b4 then ["superficie_m2"%string] else []) <-> b2 = true) /\
  ("num_empleados"%string ∈ (if b1 then ["nombre"%string] else [])
      ++ (if b2 then ["cif_nif"%string] else [])
      ++ (if b3 then ["num_empleados"%string] else [])
      ++ (if b4 then ["superficie_m2"%string] else []) <-> b3 = true) /\
  ("superficie_m2"%string ∈ (if b1 then ["nombre"%string] else [])
      ++ (if b2 then ["cif_nif"%string] else [])
      ++ (if b3 then ["num_empleados"%string] else [])
      ++ (if b4 then ["superficie_m2"%string] else []) <-> b4 = true).
Proof.
  rewrite !elem_of_app.
  assert (Hin : forall (x y : string) (b : bool),
             x ∈ (if b then [y] else []) <-> b = true /\ x = y).
  { intros x y [|]; [rewrite list_elem_of_singleton|rewrite elem_of_nil]; intuition congruence. }
  rewrite !Hin.
  repeat split; intros; intuition (try discriminate; auto).
Qed.

(** X24. [validateOrganization] accepts exactly the organisations with
    a name that is not blank, a CIF or NIF (a capital letter and eight
    digits, or eight digits and a capital letter), a number of
    employees above 0 and a surface above 0.  Each check that fails
    gives one entry, of severity error, for its field, in the order
    [nombre], [cif_nif], [num_empleados], [superficie_m2], and the
    result is valid when there is none.  A number is above 0 when it is
    neither 0 nor NaN and [0 < x] holds: in binary64, when [0 < x]. *)
Theorem validateOrganization_accepts_exactly :
  (forall (N : Type) (number : JsNumber N) (data : ValidationAgent.OrganizationData N),
     (isValid (ValidationAgent.validateOrganization data) = true <->
      errors (ValidationAgent.validateOrganization data) = []) /\
     Forall (fun e => severity e = error)
       (errors (ValidationAgent.validateOrganization data)) /\
     sublist (ve_field <$> errors (ValidationAgent.validateOrganization data))
       ["nombre"; "cif_nif"; "num_empleados"; "superficie_m2"]%string /\
     ("nombre"%string ∈ ve_field <$> errors (ValidationAgent.validateOrganization data) <->
      ~ exists s, ValidationAgent.od_nombre data = Some s /\
                  trim_is_empty (list_ascii_of_string s) = false) /\
     ("cif_nif"%string ∈ ve_field <$> errors (ValidationAgent.validateOrganization data) <->
      ~ exists s, ValidationAgent.od_cif_nif data = Some s /\ es_cif_nif s) /\
     ("num_empleados"%string
        ∈ ve_field <$> errors (ValidationAgent.validateOrganization data) <->
      ~ exists x, ValidationAgent.od_num_empleados data = Some x /\
                  truthy x = true /\ ltb (lit 0) x = true) /\
     ("superficie_m2"%string
        ∈ ve_field <$> errors (ValidationAgent.validateOrganization data) <->
      ~ exists x, ValidationAgent.od_superficie_m2 data = Some x /\
                  truthy x = true /\ ltb (lit 0) x = true)) /\
  (forall x : float,
     truthy x = true /\ ltb (lit 0) x = true <-> PrimFloat.ltb 0 x = true) /\
  ValidationAgent.validateOrganization (organizacion_valida (N := float))
  = {| isValid := true; errors := [] |} /\
  ValidationAgent.validateOrganization (organizacion_no_valida (N := float))
  = {| isValid := false;
       errors :=
         [ {| ve_field := "cif_nif";
              message := [Lit "CIF/NIF no válido (formato: B12345678 o 12345678A)"];
              severity := error |};
           {| ve_field := "num_empleados";
              message := [Lit "Debe indicar al menos 1 empleado"];
              severity := error |} ] |}.
Proof.
  split; [|split; [exact positive_binary64|split; vm_compute; reflexivity]].
  intros N number data.
  destruct (validateOrganization_eq data)
    as (b1 & b2 & b3 & b4 & H1 & H2 & H3 & H4 & Hfields & Hsev & Hvalid).
  rewrite Hvalid, Hfields, <- H1, <- H2, <- H3, <- H4.
  assert (Hnil : errors (ValidationAgent.validateOrganization data) = [] <->
                 ve_field <$> errors (ValidationAgent.validateOrganization data) = []).
  { destruct (errors _); cbn; split; congruence. }
  rewrite Hnil, Hfields.
  split; [|split; [exact Hsev|]].
  - destruct b1, b2, b3, b4; cbn; split; congruence.
  - split.
    + destruct b1, b2, b3, b4; cbn;
        repeat first [apply sublist_nil | apply sublist_skip | apply sublist_cons].
    + rewrite !not_false_iff_true. apply campos_de_error.
Qed.
